(** * scripts/download_student_images.py: naming scheme, task builder,
      download pool and command-line driver.

    The script is embedded shallowly.  Python strings are lists of Unicode
    code points, optional JSON fields are [option]s, exceptions are values of
    a [result] type, and the interactive driver runs in a small state and
    exception monad over the console, the directories and the files. *)

From Stdlib Require Import ZArith NArith List Bool Lia String Ascii.
From Stdlib Require Import DecimalString DecimalPos DecimalZ Permutation.
Import ListNotations.

(** ** Python values used by the script *)

Module Py.

(** A [str] is a sequence of code points. *)
Definition char := N.
Definition str := list char.

Definition lit (s : string) : str :=
  map N_of_ascii (list_ascii_of_string s).

(** [str.isspace] on one code point, the table of CPython's
    [_PyUnicode_IsWhitespace]; the [\s] class of [re] on [str] patterns
    and the argument-less [split] and [strip] use the same table. *)
Definition isspace (c : char) : bool :=
  ((0x09 <=? c) && (c <=? 0x0D) || (0x1C <=? c) && (c <=? 0x20)
   || (c =? 0x85) || (c =? 0xA0) || (c =? 0x1680)
   || (0x2000 <=? c) && (c <=? 0x200A)
   || (c =? 0x2028) || (c =? 0x2029) || (c =? 0x202F) || (c =? 0x205F)
   || (c =? 0x3000))%N.

(** The class [a-zA-Z0-9]. *)
Definition is_ascii_alnum (c : char) : bool :=
  ((0x61 <=? c) && (c <=? 0x7A) || (0x41 <=? c) && (c <=? 0x5A)
   || (0x30 <=? c) && (c <=? 0x39))%N.

Definition is_ascii_letter (c : char) : bool :=
  ((0x61 <=? c) && (c <=? 0x7A) || (0x41 <=? c) && (c <=? 0x5A))%N.

Definition is_digit (c : char) : bool := ((0x30 <=? c) && (c <=? 0x39))%N.

(** Truthiness, as [bool(x)] computes it. *)
Class Truthy (A : Type) := truthy : A -> bool.

#[global] Instance truthy_list {A} : Truthy (list A) :=
  fun l => match l with [] => false | _ :: _ => true end.
#[global] Instance truthy_str : Truthy str := truthy_list.
#[global] Instance truthy_int : Truthy Z := fun z => negb (z =? 0)%Z.
#[global] Instance truthy_bool : Truthy bool := fun b => b.
#[global] Instance truthy_option {A} `{Truthy A} : Truthy (option A) :=
  fun o => match o with Some a => truthy a | None => false end.

(** [x or d] where [x] comes from [dict.get] (so may be [None]) and [d]
    is a plain value. *)
Definition or_default {A} `{Truthy A} (x : option A) (d : A) : A :=
  match x with
  | Some a => if truthy a then a else d
  | None => d
  end.

(** [x or d] for two plain values. *)
Definition or_value {A} `{Truthy A} (x d : A) : A :=
  if truthy x then x else d.

(** [x or y] where both operands come from [dict.get]. *)
Definition or_else {A} `{Truthy A} (x y : option A) : option A :=
  if truthy x then x else y.

(** [str(n)] and the [{n}] of an f-string for an [int]. *)
Definition str_of_int (z : Z) : str :=
  lit (NilZero.string_of_int (Z.to_int z)).

Fixpoint dropwhile {A} (f : A -> bool) (l : list A) : list A :=
  match l with
  | [] => []
  | x :: l' => if f x then dropwhile f l' else l
  end.

Fixpoint takewhile {A} (f : A -> bool) (l : list A) : list A :=
  match l with
  | [] => []
  | x :: l' => if f x then x :: takewhile f l' else []
  end.

(** [s.strip()] *)
Definition lstrip (s : str) : str := dropwhile isspace s.
Definition rstrip (s : str) : str := rev (dropwhile isspace (rev s)).
Definition strip (s : str) : str := rstrip (lstrip s).

(** [s.split()]: the maximal runs of non-whitespace, in order.  [tok]
    is the token being read, last character first. *)
Definition flush (tok : str) (rest : list str) : list str :=
  match tok with [] => rest | _ :: _ => rev tok :: rest end.

Fixpoint split_from (tok : str) (s : str) : list str :=
  match s with
  | [] => flush tok []
  | c :: s' =>
      if isspace c then flush tok (split_from [] s')
      else split_from (c :: tok) s'
  end.

Definition split (s : str) : list str := split_from [] s.

(** [s.split(sep)] for a one-character separator: never empty. *)
Fixpoint split_on (sep : char) (s : str) : list str :=
  match s with
  | [] => [[]]
  | c :: s' =>
      if (c =? sep)%N then [] :: split_on sep s'
      else match split_on sep s' with
           | t :: ts => (c :: t) :: ts
           | [] => [[c]]
           end
  end.

(** [s.startswith(p)] *)
Fixpoint startswith (p s : str) : bool :=
  match p, s with
  | [], _ => true
  | a :: p', b :: s' => (a =? b)%N && startswith p' s'
  | _ :: _, [] => false
  end.

(** [s.rfind(c)] for one character: the last index, or -1. *)
Fixpoint rfind_from (c : char) (s : str) (i : Z) (last : Z) : Z :=
  match s with
  | [] => last
  | x :: s' => rfind_from c s' (i + 1) (if (x =? c)%N then i else last)
  end.

Definition rfind (c : char) (s : str) : Z := rfind_from c s 0 (-1).

(** [s[i:j]] for [0 <= i]. *)
Definition slice (s : str) (i j : Z) : str :=
  firstn (Z.to_nat (j - i)) (skipn (Z.to_nat i) s).

(** [re.sub("[cls]", repl, s)]: every character of the class is one
    match. *)
Definition re_sub_class (cls : char -> bool) (repl s : str) : str :=
  flat_map (fun c => if cls c then repl else [c]) s.

(** [re.sub("[cls]+", repl, s)]: every maximal run of the class is one
    match.  [in_run] tells whether the previous character was matched. *)
Fixpoint re_sub_runs_from (cls : char -> bool) (repl : str)
         (in_run : bool) (s : str) : str :=
  match s with
  | [] => []
  | c :: s' =>
      if cls c then
        (if in_run then [] else repl) ++ re_sub_runs_from cls repl true s'
      else c :: re_sub_runs_from cls repl false s'
  end.

Definition re_sub_runs (cls : char -> bool) (repl s : str) : str :=
  re_sub_runs_from cls repl false s.

(** [posixpath.splitext]: the extension starts at the last dot of the
    last path component, unless that component has only dots before it. *)
Definition splitext (p : str) : str * str :=
  let sepIndex := rfind 0x2F%N p in
  let dotIndex := rfind 0x2E%N p in
  if (sepIndex <? dotIndex)%Z
     && existsb (fun c => negb (c =? 0x2E)%N)
                (slice p (sepIndex + 1) dotIndex)
  then (firstn (Z.to_nat dotIndex) p, skipn (Z.to_nat dotIndex) p)
  else (p, []).

(** Exceptions.  [SystemExit] and [KeyboardInterrupt] are not subclasses
    of [Exception]. *)
Inductive exn_class :=
| IndexError | ValueError | AssertionError | EOFError | OSError
| FileExistsError | NotADirectoryError
| RequestException | KeyboardInterrupt.

Inductive exn :=
| Raised (k : exn_class) (msg : str)
| SystemExit (code : Z).

(** [isinstance(e, OSError)] *)
Definition is_OSError (e : exn) : bool :=
  match e with
  | Raised OSError _ | Raised FileExistsError _
  | Raised NotADirectoryError _ => true
  | _ => false
  end.

Definition is_Exception (e : exn) : bool :=
  match e with
  | Raised KeyboardInterrupt _ => false
  | Raised _ _ => true
  | SystemExit _ => false
  end.

Inductive result (A : Type) :=
| Ok (a : A)
| Raise (e : exn).
Arguments Ok {A} a.
Arguments Raise {A} e.

(** [l[0]] *)
Definition index0 {A} (l : list A) : result A :=
  match l with
  | x :: _ => Ok x
  | [] => Raise (Raised IndexError (lit "list index out of range"))
  end.

End Py.

Import Py.

(** ** Naming scheme *)

(** The class [[^a-zA-Z0-9\s]] of line 41. *)
Definition non_alnum_space (c : char) : bool :=
  negb (is_ascii_alnum c || isspace c).

(** Lines 37 to 43.  [main] passes [school.get('name')], which may be
    [None]. *)
Definition sanitize_school_name (name : option str) : str :=
  match name with
  | Some name =>
      if negb (truthy name) then lit "unknown"
      else
        let clean := re_sub_class non_alnum_space [] name in
        let clean := strip (re_sub_runs isspace (lit "_") clean) in
        or_value clean (lit "unknown")
  | None => lit "unknown"
  end.

(** Lines 46 to 48; [Raise] is the [IndexError] of [split()[0]]. *)
Definition student_folder_name (first_name : option str) (age grade : Z)
           (section blood_group student_id : str) : result str :=
  match index0 (split (or_default first_name (lit "unknown"))) with
  | Raise e => Raise e
  | Ok first =>
      Ok (lit "student@" ++ first ++ lit "@" ++ str_of_int age
          ++ lit "@" ++ str_of_int grade ++ lit "@" ++ section
          ++ lit "@" ++ blood_group ++ lit "@" ++ student_id)
  end.

(** ** Data model: the records of the two JSON payloads *)

Module School.
Record t := { name : option str; schoolId : option str; _id : option str }.
End School.

(** The generic identifier of a student is a string or a number; [str]
    coerces it. *)
Inductive ident :=
| IdStr (s : str)
| IdInt (n : Z).

Definition str_of_ident (i : option ident) : str :=
  match i with
  | Some (IdStr s) => s
  | Some (IdInt n) => str_of_int n
  | None => lit "None"
  end.

Module Photo.
Record t := {
  photoPath : option str;
  secure_url : option str;
  url : option str;
  photoNumber : option Z }.
End Photo.

Module Student.
Record t := {
  firstName : option str;
  dob : option str;
  grade : option Z;
  section : option str;
  bloodGroup : option str;
  studentId : option str;
  id : option ident;
  photos : option (list Photo.t) }.
End Student.

Definition str_eqb (a b : str) : bool :=
  if list_eq_dec N.eq_dec a b then true else false.

(** A [Path] is the tuple of its [parts], as [pathlib] keeps it: the root
    first, when the path has one, then the names. *)
Definition path := list str.

Definition is_slash (c : char) : bool := (c =? 0x2F)%N.

(** The root of a path string: none, [/], or [//] for exactly two leading
    slashes. *)
Definition path_root (s : str) : str :=
  match List.length (takewhile is_slash s) with
  | 0 => []
  | 2 => lit "//"
  | _ => lit "/"
  end%nat.

(** The names of a path string: what lies between the slashes, the empty
    names and the names [.] dropped; [..] is kept. *)
Definition path_names (s : str) : list str :=
  filter (fun x => truthy x && negb (str_eqb x (lit ".")))
         (split_on 0x2F%N s).

(** [Path(s)] *)
Definition Path (s : str) : path :=
  match path_root s with
  | [] => path_names s
  | root => root :: path_names s
  end.

(** [p / s]: the parts of [s] are appended, unless [s] has a root and
    replaces [p]. *)
Definition path_join (p : path) (s : str) : path :=
  match path_root s with
  | [] => p ++ path_names s
  | root => root :: path_names s
  end.

Fixpoint join_names (names : list str) : str :=
  match names with
  | [] => []
  | [c] => c
  | c :: names' => c ++ lit "/" ++ join_names names'
  end.

(** [str(p)] *)
Definition str_of_path (p : path) : str :=
  match p with
  | [] => lit "."
  | c :: names => if startswith (lit "/") c then c ++ join_names names
                  else join_names p
  end.

Definition task := (str * path)%type.

(** What the task builder reads from outside the payload. *)
Record Env := { now_year : Z; thread_ident : Z }.

Record date := { year : Z; month : Z; day : Z }.

(** [str(x)] of a string that may be [None]. *)
Definition str_of_opt (x : option str) : str :=
  match x with Some s => s | None => lit "None" end.

Definition nl : str := [0x0A%N].

(** ** The world outside the script *)

Definition bytes := list N.

(** A JSON body of the backend: the two keys the script reads, and the
    text [print] shows for the whole object. *)
Module Body.
Record t (A : Type) := {
  success : option bool;
  data : option (list A);
  shown : str }.
Arguments success {A} _.
Arguments data {A} _.
Arguments shown {A} _.
End Body.

(** The outcome of a call that either delivers or raises a subclass of
    [Exception] whose [str] is [msg]. *)
Inductive reply (A : Type) :=
| Got (a : A)
| Failed (msg : str).
Arguments Got {A} a.
Arguments Failed {A} msg.

Record World := {
  env : Env;
  (** [SESSION.get(url).json()] after [raise_for_status] *)
  get_json : str -> reply (Body.t School.t);
  (** [SESSION.post(url, json={username, password}).json()] *)
  post_json : str -> str -> str -> reply (Body.t Student.t);
  (** [SESSION.get(url).content] after [raise_for_status] *)
  session_get : str -> reply bytes;
  (** [open(target, 'wb')] and the write *)
  open_wb : path -> reply unit;
  stdin_isatty : bool;
  (** the order in which the pool's futures complete *)
  completion : list nat }.

(** The arguments, [out] as the [Path] line 82 makes of it. *)
Record Args := {
  base_url : str;
  out : path;
  workers : Z;
  username : option str;
  password : option str }.

Inductive output :=
| Printed (line : str)
| Prompted (prompt : str).

(** The console and the disk: the console reads still to come (each
    delivers a line or raises), what was written to standard output, the
    paths that name a directory, the regular files with their content, and
    the answer of the operating system to [os.mkdir] of a path that is not
    among these and whose parent is a directory: it raises when the parent
    is not writable, the name is too long, the disk is full, and so on.
    Directories and files are listed under their parts as written; what the
    lists do not tell, such as a second spelling of a listed path through
    [..], is in that answer. *)
Record State := {
  reads : list (result str);
  stdout : list output;
  dirs : list path;
  files : list (path * bytes);
  os_mkdir : path -> reply unit }.

Definition M (A : Type) : Type := State -> result A * State.

Definition ret {A} (a : A) : M A := fun st => (Ok a, st).

Definition bind {A B} (m : M A) (k : A -> M B) : M B :=
  fun st =>
    match m st with
    | (Ok a, st') => k a st'
    | (Raise e, st') => (Raise e, st')
    end.

Definition raise {A} (e : exn) : M A := fun st => (Raise e, st).

Definition lift {A} (r : result A) : M A := fun st => (r, st).

(** [try: m except <catches> as e: h e] *)
Definition try_except {A} (catches : exn -> bool) (m : M A)
           (h : exn -> M A) : M A :=
  fun st =>
    match m st with
    | (Ok a, st') => (Ok a, st')
    | (Raise e, st') => if catches e then h e st' else (Raise e, st')
    end.

Declare Scope py_scope.
Delimit Scope py_scope with py.
Notation "x <- m ;; k" := (bind m (fun x => k))
  (at level 61, m at next level, right associativity) : py_scope.
Notation "m ;; k" := (bind m (fun _ => k))
  (at level 61, right associativity) : py_scope.
Open Scope py_scope.

Definition sys_exit {A} (code : Z) : M A := raise (SystemExit code).

Definition str_of_exn (e : exn) : str :=
  match e with
  | Raised _ msg => msg
  | SystemExit code => str_of_int code
  end.

Definition of_reply {A} (k : exn_class) (r : reply A) : M A :=
  match r with
  | Got a => ret a
  | Failed msg => raise (Raised k msg)
  end.

Definition emit (o : output) : M unit :=
  fun st =>
    (Ok tt, {| reads := reads st; stdout := stdout st ++ [o];
               dirs := dirs st; files := files st;
               os_mkdir := os_mkdir st |}).

Definition print (line : str) : M unit := emit (Printed line).

(** The next console read: the line typed, or what the read raises;
    [EOFError] when nothing is left. *)
Definition next_read : M str :=
  fun st =>
    match reads st with
    | [] => (Raise (Raised EOFError (lit "EOF when reading a line")), st)
    | r :: rest =>
        (r, {| reads := rest; stdout := stdout st;
               dirs := dirs st; files := files st;
               os_mkdir := os_mkdir st |})
    end.

Definition input (prompt : str) : M str :=
  emit (Prompted prompt) ;; next_read.

(** [getpass.getpass] prompts on the terminal, not on standard output. *)
Definition getpass (prompt : str) : M str := next_read.

Definition path_eqb (p q : path) : bool :=
  if list_eq_dec (list_eq_dec N.eq_dec) p q then true else false.

Fixpoint prefixes (done : path) (p : path) : list path :=
  match p with
  | [] => []
  | c :: p' => (done ++ [c]) :: prefixes (done ++ [c]) p'
  end.

Definition is_file (st : State) (q : path) : bool :=
  existsb (fun f => path_eqb (fst f) q) (files st).

Definition with_dir (st : State) (q : path) : State :=
  {| reads := reads st; stdout := stdout st; dirs := dirs st ++ [q];
     files := files st; os_mkdir := os_mkdir st |}.

(** A path that is there as soon as its parent is: the root, and the [..]
    of a directory. *)
Definition always_there (q : path) : bool :=
  match rev q with
  | c :: r => str_eqb c (lit "..") || (startswith (lit "/") c && negb (truthy r))
  | [] => true
  end.

Definition errno_text (k : exn_class) (p : path) : str :=
  (match k with
   | FileExistsError => lit "[Errno 17] File exists: '"
   | _ => lit "[Errno 20] Not a directory: '"
   end) ++ str_of_path p ++ lit "'".

(** What [p.mkdir(parents=True, exist_ok=True)] does about [q], one of the
    paths that lead to [p], once the parent of [q] is a directory: nothing
    when [q] is a directory; a regular file at [q] stops the call, with
    [FileExistsError] when [q] is [p] itself and [NotADirectoryError] when
    [p] lies beyond it; a root or a [..] is there already; any other [q] is
    made when the operating system lets it, and its refusal is raised. *)
Definition mkdir_step (p q : path) : M unit :=
  fun st =>
    if existsb (path_eqb q) (dirs st) then (Ok tt, st)
    else if is_file st q then
      let k := if path_eqb q p then FileExistsError else NotADirectoryError in
      (Raise (Raised k (errno_text k p)), st)
    else if always_there q then (Ok tt, with_dir st q)
    else
      match os_mkdir st q with
      | Got _ => (Ok tt, with_dir st q)
      | Failed msg => (Raise (Raised OSError msg), st)
      end.

Fixpoint mkdir_each (p : path) (qs : list path) : M unit :=
  match qs with
  | [] => ret tt
  | q :: qs' => mkdir_step p q ;; mkdir_each p qs'
  end.

(** [p.mkdir(parents=True, exist_ok=True)]: the library tries [p], and on
    [FileNotFoundError] makes the parent first, in the same way, and tries
    again; in effect the paths that lead to [p] are gone through from the
    outermost on. *)
Definition mkdir_parents (p : path) : M unit := mkdir_each p (prefixes [] p).

Definition ensure_dir (p : path) : M unit := mkdir_parents p.

Definition write_file (target : path) (content : bytes) : M unit :=
  fun st =>
    (Ok tt, {| reads := reads st; stdout := stdout st; dirs := dirs st;
               files := (target, content)
                        :: filter (fun f => negb (path_eqb (fst f) target))
                                  (files st);
               os_mkdir := os_mkdir st |}).

(** ** The script *)

(** Lines 55 to 64, without the timeout. *)
Definition download_url (w : World) (url : str) (target : path) : M bool :=
  try_except is_Exception
    (content <- of_reply RequestException (session_get w url) ;;
     of_reply OSError (open_wb w target) ;;
     write_file target content ;;
     ret true)
    (fun e =>
       print (lit "Failed to download " ++ url ++ lit ": " ++ str_of_exn e) ;;
       ret false).

(** Line 191, the URL of a photo: [p.get('photoPath') or
    p.get('secure_url') or p.get('url')]. *)
Definition photo_url (p : Photo.t) : option str :=
  or_else (or_else (Photo.photoPath p) (Photo.secure_url p)) (Photo.url p).

(** Lines 196 to 198, the extension of a task's file. *)
Definition file_ext (url : str) : str :=
  let ext :=
    or_value (snd (splitext (hd [] (split_on 0x3F%N url)))) (lit ".jpg") in
  if (5 <? List.length ext)%nat then lit ".jpg" else ext.

(** Lines 195 and 199, the name of a task's file. *)
Definition photo_filename (e : Env) (p : Photo.t) (url : str) : str :=
  let num := Photo.photoNumber p in
  str_of_int (match num with Some n => n | None => thread_ident e end)
  ++ file_ext url.

(** Lines 190 to 201, the loop over the photos of one student. *)
Fixpoint photo_loop (e : Env) (student_folder : path)
         (photos : list Photo.t) (tasks : list task) : list task :=
  match photos with
  | [] => tasks
  | p :: photos' =>
      match photo_url p with
      | Some url =>
          if negb (truthy url) || negb (startswith (lit "http") url)
          then photo_loop e student_folder photos' tasks
          else
            let target := path_join student_folder (photo_filename e p url) in
            photo_loop e student_folder photos' (tasks ++ [(url, target)])
      | None => photo_loop e student_folder photos' tasks
      end
  end.

(** Line 110, the range assertion on [int(choice) - 1]. *)
Definition check_range (idx : Z) (n : nat) : M Z :=
  if (0 <=? idx)%Z && (idx <? Z.of_nat n)%Z then ret idx
  else raise (Raised AssertionError []).

(** [l[i]] for [0 <= i]. *)
Definition getitem {A} (l : list A) (i : Z) : result A :=
  match nth_error l (Z.to_nat i) with
  | Some x => Ok x
  | None => Raise (Raised IndexError (lit "list index out of range"))
  end.

(** [s.rstrip('/')] *)
Definition rstrip_slash (s : str) : str :=
  rev (dropwhile (fun c => (c =? 0x2F)%N) (rev s)).

(** Lines 104 and 105. *)
Fixpoint print_schools (i : Z) (schools : list School.t) : M unit :=
  match schools with
  | [] => ret tt
  | s :: schools' =>
      print (str_of_int i ++ lit ") " ++ str_of_opt (School.name s) ++ lit " ("
             ++ str_of_opt (or_else (School.schoolId s) (School._id s))
             ++ lit ")") ;;
      print_schools (i + 1) schools'
  end.

(** Lines 212 to 217, the loop over the futures as they complete.  The
    pool is linearised: the effects of a task take place when its future
    completes, just before the driver handles it. *)
Fixpoint collect (w : World) (done : list task) (success_count : Z) : M Z :=
  match done with
  | [] => ret success_count
  | (url, target) :: done' =>
      ok <- download_url w url target ;;
      if ok : bool then
        print (lit "Saved: " ++ str_of_path target) ;;
        collect w done' (success_count + 1)
      else collect w done' success_count
  end.

(** [as_completed]: the futures in the order the world completes them.
    Each number of [order] picks one of the futures still pending. *)
Fixpoint remove_nth {A} (k : nat) (l : list A) : list A :=
  match k, l with
  | _, [] => []
  | O, _ :: l' => l'
  | S k', x :: l' => x :: remove_nth k' l'
  end.

Fixpoint as_completed {A} (fuel : nat) (order : list nat)
         (pending : list A) : list A :=
  match fuel, pending with
  | S fuel', x :: _ =>
      let k := (hd O order mod List.length pending)%nat in
      nth k pending x :: as_completed fuel' (tl order) (remove_nth k pending)
  | _, _ => []
  end.

Section Script.

(** [datetime.fromisoformat]; [None] when it raises. *)
Variable fromisoformat : str -> option date.
(** [int] on a string; [None] when it raises [ValueError]. *)
Variable int_of_str : str -> option Z.

(** Lines 171 to 178. *)
Definition student_age (e : Env) (dob : option str) : Z :=
  match dob with
  | Some dob =>
      if truthy dob then
        match fromisoformat dob with
        | Some born => now_year e - year born
        | None => 0
        end
      else 0
  | None => 0
  end%Z.

(** Lines 170 to 185, the folder name the task builder gives a student. *)
Definition student_folder_of (e : Env) (s : Student.t) : result str :=
  let first := or_default (Student.firstName s) (lit "unknown") in
  let age := student_age e (Student.dob s) in
  let grade := or_default (Student.grade s) 0%Z in
  let section := or_default (Student.section s) (lit "A") in
  let blood := or_default (Student.bloodGroup s) (lit "NA") in
  let student_id :=
    or_default (Student.studentId s) (str_of_ident (Student.id s)) in
  student_folder_name (Some first) age grade section blood student_id.

(** Lines 169 to 201, the loop over the students. *)
Fixpoint student_loop (e : Env) (base_school_folder : path)
         (students : list Student.t) (tasks : list task) : M (list task) :=
  match students with
  | [] => ret tasks
  | s :: students' =>
      folder_name <- lift (student_folder_of e s) ;;
      let student_folder := path_join base_school_folder folder_name in
      ensure_dir student_folder ;;
      let photos := or_default (Student.photos s) [] in
      student_loop e base_school_folder students'
                   (photo_loop e student_folder photos tasks)
  end.

(** Lines 165 to 201, the task builder. *)
Definition build_tasks (e : Env) (out_root : path) (school_name : str)
           (students : list Student.t) : M (list task) :=
  let base_school_folder :=
    path_join (path_join out_root school_name) (lit "Students") in
  ensure_dir base_school_folder ;;
  student_loop e base_school_folder students [].

(** Lines 86 to 97. *)
Definition list_schools (w : World) (base : str) : M (list School.t) :=
  let schools_url := base ++ lit "/api/admin/export/schools" in
  try_except is_Exception
    (data <- of_reply RequestException (get_json w schools_url) ;;
     if negb (truthy (Body.success data)) then
       print (lit "Failed to list schools: " ++ Body.shown data) ;;
       sys_exit 1
     else ret (or_default (Body.data data) []))
    (fun e =>
       print (lit "Error fetching schools: " ++ str_of_exn e) ;;
       sys_exit 1).

(** Lines 103 to 115. *)
Definition select_school (schools : list School.t) : M School.t :=
  print (lit "Select a school:") ;;
  print_schools 1 schools ;;
  choice <- input (lit "Enter number: ") ;;
  let choice := strip choice in
  idx <- try_except is_Exception
           (match int_of_str choice with
            | Some n => check_range (n - 1) (List.length schools)
            | None => raise (Raised ValueError (lit "invalid literal for int()"))
            end)
           (fun _ => print (lit "Invalid choice") ;; sys_exit 1) ;;
  lift (getitem schools idx).

(** Lines 121 to 124. *)
Definition read_username (a : Args) : M str :=
  match username a with
  | Some u =>
      if truthy u then ret (strip u)
      else (u <- input (lit "Admin username: ") ;; ret (strip u))
  | None => u <- input (lit "Admin username: ") ;; ret (strip u)
  end.

(** [except (Exception, KeyboardInterrupt)] *)
Definition is_Exception_or_KeyboardInterrupt (e : exn) : bool :=
  match e with
  | Raised _ _ => true
  | SystemExit _ => false
  end.

(** Lines 130 to 145. *)
Definition prompt_password (w : World) : M str :=
  try_except is_Exception_or_KeyboardInterrupt
    (if negb (stdin_isatty w)
     then input (lit "Admin password (will be visible): ")
     else getpass (lit "Admin password: "))
    (fun _ =>
       try_except is_Exception
         (input (nl ++ lit "Admin password (fallback, visible): "))
         (fun _ =>
            print (nl ++ lit "Failed to read password interactively. Provide --password or run in an interactive terminal.") ;;
            sys_exit 1)).

(** Lines 127 to 145. *)
Definition read_password (w : World) (a : Args) : M str :=
  match password a with
  | Some p => if truthy p then ret p else prompt_password w
  | None => prompt_password w
  end.

(** Lines 147 to 160. *)
Definition export_students (w : World) (base school_id username password : str)
  : M (list Student.t) :=
  let export_url :=
    base ++ lit "/api/admin/export/schools/" ++ school_id ++ lit "/students" in
  try_except is_Exception
    (data <- of_reply RequestException
               (post_json w export_url username password) ;;
     if negb (truthy (Body.success data)) then
       print (lit "Failed to export students: " ++ Body.shown data) ;;
       sys_exit 1
     else ret (or_default (Body.data data) []))
    (fun e =>
       print (lit "Error exporting students: " ++ str_of_exn e) ;;
       sys_exit 1).

(** Lines 208 to 217.  [ThreadPoolExecutor] refuses a worker count below one;
    every task is submitted, and the driver handles the futures in the
    order they complete. *)
Definition run_pool (w : World) (max_workers : Z) (tasks : list task) : M Z :=
  if (max_workers <=? 0)%Z
  then raise (Raised ValueError (lit "max_workers must be greater than 0"))
  else collect w (as_completed (List.length tasks) (completion w) tasks) 0%Z.

(** Lines 81 to 115 of [main]: the output root, the list of schools and
    the operator's choice. *)
Definition choose_school (a : Args) (w : World) : M School.t :=
  let base := rstrip_slash (base_url a) in
  let out_root := out a in
  mkdir_parents out_root ;;
  schools <- list_schools w base ;;
  if negb (truthy schools) then
    print (lit "No active schools available") ;;
    sys_exit 0
  else select_school schools.

(** Lines 120 to 145: the credentials. *)
Definition credentials (a : Args) (w : World) : M (str * str) :=
  username <- read_username a ;;
  password <- read_password w a ;;
  ret (username, password).

(** Lines 81 to 201: everything up to the list of download tasks. *)
Definition gather_tasks (a : Args) (w : World) : M (list task) :=
  let base := rstrip_slash (base_url a) in
  let out_root := out a in
  school <- choose_school a w ;;
  let school_id :=
    str_of_opt (or_else (School._id school) (School.schoolId school)) in
  let school_name := sanitize_school_name (School.name school) in
  login <- credentials a w ;;
  let '(username, password) := login in
  students <- export_students w base school_id username password ;;
  print (lit "Fetched " ++ str_of_int (Z.of_nat (List.length students))
         ++ lit " students. Preparing to download images...") ;;
  build_tasks (env w) out_root school_name students.

(** Lines 219 and 220, the text of the summary. *)
Definition summary (success_count : Z) (total : nat) (out_root : path) : str :=
  lit "Completed. " ++ str_of_int success_count ++ lit "/"
  ++ str_of_int (Z.of_nat total)
  ++ lit " images downloaded to " ++ str_of_path out_root.

(** [main], lines 67 to 220. *)
Definition main (a : Args) (w : World) : M unit :=
  tasks <- gather_tasks a w ;;
  if negb (truthy tasks) then
    print (lit "No downloadable images found for selected school.") ;;
    sys_exit 0
  else
    success_count <- run_pool w (workers a) tasks ;;
    print (summary success_count (List.length tasks) (out a)).

End Script.

(** The status the interpreter exits with: 0 when [main] returns, the
    code of [sys.exit], 1 for an uncaught exception (130 for an uncaught
    [KeyboardInterrupt]). *)
Definition exit_status (r : result unit) : Z :=
  match r with
  | Ok _ => 0
  | Raise (SystemExit code) => code
  | Raise (Raised KeyboardInterrupt _) => 130
  | Raise (Raised _ _) => 1
  end%Z.

(** ** Two fragments of the library, for concrete runs *)

Definition digit (c : char) : option Z :=
  if is_digit c then Some (Z.of_N (c - 0x30)) else None.

Fixpoint digits (s : str) (acc : Z) : option Z :=
  match s with
  | [] => Some acc
  | c :: s' =>
      match digit c with
      | Some d => digits s' (10 * acc + d)%Z
      | None => None
      end
  end.

Definition is_leap (y : Z) : bool :=
  ((y mod 4 =? 0) && (negb (y mod 100 =? 0) || (y mod 400 =? 0)))%Z.

Definition days_in_month (y m : Z) : Z :=
  (if m =? 2 then (if is_leap y then 29 else 28)
   else if (m =? 4) || (m =? 6) || (m =? 9) || (m =? 11) then 30 else 31)%Z.

(** [datetime.fromisoformat] on the calendar form [YYYY-MM-DD], which every
    version of the library reads; this fragment refuses all other strings. *)
Definition fromisoformat_ymd (s : str) : option date :=
  match s with
  | [y1; y2; y3; y4; h1; m1; m2; h2; d1; d2] =>
      if ((h1 =? 0x2D) && (h2 =? 0x2D))%N then
        match digits [y1; y2; y3; y4] 0, digits [m1; m2] 0, digits [d1; d2] 0 with
        | Some y, Some m, Some d =>
            if ((1 <=? y) && (1 <=? m) && (m <=? 12) && (1 <=? d)
                && (d <=? days_in_month y m))%Z
            then Some {| year := y; month := m; day := d |}
            else None
        | _, _, _ => None
        end
      else None
  | _ => None
  end.

(** [int] on ASCII input: surrounding whitespace, an optional sign, and
    digits in groups separated by single underscores. *)
Definition int_ascii (s : str) : option Z :=
  let s := strip s in
  let '(neg, body) :=
    match s with
    | c :: s' =>
        if (c =? 0x2D)%N then (true, s')
        else if (c =? 0x2B)%N then (false, s') else (false, s)
    | [] => (false, s)
    end in
  let groups := split_on 0x5F%N body in
  if forallb (fun g => truthy g && forallb is_digit g) groups
  then option_map (fun n => if neg then (- n)%Z else n) (digits (List.concat groups) 0)
  else None.

(** ** Vocabulary of the specification *)

(** A character the sanitizer keeps: a letter, a digit or whitespace. *)
Definition kept (c : char) : bool :=
  is_ascii_letter c || is_digit c || isspace c.

Definition starts_with_space (s : str) : bool :=
  match s with
  | c :: _ => isspace c
  | [] => false
  end.

(** [collapsed s r]: [r] is [s] with each maximal run of whitespace
    replaced by one underscore. *)
Inductive collapsed : str -> str -> Prop :=
| collapsed_nil : collapsed [] []
| collapsed_char c s r :
    isspace c = false -> collapsed s r -> collapsed (c :: s) (c :: r)
| collapsed_run ws s r :
    ws <> [] -> forallb isspace ws = true -> starts_with_space s = false ->
    collapsed s r -> collapsed (ws ++ s) (lit "_" ++ r).

Definition no_space (s : str) : bool := forallb (fun c => negb (isspace c)) s.

(** The folder name, given the token that stands for the first name. *)
Definition folder_of_fields (first : str) (age grade : Z)
           (section blood_group student_id : str) : str :=
  lit "student@" ++ first ++ lit "@" ++ str_of_int age ++ lit "@"
  ++ str_of_int grade ++ lit "@" ++ section ++ lit "@" ++ blood_group
  ++ lit "@" ++ student_id.

Definition slash : char := 0x2F%N.
Definition dot : char := 0x2E%N.
Definition qmark : char := 0x3F%N.

(** [lacks c s]: the character [c] does not occur in [s]. *)
Definition lacks (c : char) (s : str) : bool :=
  forallb (fun x => negb (x =? c)%N) s.

(** A directory prefix: empty, or ending in a slash. *)
Definition is_dir (dir : str) : Prop :=
  dir = [] \/ exists d, dir = d ++ [slash].

(** A query string: empty, or starting at a question mark. *)
Definition is_query (query : str) : Prop :=
  query = [] \/ exists q, query = qmark :: q.

(** [extension url x]: the text of the URL before its first question
    mark, scheme, host and fragment included, ends in a last [/]-separated
    component [name ++ "." ++ e] whose [name] is not made of dots only, and
    [x] is [Some ("." ++ e)]; or that component has no dot, or has only dots
    before its last dot, and [x] is [None]. *)
Inductive extension : str -> option str -> Prop :=
| extension_found (dir name e query : str) :
    is_dir dir -> lacks qmark (dir ++ name ++ dot :: e) = true ->
    lacks slash (name ++ e) = true -> lacks dot e = true ->
    existsb (fun c => negb (c =? dot)%N) name = true -> is_query query ->
    extension ((dir ++ name ++ dot :: e) ++ query) (Some (dot :: e))
| extension_none (dir name query : str) :
    is_dir dir -> lacks qmark (dir ++ name) = true ->
    lacks slash name = true -> lacks dot name = true -> is_query query ->
    extension ((dir ++ name) ++ query) None
| extension_dots (dir dots e query : str) :
    is_dir dir -> lacks qmark (dir ++ dots ++ dot :: e) = true ->
    forallb (fun c => (c =? dot)%N) dots = true ->
    lacks slash e = true -> lacks dot e = true -> is_query query ->
    extension ((dir ++ dots ++ dot :: e) ++ query) None.

(** The usable URL of a photo: the first of [photoPath], [secure_url] and
    [url] that is present and not empty. *)
Fixpoint first_nonempty (fields : list (option str)) : option str :=
  match fields with
  | [] => None
  | Some (c :: u) :: _ => Some (c :: u)
  | _ :: fields' => first_nonempty fields'
  end.

Definition usable_url (p : Photo.t) : option str :=
  first_nonempty [Photo.photoPath p; Photo.secure_url p; Photo.url p].

(** A photo is eligible when its usable URL starts with [http]. *)
Definition eligible (p : Photo.t) : bool :=
  match usable_url p with
  | Some u => startswith (lit "http") u
  | None => false
  end.

(** Some field of the photo, whichever, starts with [http]. *)
Definition http_field (p : Photo.t) : bool :=
  existsb (fun f => match f with
                    | Some u => startswith (lit "http") u
                    | None => false
                    end)
          [Photo.photoPath p; Photo.secure_url p; Photo.url p].

(** The number of URL fields of the photo that are present and not
    empty. *)
Definition url_fields (p : Photo.t) : nat :=
  List.length (filter truthy
                      [Photo.photoPath p; Photo.secure_url p; Photo.url p]).

Definition url_of (p : Photo.t) : str :=
  match usable_url p with Some u => u | None => [] end.

(** The one task of an eligible photo. *)
Definition task_of (e : Env) (student_folder : path) (p : Photo.t) : task :=
  (url_of p, path_join student_folder (photo_filename e p (url_of p))).

(** A student whose first name is not a non-empty string of whitespace. *)
Definition nameable (s : Student.t) : bool :=
  existsb (fun c => negb (isspace c))
          (or_default (Student.firstName s) (lit "unknown")).

Definition student_tasks (fromisoformat : str -> option date) (e : Env)
           (base_school_folder : path) (s : Student.t) : list task :=
  match student_folder_of fromisoformat e s with
  | Ok folder_name =>
      map (task_of e (path_join base_school_folder folder_name))
          (filter eligible (or_default (Student.photos s) []))
  | Raise _ => []
  end.

Definition has_number (p : Photo.t) : bool :=
  match Photo.photoNumber p with Some _ => true | None => false end.

(** A student all of whose photos carry a photoNumber. *)
Definition numbered (s : Student.t) : bool :=
  forallb has_number (or_default (Student.photos s) []).

Definition succeeds (w : World) (t : task) : bool :=
  match session_get w (fst t), open_wb w (snd t) with
  | Got _, Got _ => true
  | _, _ => false
  end.

(** The text of the exception a failing task raises. *)
Definition cause (w : World) (t : task) : str :=
  match session_get w (fst t) with
  | Failed msg => msg
  | Got _ => match open_wb w (snd t) with Failed msg => msg | Got _ => [] end
  end.

Definition failure_line (w : World) (t : task) : output :=
  Printed (lit "Failed to download " ++ fst t ++ lit ": " ++ cause w t).

Definition saved_line (t : task) : output :=
  Printed (lit "Saved: " ++ str_of_path (snd t)).

Definition report (w : World) (t : task) : output :=
  if succeeds w t then saved_line t else failure_line w t.

Definition successes (w : World) (tasks : list task) : Z :=
  Z.of_nat (List.length (filter (succeeds w) tasks)).

(** The next console read and the reads left after it. *)
Definition pop (rs : list (result str)) : result str * list (result str) :=
  match rs with
  | [] => (Raise (Raised EOFError (lit "EOF when reading a line")), [])
  | r :: rest => (r, rest)
  end.

Definition schools_url (a : Args) : str :=
  rstrip_slash (base_url a) ++ lit "/api/admin/export/schools".

Definition export_url (a : Args) (school : School.t) : str :=
  rstrip_slash (base_url a) ++ lit "/api/admin/export/schools/"
  ++ str_of_opt (or_else (School._id school) (School.schoolId school))
  ++ lit "/students".

(** Nothing stands in the way of [q], a path whose parent is a directory:
    it is a directory, or it is no regular file and it is there with its
    parent or the operating system lets it be made. *)
Definition can_make (st : State) (q : path) : Prop :=
  In q (dirs st)
  \/ (is_file st q = false /\ (always_there q = true \/ os_mkdir st q = Got tt)).

(** The directory [p] is there or can be made, with the parents it lacks. *)
Definition makeable (st : State) (p : path) : Prop :=
  forall q, In q (prefixes [] p) -> can_make st q.

(** The second state has the directories of the first, and the same files,
    console and operating system. *)
Definition grown (st st' : State) : Prop :=
  (forall q, In q (dirs st) -> In q (dirs st'))
  /\ files st' = files st /\ stdout st' = stdout st /\ reads st' = reads st
  /\ os_mkdir st' = os_mkdir st.

(** The folder of the students of a school. *)
Definition students_root (out_root : path) (school_name : str) : path :=
  path_join (path_join out_root school_name) (lit "Students").

(** A metadata fetch fails: the call raises, or the body's success flag is
    false or absent. *)
Inductive fetch_failure {A : Type} : reply (Body.t A) -> Prop :=
| transport_error (msg : str) : fetch_failure (Failed msg)
| flag_false (b : Body.t A) : Body.success b = Some false -> fetch_failure (Got b)
| flag_absent (b : Body.t A) : Body.success b = None -> fetch_failure (Got b).

(** The state after one more item of output. *)
Definition logged (st : State) (o : output) : State :=
  {| reads := reads st; stdout := stdout st ++ [o];
     dirs := dirs st; files := files st; os_mkdir := os_mkdir st |}.

Section Scenarios.

Variable fromisoformat : str -> option date.
Variable int_of_str : str -> option Z.

(** A choice that is not a number, or not the number of a school. *)
Definition invalid_choice (choice : str) (n : nat) : Prop :=
  int_of_str choice = None
  \/ exists k, int_of_str choice = Some k /\ (k < 1 \/ Z.of_nat n < k)%Z.

(** The situations for which an exit status is laid down.  The backend
    is asked for the schools once the output root is there: the three
    situations that are told by its answer alone take the root to be
    makeable, the others take the run to have come past the selection. *)
Inductive scenario (a : Args) (w : World) (st : State) : Z -> Prop :=
| no_schools (b : Body.t School.t) :
    makeable st (out a) ->
    get_json w (schools_url a) = Got b -> Body.success b = Some true ->
    or_default (Body.data b) [] = [] ->
    scenario a w st 0
| no_tasks (st1 : State) :
    gather_tasks fromisoformat int_of_str a w st = (Ok [], st1) ->
    scenario a w st 0
| all_downloads_run (tasks : list task) (st1 : State) :
    gather_tasks fromisoformat int_of_str a w st = (Ok tasks, st1) ->
    tasks <> [] -> (0 < workers a)%Z ->
    scenario a w st 0
| schools_fetch_fails :
    makeable st (out a) ->
    fetch_failure (get_json w (schools_url a)) ->
    scenario a w st 1
| students_fetch_fails (school : School.t) (st1 : State) (u p : str)
                       (st2 : State) :
    choose_school int_of_str a w st = (Ok school, st1) ->
    credentials a w st1 = (Ok (u, p), st2) ->
    fetch_failure (post_json w (export_url a school) u p) ->
    scenario a w st 1
| invalid_selection (b : Body.t School.t) (choice : str)
                    (rest : list (result str)) :
    makeable st (out a) ->
    get_json w (schools_url a) = Got b -> Body.success b = Some true ->
    or_default (Body.data b) [] <> [] ->
    reads st = Ok choice :: rest ->
    invalid_choice (strip choice) (List.length (or_default (Body.data b) [])) ->
    scenario a w st 1
| username_failure (school : School.t) (st1 st2 : State) (e : exn) :
    choose_school int_of_str a w st = (Ok school, st1) ->
    read_username a st1 = (Raise e, st2) ->
    is_Exception e = true ->
    scenario a w st 1
| password_failure (school : School.t) (st1 : State) (u : str)
                     (st2 : State) (e1 e2 : exn) :
    choose_school int_of_str a w st = (Ok school, st1) ->
    read_username a st1 = (Ok u, st2) ->
    truthy (password a) = false ->
    fst (pop (reads st2)) = Raise e1 ->
    is_Exception_or_KeyboardInterrupt e1 = true ->
    fst (pop (snd (pop (reads st2)))) = Raise e2 ->
    is_Exception e2 = true ->
    scenario a w st 1.

End Scenarios.

(** A character of a sanitized name: of the class [a-zA-Z0-9] or an
    underscore. *)
Definition safe_char (c : char) : bool := is_ascii_alnum c || (c =? 0x5F)%N.

Definition at_sign : char := 0x40%N.

(** The characters of a decimal text: digits, and the minus sign. *)
Definition numeric (c : char) : bool := is_digit c || (c =? 0x2D)%N.

(** A task that fetches an [http] URL into a file two parts below the
    folder of the school's students: in the folder of a student, which is
    among the directories [made]. *)
Definition well_placed (base_school_folder : path) (made : list path)
           (t : task) : Prop :=
  startswith (lit "http") (fst t) = true
  /\ exists folder_name filename,
       snd t = base_school_folder ++ [folder_name; filename]
       /\ lacks slash folder_name = true
       /\ lacks slash filename = true
       /\ In (base_school_folder ++ [folder_name]) made.

Definition hash : char := 0x23%N.
Definition colon : char := 0x3A%N.

(** The text before the first [c], and the text from the first [c] on. *)
Definition before (c : char) (s : str) : str :=
  takewhile (fun x => negb (x =? c)%N) s.

Definition from (c : char) (s : str) : str :=
  dropwhile (fun x => negb (x =? c)%N) s.

Definition scheme_char (c : char) : bool :=
  is_ascii_alnum c || (c =? 0x2B)%N || (c =? 0x2D)%N || (c =? 0x2E)%N.

Definition is_scheme (s : str) : bool :=
  match s with
  | c :: _ => is_ascii_letter c && forallb scheme_char s
  | [] => false
  end.

(** The path portion of a URL, as RFC 3986 divides a URL into scheme,
    authority, path, query and fragment: what is left of the text before
    the first [#] and the first [?] once the scheme with its colon and the
    authority with its two slashes are taken off. *)
Definition url_path (url : str) : str :=
  let hier := before qmark (before hash url) in
  let rest :=
    match from colon hier with
    | _ :: after_colon =>
        if is_scheme (before colon hier) then after_colon else hier
    | [] => hier
    end in
  if startswith (lit "//") rest then from slash (skipn 2 rest) else rest.

(** The extension as the specification words it: the one of the URL's
    path portion, and [.jpg] when that has none or has one of more than 5
    characters. *)
Definition ext_of_url_path (url : str) : str :=
  let ext := snd (splitext (url_path url)) in
  if negb (truthy ext) || (5 <? List.length ext)%nat then lit ".jpg" else ext.

(** A computation that writes no file, however it ends. *)
Definition writes_no_file {A} (m : M A) : Prop :=
  forall st r st', m st = (r, st') -> files st' = files st.



(** The arguments with another base URL. *)
Definition with_base_url (a : Args) (base : str) : Args :=
  {| base_url := base; out := out a; workers := workers a;
     username := username a; password := password a |}.

(** ** Concrete records, worlds and runs *)

Definition born_2015 : Student.t :=
  {| Student.firstName := Some (lit "Jane Doe");
     Student.dob := Some (lit "2015-06-01");
     Student.grade := Some 5%Z;
     Student.section := Some (lit "B");
     Student.bloodGroup := Some (lit "O+");
     Student.studentId := Some (lit "S123");
     Student.id := None;
     Student.photos := None |}.

Definition in_2024 : Env := {| now_year := 2024; thread_ident := 140213 |}.

Definition unnumbered_photo : Photo.t :=
  {| Photo.photoPath := Some (lit "https://x/y/photo.PNG?x=1");
     Photo.secure_url := None;
     Photo.url := None;
     Photo.photoNumber := None |}.

(** A photo with a local path in its first field and a URL in its second. *)
Definition local_first : Photo.t :=
  {| Photo.photoPath := Some (lit "uploads/a.jpg");
     Photo.secure_url := Some (lit "https://cdn/a.jpg");
     Photo.url := None;
     Photo.photoNumber := Some 1%Z |}.

Definition in_2025 : Env := {| now_year := 2025; thread_ident := 140213 |}.
Definition other_thread : Env := {| now_year := 2024; thread_ident := 140477 |}.

Definition photo_n (n : Z) (u : string) : Photo.t :=
  {| Photo.photoPath := Some (lit u);
     Photo.secure_url := None;
     Photo.url := None;
     Photo.photoNumber := Some n |}.

Definition five_photos : list Photo.t :=
  [photo_n 1 "https://cdn/p1.jpg"; photo_n 2 "https://cdn/p2.PNG?x=1";
   photo_n 3 "https://cdn/p3.jpg"; photo_n 4 "https://cdn/p4.jpegx";
   photo_n 5 "https://cdn/p5"].

Definition jane : Student.t :=
  {| Student.firstName := Some (lit "Jane Doe");
     Student.dob := Some (lit "2015-06-01");
     Student.grade := Some 5%Z;
     Student.section := Some (lit "B");
     Student.bloodGroup := Some (lit "O+");
     Student.studentId := Some (lit "S123");
     Student.id := None;
     Student.photos := Some five_photos |}.

Definition omar : Student.t :=
  {| Student.firstName := Some (lit "Omar");
     Student.dob := None;
     Student.grade := None;
     Student.section := None;
     Student.bloodGroup := None;
     Student.studentId := None;
     Student.id := Some (IdInt 42);
     Student.photos :=
       Some [{| Photo.photoPath := Some (lit "uploads/omar.jpg");
                Photo.secure_url := None;
                Photo.url := None;
                Photo.photoNumber := Some 1%Z |}] |}.

Definition st_marys : School.t :=
  {| School.name := Some (lit "St. Mary's School!");
     School.schoolId := Some (lit "SCH1");
     School._id := Some (lit "64a1") |}.

Definition body_of {A} (rows : list A) : Body.t A :=
  {| Body.success := Some true; Body.data := Some rows;
     Body.shown := lit "{...}" |}.

(** A backend with one school and the given students; the third photo of
    Jane cannot be fetched. *)
Definition backend (students : list Student.t) : World :=
  {| env := in_2024;
     get_json := fun u =>
       if str_eqb u (lit "http://localhost:5000/api/admin/export/schools")
       then Got (body_of [st_marys])
       else Failed (lit "404 Client Error");
     post_json := fun u user pw =>
       if str_eqb u (lit "http://localhost:5000/api/admin/export/schools/64a1/students")
          && str_eqb user (lit "admin") && str_eqb pw (lit "secret")
       then Got (body_of students)
       else Failed (lit "401 Client Error");
     session_get := fun u =>
       if str_eqb u (lit "https://cdn/p3.jpg")
       then Failed (lit "503 Server Error")
       else Got [0xFF; 0xD8]%N;
     open_wb := fun _ => Got tt;
     stdin_isatty := false;
     completion := [3; 0; 1]%nat |}.

Definition unreachable : World :=
  {| env := in_2024;
     get_json := fun _ => Failed (lit "Connection refused");
     post_json := fun _ _ _ => Failed (lit "Connection refused");
     session_get := fun _ => Failed (lit "Connection refused");
     open_wb := fun _ => Got tt;
     stdin_isatty := false;
     completion := [] |}.

Definition empty_backend : World :=
  {| env := in_2024;
     get_json := fun _ => Got (body_of []);
     post_json := fun _ _ _ => Failed (lit "404 Client Error");
     session_get := fun _ => Failed (lit "404 Client Error");
     open_wb := fun _ => Got tt;
     stdin_isatty := false;
     completion := [] |}.

Definition as_admin (password : option str) : Args :=
  {| base_url := lit "http://localhost:5000/";
     out := Path (lit "./downloads");
     workers := 8;
     username := Some (lit "admin");
     password := password |}.

Definition anonymous : Args :=
  {| base_url := lit "http://localhost:5000";
     out := Path (lit "./downloads");
     workers := 8;
     username := None;
     password := None |}.

(** A console with the given lines to come, over an empty disk on which
    every directory can be made. *)
Definition typing (lines : list (result str)) : State :=
  {| reads := lines; stdout := []; dirs := []; files := [];
     os_mkdir := fun _ => Got tt |}.

Definition gathered : result (list task) * State :=
  gather_tasks fromisoformat_ymd int_ascii (as_admin (Some (lit "secret")))
               (backend [jane; omar]) (typing [Ok (lit "1")]).

Definition gathered_tasks : list task :=
  match fst gathered with Ok tasks => tasks | Raise _ => [] end.

Definition built : result (list task) * State :=
  build_tasks fromisoformat_ymd in_2024 [lit "downloads"]
              (lit "St_Marys_School") [jane; omar] (typing []).

Definition built_tasks : list task :=
  match fst built with Ok tasks => tasks | Raise _ => [] end.

Definition two_tasks : list task :=
  [(lit "https://cdn/p1.jpg", [lit "downloads"; lit "1.jpg"]);
   (lit "https://cdn/p3.jpg", [lit "downloads"; lit "3.jpg"])].

(** A disk on which [downloads] is a regular file. *)
Definition downloads_is_a_file : State :=
  {| reads := [Ok (lit "1")]; stdout := []; dirs := [];
     files := [([lit "downloads"], [])]; os_mkdir := fun _ => Got tt |}.

Definition blank : Student.t :=
  {| Student.firstName := Some (lit "  ");
     Student.dob := None;
     Student.grade := None;
     Student.section := None;
     Student.bloodGroup := None;
     Student.studentId := Some (lit "S7");
     Student.id := None;
     Student.photos := Some five_photos |}.

Definition without_workers : Args :=
  {| base_url := lit "http://localhost:5000";
     out := Path (lit "./downloads");
     workers := 0;
     username := Some (lit "admin");
     password := Some (lit "secret") |}.

Definition chosen : result School.t * State :=
  choose_school int_ascii (as_admin (Some (lit "secret"))) (backend [jane; blank])
                (typing [Ok (lit "1")]).

(** * Properties *)

(** ** Running the monad *)

Lemma bind_ok {A B} (m : M A) (k : A -> M B) (st st' : State) (a : A) :
  m st = (Ok a, st') -> bind m k st = k a st'.
Proof. intros H. unfold bind. rewrite H. reflexivity. Qed.

Lemma bind_raise {A B} (m : M A) (k : A -> M B) (st st' : State) (e : exn) :
  m st = (Raise e, st') -> bind m k st = (Raise e, st').
Proof. intros H. unfold bind. rewrite H. reflexivity. Qed.

Lemma try_except_caught {A} (catches : exn -> bool) (m : M A)
      (h : exn -> M A) (st st' : State) (e : exn) :
  m st = (Raise e, st') -> catches e = true ->
  try_except catches m h st = h e st'.
Proof. intros H C. unfold try_except. rewrite H, C. reflexivity. Qed.

(** ** The library fragments on examples *)

Example int_ascii_ex :
  map int_ascii
      [lit " 12 "; lit "-3"; lit "1_000"; lit "1__0"; lit "_1"; lit "";
       lit "x"; lit "+ 1"; lit "007"]
  = [Some 12; Some (-3); Some 1000; None; None; None; None; None; Some 7]%Z.
Proof. reflexivity. Qed.

Example ymd_ex :
  map fromisoformat_ymd
      [lit "2015-06-01"; lit "2015-02-29"; lit "2016-02-29"; lit "2015-6-1";
       lit ""]
  = [Some {| year := 2015; month := 6; day := 1 |}; None;
     Some {| year := 2016; month := 2; day := 29 |}; None; None]%Z.
Proof. reflexivity. Qed.

Example str_of_int_ex :
  map str_of_int [0; -5; 12; 2024]%Z
  = [lit "0"; lit "-5"; lit "12"; lit "2024"].
Proof. reflexivity. Qed.

Example splitext_ex :
  map splitext
      [lit "https://x/y/photo.PNG"; lit "http://x/.bashrc"; lit "http://x/..a.b";
       lit "a.b/c"]
  = [(lit "https://x/y/photo", lit ".PNG"); (lit "http://x/.bashrc", []);
     (lit "http://x/..a", lit ".b"); (lit "a.b/c", [])].
Proof. reflexivity. Qed.

(** ** Strings *)

Lemma re_sub_class_nil (cls : char -> bool) (s : str) :
  re_sub_class cls [] s = filter (fun c => negb (cls c)) s.
Proof.
  unfold re_sub_class.
  induction s as [|c s IH]; simpl; [reflexivity|].
  rewrite IH. destruct (cls c); reflexivity.
Qed.

Lemma kept_not_stripped (c : char) : negb (non_alnum_space c) = kept c.
Proof.
  unfold non_alnum_space, kept, is_ascii_alnum, is_ascii_letter, is_digit.
  rewrite negb_involutive. reflexivity.
Qed.

Lemma re_sub_runs_in_run (cls : char -> bool) (repl s : str) :
  re_sub_runs_from cls repl true s
  = re_sub_runs_from cls repl false (dropwhile cls s).
Proof.
  induction s as [|c s IH]; simpl; [reflexivity|].
  destruct (cls c) eqn:E; simpl.
  - exact IH.
  - rewrite E. reflexivity.
Qed.

Lemma takewhile_dropwhile {A} (f : A -> bool) (l : list A) :
  takewhile f l ++ dropwhile f l = l.
Proof.
  induction l as [|x l IH]; simpl; [reflexivity|].
  destruct (f x); simpl; [rewrite IH|]; reflexivity.
Qed.

Lemma takewhile_all {A} (f : A -> bool) (l : list A) :
  forallb f (takewhile f l) = true.
Proof.
  induction l as [|x l IH]; simpl; [reflexivity|].
  destruct (f x) eqn:E; simpl; [rewrite E; exact IH | reflexivity].
Qed.

Lemma dropwhile_length {A} (f : A -> bool) (l : list A) :
  (List.length (dropwhile f l) <= List.length l)%nat.
Proof.
  induction l as [|x l IH]; simpl; [lia|].
  destruct (f x); simpl; lia.
Qed.

Lemma dropwhile_head (s : str) : starts_with_space (dropwhile isspace s) = false.
Proof.
  induction s as [|c s IH]; simpl; [reflexivity|].
  destruct (isspace c) eqn:E; simpl; [exact IH | exact E].
Qed.

Lemma dropwhile_all {A} (f : A -> bool) (l : list A) :
  forallb f l = true -> dropwhile f l = [].
Proof.
  induction l as [|x l IH]; simpl; [reflexivity|].
  destruct (f x); simpl; [exact IH | discriminate].
Qed.

(** The substitution of [\s+] by an underscore collapses the runs. *)
Lemma re_sub_runs_collapsed (s : str) :
  collapsed s (re_sub_runs isspace (lit "_") s).
Proof.
  unfold re_sub_runs.
  remember (List.length s) as n eqn:Hn.
  assert (Hle : (List.length s <= n)%nat) by lia. clear Hn.
  revert s Hle. induction n as [|n IH]; intros s Hle.
  - destruct s; [constructor | simpl in Hle; lia].
  - destruct s as [|c s]; [constructor|].
    simpl in Hle. simpl. destruct (isspace c) eqn:E.
    + rewrite re_sub_runs_in_run.
      rewrite <- (takewhile_dropwhile isspace s) at 1.
      change (c :: takewhile isspace s ++ dropwhile isspace s)
        with ((c :: takewhile isspace s) ++ dropwhile isspace s).
      apply collapsed_run.
      * discriminate.
      * simpl. rewrite E. apply takewhile_all.
      * apply dropwhile_head.
      * apply IH. pose proof (dropwhile_length isspace s). lia.
    + apply collapsed_char; [exact E | apply IH; lia].
Qed.

Lemma collapsed_no_space (s r : str) : collapsed s r -> no_space r = true.
Proof.
  induction 1 as [|c s r Hc _ IH|ws s r _ _ _ _ IH]; simpl.
  - reflexivity.
  - unfold no_space in *. simpl. rewrite Hc. exact IH.
  - exact IH.
Qed.

Lemma no_space_dropwhile (s : str) : no_space s = true -> dropwhile isspace s = s.
Proof.
  destruct s as [|c s]; simpl; [reflexivity|].
  destruct (isspace c); simpl; [discriminate | reflexivity].
Qed.

Lemma no_space_rev (s : str) : no_space (rev s) = no_space s.
Proof.
  unfold no_space. induction s as [|c s IH]; simpl; [reflexivity|].
  rewrite forallb_app, IH. simpl. rewrite andb_true_r. apply andb_comm.
Qed.

(** Trimming a string without whitespace changes nothing. *)
Lemma strip_no_space (s : str) : no_space s = true -> strip s = s.
Proof.
  intros H. unfold strip, rstrip, lstrip.
  rewrite (no_space_dropwhile s H).
  rewrite no_space_dropwhile by (rewrite no_space_rev; exact H).
  apply rev_involutive.
Qed.

Lemma filter_none {A} (f : A -> bool) (l : list A) :
  forallb (fun x => negb (f x)) l = true -> filter f l = [].
Proof.
  induction l as [|x l IH]; simpl; [reflexivity|].
  destruct (f x); simpl; [discriminate | exact IH].
Qed.

Lemma sanitize_unfold (name : str) :
  sanitize_school_name (Some name)
  = or_value (strip (re_sub_runs isspace (lit "_") (filter kept name)))
             (lit "unknown").
Proof.
  unfold sanitize_school_name.
  destruct name as [|c name]; [reflexivity|].
  cbv beta iota delta [truthy truthy_str truthy_list negb].
  rewrite re_sub_class_nil.
  rewrite (filter_ext _ kept) by (intro; apply kept_not_stripped).
  reflexivity.
Qed.

Lemma maximal_run_unique (ws1 ws2 s1 s2 : str) :
  forallb isspace ws1 = true -> forallb isspace ws2 = true ->
  starts_with_space s1 = false -> starts_with_space s2 = false ->
  ws1 ++ s1 = ws2 ++ s2 -> ws1 = ws2 /\ s1 = s2.
Proof.
  revert ws2. induction ws1 as [|a ws1 IH]; intros [|b ws2] H1 H2 N1 N2 E;
    simpl in *.
  - auto.
  - subst s1. simpl in N1. apply andb_prop in H2. destruct H2; congruence.
  - subst s2. simpl in N2. apply andb_prop in H1. destruct H1; congruence.
  - injection E as -> E. apply andb_prop in H1, H2.
    destruct (IH ws2) as [-> ->]; tauto.
Qed.

(** [collapsed] determines its result. *)
Lemma collapsed_functional (s r1 r2 : str) :
  collapsed s r1 -> collapsed s r2 -> r1 = r2.
Proof.
  intros H1. revert r2.
  induction H1 as [|c s r Hc _ IH|ws s r Hne Hws Hs _ IH]; intros r2 H2.
  - remember [] as x eqn:Ex. destruct H2 as [| |ws ? ? Hne]; try discriminate.
    + reflexivity.
    + destruct ws; [congruence | discriminate].
  - remember (c :: s) as x eqn:Ex.
    destruct H2 as [|c' s' r' Hc' H2|ws s' r' Hne Hws Hs H2]; try discriminate.
    + injection Ex as -> ->. f_equal. apply IH, H2.
    + destruct ws as [|b ws]; [congruence|]. simpl in Ex, Hws.
      injection Ex as -> _. apply andb_prop in Hws. destruct Hws; congruence.
  - remember (ws ++ s) as x eqn:Ex.
    destruct H2 as [|c' s' r' Hc' H2|ws' s' r' Hne' Hws' Hs' H2].
    + destruct ws; [congruence | discriminate].
    + destruct ws as [|b ws]; [congruence|]. simpl in Ex, Hws.
      injection Ex as -> _. apply andb_prop in Hws. destruct Hws; congruence.
    + destruct (maximal_run_unique ws' ws s' s) as [-> ->]; auto.
      f_equal. apply IH, H2.
Qed.

(** ** Naming scheme: the school folder *)

(** A name made of whitespace only is not replaced by the fallback: its
    one run of whitespace becomes the whole result. *)
Lemma sanitize_whitespace_only (name : str) :
  name <> [] -> forallb isspace name = true ->
  sanitize_school_name (Some name) = lit "_".
Proof.
  intros Hne Hws. rewrite sanitize_unfold.
  assert (Hk : filter kept name = name).
  { clear Hne. induction name as [|c name IH]; [reflexivity|].
    simpl in *. apply andb_prop in Hws. destruct Hws as [Hc Hws].
    unfold kept at 1. rewrite Hc, orb_true_r. f_equal. auto. }
  rewrite Hk. destruct name as [|c name]; [congruence|].
  simpl in Hws. apply andb_prop in Hws. destruct Hws as [Hc Hws].
  unfold re_sub_runs. simpl. rewrite Hc.
  rewrite re_sub_runs_in_run, (dropwhile_all _ _ Hws). reflexivity.
Qed.

(** C2, refuted as stated: the name of three spaces is whitespace-only and
    is sanitized to one underscore, not to the fallback. *)
Lemma C2_whitespace_only_counterexample :
  forallb isspace (lit "   ") = true
  /\ sanitize_school_name (Some (lit "   ")) = lit "_"
  /\ sanitize_school_name (Some (lit "   ")) <> lit "unknown".
Proof.
  split; [reflexivity|]. split; [reflexivity|]. vm_compute. discriminate.
Qed.

(** C2, as amended: [sanitize_school_name] drops every character that is
    not an ASCII letter, a digit or whitespace, replaces each maximal run of
    whitespace by one underscore and trims; when nothing is left the result
    is the fallback, and so it is for a missing name, the empty name and a
    name made of dropped symbols only. *)
Theorem C2_sanitize_school_name :
  (forall name : str, exists r,
      collapsed (filter kept name) r
      /\ sanitize_school_name (Some name) = or_value (strip r) (lit "unknown"))
  /\ sanitize_school_name None = lit "unknown"
  /\ sanitize_school_name (Some []) = lit "unknown"
  /\ (forall name : str,
        forallb (fun c => negb (kept c)) name = true ->
        sanitize_school_name (Some name) = lit "unknown")
  /\ sanitize_school_name (Some (lit "St. Mary's School!")) = lit "St_Marys_School".
Proof.
  split; [|split; [|split; [|split]]]; try reflexivity.
  - intros name. exists (re_sub_runs isspace (lit "_") (filter kept name)).
    split; [apply re_sub_runs_collapsed | apply sanitize_unfold].
  - intros name H. rewrite sanitize_unfold, (filter_none _ _ H). reflexivity.
Qed.

Lemma C2_sanitize_school_name_witness :
  sanitize_school_name (Some (lit "?!.")) = lit "unknown".
Proof.
  apply (proj1 (proj2 (proj2 (proj2 C2_sanitize_school_name)))).
  reflexivity.
Defined.

(** The trimming step never removes anything: what it receives holds no
    whitespace. *)
Lemma sanitize_trim_is_identity (name r : str) :
  collapsed (filter kept name) r -> strip r = r.
Proof. intros H. apply strip_no_space, (collapsed_no_space _ _ H). Qed.

(** ** Naming scheme: the student folder *)

Lemma split_from_spaces (ws s : str) :
  forallb isspace ws = true -> split_from [] (ws ++ s) = split_from [] s.
Proof.
  induction ws as [|c ws IH]; simpl; [reflexivity|].
  intros H. apply andb_prop in H. destruct H as [-> H]. simpl. auto.
Qed.

Lemma split_from_token (t tok s : str) :
  no_space t = true -> split_from tok (t ++ s) = split_from (rev t ++ tok) s.
Proof.
  revert tok. induction t as [|c t IH]; intros tok H; simpl; [reflexivity|].
  unfold no_space in H. simpl in H. apply andb_prop in H. destruct H as [Hc H].
  apply negb_true_iff in Hc. rewrite Hc, IH by exact H.
  rewrite <- app_assoc. reflexivity.
Qed.

(** The first token of [ws ++ t ++ rest] is [t] when [ws] is whitespace,
    [t] is a non-empty word and [rest] is empty or starts with whitespace. *)
Lemma split_first_token (ws t rest : str) :
  forallb isspace ws = true -> t <> [] -> no_space t = true ->
  (rest = [] \/ starts_with_space rest = true) ->
  exists more, split (ws ++ t ++ rest) = t :: more.
Proof.
  intros Hws Hne Ht Hrest. unfold split.
  rewrite split_from_spaces, split_from_token, app_nil_r by assumption.
  assert (Hflush : forall l, flush (rev t) l = t :: l).
  { intros l. destruct t as [|c t]; [congruence|].
    unfold flush. destruct (rev (c :: t)) eqn:E.
    - apply (f_equal (@List.length _)) in E. rewrite length_rev in E. discriminate.
    - rewrite <- E, rev_involutive. reflexivity. }
  destruct Hrest as [-> | Hs].
  - exists []. simpl. apply Hflush.
  - destruct rest as [|c rest]; [discriminate|]. simpl in Hs. simpl.
    rewrite Hs. eexists. apply Hflush.
Qed.

Lemma split_spaces_only (s : str) : forallb isspace s = true -> split s = [].
Proof.
  intros H. unfold split.
  rewrite <- (app_nil_r s), split_from_spaces by exact H. reflexivity.
Qed.

(** Every string is whitespace only or has a first token. *)
Lemma first_token_or_spaces (s : str) :
  forallb isspace s = true
  \/ exists ws t rest,
       s = ws ++ t ++ rest /\ forallb isspace ws = true /\ t <> []
       /\ no_space t = true /\ (rest = [] \/ starts_with_space rest = true).
Proof.
  destruct (dropwhile isspace s) as [|c tail] eqn:E.
  - left. rewrite <- (takewhile_dropwhile isspace s), E, app_nil_r.
    apply takewhile_all.
  - right.
    exists (takewhile isspace s),
           (takewhile (fun x => negb (isspace x)) (c :: tail)),
           (dropwhile (fun x => negb (isspace x)) (c :: tail)).
    assert (Hc : isspace c = false).
    { pose proof (dropwhile_head s) as H. rewrite E in H. exact H. }
    split; [|split; [|split; [|split]]].
    + rewrite takewhile_dropwhile, <- E. symmetry. apply takewhile_dropwhile.
    + apply takewhile_all.
    + simpl. rewrite Hc. discriminate.
    + apply takewhile_all.
    + destruct (dropwhile (fun x => negb (isspace x)) (c :: tail))
        as [|x rest] eqn:E'; [left; reflexivity | right].
      assert (H : forall l y r,
                dropwhile (fun x => negb (isspace x)) l = y :: r ->
                isspace y = true).
      { clear. induction l as [|a l IH]; intros y r H; simpl in H;
          [discriminate|].
        destruct (isspace a) eqn:Ea; simpl in H.
        - injection H as <- _. exact Ea.
        - apply (IH _ _ H). }
      simpl. apply (H _ _ _ E').
Qed.

Lemma student_folder_name_token (first_name : option str) (first : str)
      (more : list str) (age grade : Z) (section blood_group student_id : str) :
  split (or_default first_name (lit "unknown")) = first :: more ->
  student_folder_name first_name age grade section blood_group student_id
  = Ok (folder_of_fields first age grade section blood_group student_id).
Proof. intros H. unfold student_folder_name. rewrite H. reflexivity. Qed.

Lemma or_default_nonempty (s d : str) : s <> [] -> or_default (Some s) d = s.
Proof. destruct s; [congruence | reflexivity]. Qed.

(** C9: [student_folder_name] uses the first whitespace-delimited token of
    the first name, or the word unknown when the first name is empty or
    missing, and joins the seven fields with the separator [@]. *)
Theorem C9_student_folder_name :
  (forall (ws t rest : str) (age grade : Z) (section blood_group student_id : str),
      forallb isspace ws = true -> t <> [] -> no_space t = true ->
      (rest = [] \/ starts_with_space rest = true) ->
      student_folder_name (Some (ws ++ t ++ rest)) age grade section
                          blood_group student_id
      = Ok (lit "student@" ++ t ++ lit "@" ++ str_of_int age ++ lit "@"
            ++ str_of_int grade ++ lit "@" ++ section ++ lit "@"
            ++ blood_group ++ lit "@" ++ student_id))
  /\ (forall (first_name : option str) (age grade : Z)
             (section blood_group student_id : str),
        first_name = None \/ first_name = Some [] ->
        student_folder_name first_name age grade section blood_group student_id
        = Ok (lit "student@" ++ lit "unknown" ++ lit "@" ++ str_of_int age
              ++ lit "@" ++ str_of_int grade ++ lit "@" ++ section ++ lit "@"
              ++ blood_group ++ lit "@" ++ student_id))
  /\ student_folder_name (Some (lit "Jane Doe")) 10 5 (lit "B") (lit "O+")
                         (lit "S123")
     = Ok (lit "student@Jane@10@5@B@O+@S123").
Proof.
  split; [|split].
  - intros ws t rest age grade section blood_group student_id Hws Hne Ht Hrest.
    destruct (split_first_token ws t rest Hws Hne Ht Hrest) as [more Hsplit].
    apply (student_folder_name_token _ t more).
    rewrite or_default_nonempty; [exact Hsplit|].
    destruct ws; [destruct t; [congruence | discriminate] | discriminate].
  - intros first_name age grade section blood_group student_id [-> | ->];
      reflexivity.
  - reflexivity.
Qed.

Lemma C9_student_folder_name_witness :
  student_folder_name (Some ([] ++ lit "Jane" ++ lit " Doe")) 10 5 (lit "B")
                      (lit "O+") (lit "S123")
  = Ok (lit "student@" ++ lit "Jane" ++ lit "@" ++ str_of_int 10 ++ lit "@"
        ++ str_of_int 5 ++ lit "@" ++ lit "B" ++ lit "@" ++ lit "O+"
        ++ lit "@" ++ lit "S123").
Proof.
  apply (proj1 C9_student_folder_name).
  - reflexivity.
  - discriminate.
  - reflexivity.
  - right. reflexivity.
Defined.

(** C10: [student_folder_name] raises [IndexError] on every first name
    that is non-empty and made of whitespace only; on an empty or missing
    first name it returns a name that begins with [student@unknown@]. *)
Theorem C10_student_folder_name_partial :
  (forall (first_name : str) (age grade : Z)
          (section blood_group student_id : str),
      first_name <> [] -> forallb isspace first_name = true ->
      student_folder_name (Some first_name) age grade section blood_group
                          student_id
      = Raise (Raised IndexError (lit "list index out of range")))
  /\ (forall (first_name : option str) (age grade : Z)
             (section blood_group student_id : str),
        first_name = None \/ first_name = Some [] ->
        exists rest,
          student_folder_name first_name age grade section blood_group
                              student_id
          = Ok (lit "student@unknown@" ++ rest)).
Proof.
  split.
  - intros first_name age grade section blood_group student_id Hne Hws.
    unfold student_folder_name.
    rewrite or_default_nonempty, split_spaces_only by assumption.
    reflexivity.
  - intros first_name age grade section blood_group student_id [-> | ->];
      eexists; reflexivity.
Qed.

Lemma C10_student_folder_name_partial_witness :
  student_folder_name (Some (lit "  ")) 7 2 (lit "A") (lit "NA") (lit "S9")
  = Raise (Raised IndexError (lit "list index out of range")).
Proof.
  apply (proj1 C10_student_folder_name_partial).
  - discriminate.
  - reflexivity.
Defined.

(** ** Age *)

Section Age.

Variable fromisoformat : str -> option date.

(** The empty string is not an ISO date. *)
Hypothesis fromisoformat_empty : fromisoformat [] = None.

Lemma student_age_parsed (e : Env) (dob : str) (born : date) :
  fromisoformat dob = Some born ->
  student_age fromisoformat e (Some dob) = (now_year e - year born)%Z.
Proof.
  intros H. unfold student_age. destruct dob as [|c dob].
  - rewrite fromisoformat_empty in H. discriminate.
  - cbn. rewrite H. reflexivity.
Qed.

Lemma student_age_unparsed (e : Env) (dob : str) :
  fromisoformat dob = None -> student_age fromisoformat e (Some dob) = 0%Z.
Proof.
  intros H. unfold student_age. rewrite H. destruct (truthy dob); reflexivity.
Qed.

(** C4: a date of birth that is present and parses gives the current
    year minus the year of birth; a missing or unparseable one gives 0. *)
Theorem C4_student_age (e : Env) (s : Student.t) :
  (forall dob born,
      Student.dob s = Some dob -> fromisoformat dob = Some born ->
      student_age fromisoformat e (Student.dob s)
      = (now_year e - year born)%Z)
  /\ (Student.dob s = None
      \/ (exists dob, Student.dob s = Some dob /\ fromisoformat dob = None) ->
      student_age fromisoformat e (Student.dob s) = 0%Z).
Proof.
  split.
  - intros dob born -> H. apply student_age_parsed, H.
  - intros [-> | [dob [-> H]]]; [reflexivity | apply student_age_unparsed, H].
Qed.

(** C3, as amended: born on 2015-06-01 and evaluated in 2024, a student
    is given the age 9. *)
Theorem C3_age_2015_in_2024 (e : Env) (s : Student.t) (born : date) :
  Student.dob s = Some (lit "2015-06-01") ->
  fromisoformat (lit "2015-06-01") = Some born -> year born = 2015%Z ->
  now_year e = 2024%Z ->
  student_age fromisoformat e (Student.dob s) = 9%Z.
Proof.
  intros -> Hparse Hyear Hnow.
  rewrite (student_age_parsed e _ born Hparse), Hyear, Hnow. reflexivity.
Qed.

End Age.

Lemma C4_student_age_witness :
  student_age fromisoformat_ymd in_2024 (Student.dob born_2015)
  = (now_year in_2024 - 2015)%Z.
Proof.
  apply (proj1 (C4_student_age fromisoformat_ymd eq_refl in_2024 born_2015)
               (lit "2015-06-01")
               {| year := 2015; month := 6; day := 1 |});
    reflexivity.
Defined.

Lemma C3_age_2015_in_2024_witness :
  student_age fromisoformat_ymd in_2024 (Student.dob born_2015) = 9%Z.
Proof.
  apply (C3_age_2015_in_2024 fromisoformat_ymd eq_refl in_2024 born_2015
                             {| year := 2015; month := 6; day := 1 |});
    reflexivity.
Defined.

(** C3, refuted as stated: the age computed for 2015-06-01 in the year
    2024 is 9 and not 14, and 9 is what the folder name carries. *)
Lemma C3_age_counterexample :
  student_age fromisoformat_ymd in_2024 (Student.dob born_2015) <> 14%Z
  /\ student_folder_of fromisoformat_ymd in_2024 born_2015
     = Ok (lit "student@Jane@9@5@B@O+@S123").
Proof. split; [vm_compute; discriminate | reflexivity]. Qed.

(** ** File extension *)

Lemma lacks_app (c : char) (s1 s2 : str) :
  lacks c (s1 ++ s2) = lacks c s1 && lacks c s2.
Proof. apply forallb_app. Qed.

Lemma rfind_from_app (c : char) (s1 s2 : str) (i last : Z) :
  rfind_from c (s1 ++ s2) i last
  = rfind_from c s2 (i + Z.of_nat (List.length s1))
               (rfind_from c s1 i last).
Proof.
  revert i last. induction s1 as [|x s1 IH]; intros i last.
  - simpl. f_equal. lia.
  - cbn [app rfind_from List.length]. rewrite IH. f_equal. lia.
Qed.

Lemma rfind_from_lacks (c : char) (s : str) (i last : Z) :
  lacks c s = true -> rfind_from c s i last = last.
Proof.
  revert i last. induction s as [|x s IH]; intros i last H; [reflexivity|].
  simpl in H. apply andb_prop in H. destruct H as [Hx H].
  apply negb_true_iff in Hx. simpl. rewrite Hx. apply IH, H.
Qed.

Lemma rfind_from_range (c : char) (s : str) (i last : Z) :
  rfind_from c s i last = last
  \/ (i <= rfind_from c s i last < i + Z.of_nat (List.length s))%Z.
Proof.
  revert i last. induction s as [|x s IH]; intros i last; [left; reflexivity|].
  cbn [rfind_from List.length].
  destruct (IH (i + 1)%Z (if (x =? c)%N then i else last)) as [E | E].
  - rewrite E. destruct (x =? c)%N; [right; lia | left; reflexivity].
  - right. lia.
Qed.

Lemma rfind_last (c : char) (a b : str) :
  lacks c b = true -> rfind c (a ++ c :: b) = Z.of_nat (List.length a).
Proof.
  intros H. unfold rfind. rewrite rfind_from_app. cbn [rfind_from].
  rewrite N.eqb_refl. rewrite rfind_from_lacks by exact H. lia.
Qed.

(** The index after the last separator is where the last component
    starts. *)
Lemma rfind_sep (dir rest : str) :
  is_dir dir -> lacks slash rest = true ->
  (rfind slash (dir ++ rest) + 1)%Z = Z.of_nat (List.length dir).
Proof.
  intros [-> | [d ->]] H.
  - unfold rfind. simpl. rewrite rfind_from_lacks by exact H. reflexivity.
  - rewrite <- app_assoc. simpl. rewrite rfind_last by exact H.
    rewrite length_app. simpl. lia.
Qed.

Lemma skipn_length_app {A} (a x : list A) : skipn (List.length a) (a ++ x) = x.
Proof. induction a; simpl; auto. Qed.

Lemma firstn_length_app {A} (a x : list A) : firstn (List.length a) (a ++ x) = a.
Proof. induction a; simpl; [destruct x; reflexivity | f_equal; auto]. Qed.

Lemma slice_middle (a b c : str) :
  slice (a ++ b ++ c) (Z.of_nat (List.length a))
        (Z.of_nat (List.length a) + Z.of_nat (List.length b)) = b.
Proof.
  unfold slice.
  replace (Z.of_nat (List.length a) + Z.of_nat (List.length b)
           - Z.of_nat (List.length a))%Z with (Z.of_nat (List.length b)) by lia.
  rewrite !Nat2Z.id, skipn_length_app. apply firstn_length_app.
Qed.

(** The extension of [dir ++ name ++ "." ++ e]. *)
Lemma splitext_ext (dir name e : str) :
  is_dir dir ->
  lacks slash (name ++ e) = true -> lacks dot e = true ->
  existsb (fun c => negb (c =? dot)%N) name = true ->
  splitext (dir ++ name ++ dot :: e) = (dir ++ name, dot :: e).
Proof.
  intros Hdir Hslash Hdot Hname.
  rewrite lacks_app in Hslash. apply andb_prop in Hslash.
  destruct Hslash as [Hs1 Hs2].
  assert (Hsep : (rfind slash (dir ++ name ++ dot :: e) + 1)%Z
                 = Z.of_nat (List.length dir)).
  { apply rfind_sep; [exact Hdir|]. rewrite lacks_app. simpl.
    rewrite Hs1. exact Hs2. }
  assert (Hd : rfind dot (dir ++ name ++ dot :: e)
               = (Z.of_nat (List.length dir) + Z.of_nat (List.length name))%Z).
  { rewrite app_assoc, rfind_last by exact Hdot. rewrite length_app. lia. }
  unfold splitext. fold slash dot. rewrite Hd, Hsep.
  change (name ++ dot :: e) with (name ++ [dot] ++ e) at 2.
  rewrite slice_middle, Hname.
  replace (rfind slash (dir ++ name ++ dot :: e) <?
           Z.of_nat (List.length dir) + Z.of_nat (List.length name))%Z
    with true by (symmetry; apply Z.ltb_lt; lia).
  cbn [andb].
  replace (Z.to_nat (Z.of_nat (List.length dir) + Z.of_nat (List.length name)))
    with (List.length (dir ++ name)) by (rewrite length_app; lia).
  rewrite app_assoc, firstn_length_app, skipn_length_app. reflexivity.
Qed.

(** No extension when the last component has no dot. *)
Lemma splitext_no_ext (dir name : str) :
  is_dir dir ->
  lacks slash name = true -> lacks dot name = true ->
  splitext (dir ++ name) = (dir ++ name, []).
Proof.
  intros Hdir Hslash Hdot.
  pose proof (rfind_sep dir name Hdir Hslash) as Hsep.
  unfold splitext. fold slash dot.
  assert (Hd : (rfind dot (dir ++ name) < Z.of_nat (List.length dir))%Z).
  { unfold rfind. rewrite rfind_from_app.
    rewrite (rfind_from_lacks dot name) by exact Hdot.
    destruct (rfind_from_range dot dir 0 (-1)) as [-> | H]; lia. }
  replace (rfind slash (dir ++ name) <? rfind dot (dir ++ name))%Z
    with false by (symmetry; apply Z.ltb_ge; lia).
  reflexivity.
Qed.

Lemma hd_split_on (c : char) (base query : str) :
  lacks c base = true -> query = [] \/ (exists q, query = c :: q) ->
  hd [] (split_on c (base ++ query)) = base.
Proof.
  intros Hbase Hq. induction base as [|x base IH].
  - destruct Hq as [-> | [q ->]]; simpl; [reflexivity|].
    rewrite N.eqb_refl. reflexivity.
  - simpl in Hbase. apply andb_prop in Hbase. destruct Hbase as [Hx Hbase].
    apply negb_true_iff in Hx. specialize (IH Hbase).
    cbn [app split_on]. rewrite Hx.
    destruct (split_on c (base ++ query)) as [|t ts]; simpl in *; congruence.
Qed.

Lemma file_ext_of_base (base query : str) :
  lacks qmark base = true -> is_query query ->
  file_ext (base ++ query)
  = let ext := or_value (snd (splitext base)) (lit ".jpg") in
    if (5 <? List.length ext)%nat then lit ".jpg" else ext.
Proof.
  intros Hbase Hq. unfold file_ext. fold qmark.
  rewrite hd_split_on by assumption. reflexivity.
Qed.

(** Only dots before the last dot: no extension. *)
Lemma splitext_dots (dir dots e : str) :
  is_dir dir -> forallb (fun c => (c =? dot)%N) dots = true ->
  lacks slash e = true -> lacks dot e = true ->
  splitext (dir ++ dots ++ dot :: e) = (dir ++ dots ++ dot :: e, []).
Proof.
  intros Hdir Hdots Hslash Hdot.
  assert (Hds : lacks slash dots = true).
  { clear -Hdots. induction dots as [|c dots IH]; [reflexivity|].
    simpl in *. apply andb_prop in Hdots. destruct Hdots as [Hc Hdots].
    apply N.eqb_eq in Hc. subst c. rewrite IH by exact Hdots. reflexivity. }
  assert (Hnd : existsb (fun c => negb (c =? dot)%N) dots = false).
  { clear -Hdots. induction dots as [|c dots IH]; [reflexivity|].
    simpl in *. apply andb_prop in Hdots. destruct Hdots as [-> Hdots].
    simpl. auto. }
  assert (Hsep : (rfind slash (dir ++ dots ++ dot :: e) + 1)%Z
                 = Z.of_nat (List.length dir)).
  { apply rfind_sep; [exact Hdir|]. rewrite lacks_app. simpl.
    rewrite Hds. exact Hslash. }
  assert (Hd : rfind dot (dir ++ dots ++ dot :: e)
               = (Z.of_nat (List.length dir) + Z.of_nat (List.length dots))%Z).
  { rewrite app_assoc, rfind_last by exact Hdot. rewrite length_app. lia. }
  unfold splitext. fold slash dot. rewrite Hd, Hsep.
  change (dots ++ dot :: e) with (dots ++ [dot] ++ e) at 2.
  rewrite slice_middle, Hnd, andb_false_r. reflexivity.
Qed.

(** Every string splits before the first occurrence of a character... *)
Lemma split_at_first (c : char) (s : str) :
  exists a b, s = a ++ b /\ lacks c a = true
              /\ (b = [] \/ exists q, b = c :: q).
Proof.
  induction s as [|x s [a [b [-> [Ha Hb]]]]].
  - exists [], []. auto.
  - destruct (x =? c)%N eqn:E.
    + apply N.eqb_eq in E. subst x. exists [], (c :: a ++ b).
      repeat split. right. eexists. reflexivity.
    + exists (x :: a), b. repeat split; [|exact Hb]. simpl. rewrite E. exact Ha.
Qed.

(** ... and after the last one. *)
Lemma split_after_last (c : char) (s : str) :
  exists a b, s = a ++ b /\ (a = [] \/ exists d, a = d ++ [c])
              /\ lacks c b = true.
Proof.
  induction s as [|x s [a [b [-> [[-> | [d ->]] Hb]]]]].
  - exists [], []. auto.
  - destruct (x =? c)%N eqn:E.
    + apply N.eqb_eq in E. subst x. exists [c], b.
      repeat split; [|exact Hb]. right. exists []. reflexivity.
    + exists [], (x :: b). repeat split; [left; reflexivity|].
      simpl. rewrite E. exact Hb.
  - exists (x :: d ++ [c]), b. repeat split; [|exact Hb].
    right. exists (x :: d). reflexivity.
Qed.

Lemma lacks_app_l (c : char) (s1 s2 : str) :
  lacks c (s1 ++ s2) = true -> lacks c s1 = true.
Proof. rewrite lacks_app. intros H. apply andb_prop in H. tauto. Qed.

Lemma lacks_app_r (c : char) (s1 s2 : str) :
  lacks c (s1 ++ s2) = true -> lacks c s2 = true.
Proof. rewrite lacks_app. intros H. apply andb_prop in H. tauto. Qed.

Lemma all_dots_or_not (name : str) :
  existsb (fun c => negb (c =? dot)%N) name = true
  \/ forallb (fun c => (c =? dot)%N) name = true.
Proof.
  induction name as [|c name [IH | IH]]; simpl.
  - right. reflexivity.
  - left. rewrite IH. apply orb_true_r.
  - destruct (c =? dot)%N; simpl; [right; exact IH | left; reflexivity].
Qed.

(** Every URL has one of the three shapes. *)
Lemma extension_total (url : str) : exists x, extension url x.
Proof.
  destruct (split_at_first qmark url) as [base [query [-> [Hq Hquery]]]].
  destruct (split_after_last slash base) as [dir [comp [-> [Hdir Hcomp]]]].
  destruct (split_after_last dot comp) as [a [e [-> [[-> | [name ->]] He]]]].
  - exists None. apply (extension_none dir e query); assumption.
  - assert (E : (name ++ [dot]) ++ e = name ++ dot :: e)
      by (rewrite <- app_assoc; reflexivity).
    rewrite E in *. clear E.
    pose proof (lacks_app_l _ _ _ Hcomp) as Hname.
    pose proof (lacks_app_r _ _ _ Hcomp) as Hde. simpl in Hde.
    destruct (all_dots_or_not name) as [Hn | Hn].
    + exists (Some (dot :: e)).
      apply (extension_found dir name e query); try assumption.
      rewrite lacks_app, Hname. exact Hde.
    + exists None. apply (extension_dots dir name e query); assumption.
Qed.

(** The extension is found in the last component alone. *)
Lemma splitext_snd_dir (d1 d2 comp : str) :
  is_dir d1 -> is_dir d2 -> lacks slash comp = true ->
  snd (splitext (d1 ++ comp)) = snd (splitext (d2 ++ comp)).
Proof.
  intros H1 H2 Hc.
  destruct (split_after_last dot comp) as [a [e [-> [[-> | [name ->]] He]]]].
  - cbn [app] in *. rewrite !splitext_no_ext by assumption. reflexivity.
  - assert (E : (name ++ [dot]) ++ e = name ++ dot :: e)
      by (rewrite <- app_assoc; reflexivity).
    rewrite E in *. clear E.
    pose proof (lacks_app_l _ _ _ Hc) as Hname.
    pose proof (lacks_app_r _ _ _ Hc) as Hde. simpl in Hde.
    destruct (all_dots_or_not name) as [Hn | Hn].
    + rewrite !splitext_ext; try assumption; try reflexivity;
        rewrite lacks_app, Hname; exact Hde.
    + rewrite !splitext_dots by assumption. reflexivity.
Qed.

Lemma forallb_lacks (f : char -> bool) (c : char) (s : str) :
  f c = false -> forallb f s = true -> lacks c s = true.
Proof.
  intros Hc. induction s as [|x s IH]; [reflexivity|].
  simpl. intros H. apply andb_prop in H. destruct H as [Hx H].
  rewrite (IH H), andb_true_r. apply negb_true_iff, N.eqb_neq.
  intros ->. congruence.
Qed.

Lemma is_scheme_lacks (c : char) (s : str) :
  scheme_char c = false -> is_scheme s = true -> lacks c s = true.
Proof.
  intros Hc H. apply (forallb_lacks scheme_char); [exact Hc|].
  destruct s; [discriminate|]. unfold is_scheme in H.
  apply andb_prop in H. tauto.
Qed.

Lemma before_cut (c : char) (a rest : str) :
  lacks c a = true -> rest = [] \/ (exists q, rest = c :: q) ->
  before c (a ++ rest) = a.
Proof.
  intros Ha Hr. unfold before. induction a as [|x a IH].
  - destruct Hr as [-> | [q ->]]; simpl; [reflexivity|].
    rewrite N.eqb_refl. reflexivity.
  - simpl in Ha. apply andb_prop in Ha. destruct Ha as [Hx Ha].
    cbn [app takewhile]. rewrite Hx, (IH Ha). reflexivity.
Qed.

Lemma before_lacks (c : char) (s : str) : lacks c s = true -> before c s = s.
Proof.
  intros H. rewrite <- (app_nil_r s) at 1. apply before_cut; auto.
Qed.

Lemma from_cut (c : char) (a q : str) :
  lacks c a = true -> from c (a ++ c :: q) = c :: q.
Proof.
  intros Ha. unfold from. induction a as [|x a IH].
  - simpl. rewrite N.eqb_refl. reflexivity.
  - simpl in Ha. apply andb_prop in Ha. destruct Ha as [Hx Ha].
    cbn [app dropwhile]. rewrite Hx. exact (IH Ha).
Qed.

(** The path portion of [scheme://authority/tail?query]. *)
Lemma url_path_of_parts (scheme authority tail query : str) :
  is_scheme scheme = true ->
  lacks slash authority = true -> lacks qmark authority = true ->
  lacks hash authority = true ->
  lacks qmark tail = true -> lacks hash tail = true ->
  is_query query -> lacks hash query = true ->
  url_path ((scheme ++ lit "://" ++ authority ++ slash :: tail) ++ query)
  = slash :: tail.
Proof.
  intros Hs Ha1 Ha2 Ha3 Ht1 Ht2 Hq Hq2.
  pose proof (is_scheme_lacks hash scheme eq_refl Hs) as Hs1.
  pose proof (is_scheme_lacks qmark scheme eq_refl Hs) as Hs2.
  pose proof (is_scheme_lacks colon scheme eq_refl Hs) as Hs3.
  unfold url_path.
  rewrite (before_lacks hash).
  2:{ rewrite !lacks_app. cbn [lacks forallb]. fold (lacks hash tail).
      rewrite Hs1, Ha3, Ht2, Hq2. reflexivity. }
  rewrite (before_cut qmark _ query); [| |exact Hq].
  2:{ rewrite !lacks_app. cbn [lacks forallb]. fold (lacks qmark tail).
      rewrite Hs2, Ha2, Ht1. reflexivity. }
  change (scheme ++ lit "://" ++ authority ++ slash :: tail)
    with (scheme ++ colon :: (lit "//" ++ authority ++ slash :: tail)).
  rewrite (from_cut colon _ _ Hs3).
  rewrite (before_cut colon scheme _ Hs3)
    by (right; eexists; reflexivity).
  rewrite Hs. cbv zeta.
  change (startswith (lit "//") (lit "//" ++ authority ++ slash :: tail))
    with true.
  cbv iota. change (skipn 2 (lit "//" ++ authority ++ slash :: tail))
    with (authority ++ slash :: tail).
  apply from_cut, Ha1.
Qed.

(** For a URL with a path and no fragment, the extension is the one of
    its path portion. *)
Lemma file_ext_of_url_path (scheme authority tail query : str) :
  is_scheme scheme = true ->
  lacks slash authority = true -> lacks qmark authority = true ->
  lacks hash authority = true ->
  lacks qmark tail = true -> lacks hash tail = true ->
  is_query query -> lacks hash query = true ->
  file_ext ((scheme ++ lit "://" ++ authority ++ slash :: tail) ++ query)
  = ext_of_url_path
      ((scheme ++ lit "://" ++ authority ++ slash :: tail) ++ query).
Proof.
  intros Hs Ha1 Ha2 Ha3 Ht1 Ht2 Hq Hq2.
  unfold ext_of_url_path.
  rewrite url_path_of_parts by assumption.
  rewrite file_ext_of_base; [| |exact Hq].
  2:{ rewrite !lacks_app. cbn [lacks forallb]. fold (lacks qmark tail).
      rewrite (is_scheme_lacks qmark scheme eq_refl Hs), Ha2, Ht1.
      reflexivity. }
  destruct (split_after_last slash tail) as [dir [comp [-> [Hdir Hcomp]]]].
  assert (H1 : is_dir (scheme ++ lit "://" ++ authority ++ slash :: dir)).
  { destruct Hdir as [-> | [d ->]]; right.
    - exists (scheme ++ lit "://" ++ authority).
      rewrite <- !app_assoc. reflexivity.
    - exists (scheme ++ lit "://" ++ authority ++ slash :: d).
      rewrite <- !app_assoc. reflexivity. }
  assert (H2 : is_dir (slash :: dir)).
  { destruct Hdir as [-> | [d ->]]; right;
      [exists [] | exists (slash :: d)]; reflexivity. }
  assert (E : snd (splitext (scheme ++ lit "://" ++ authority
                             ++ slash :: dir ++ comp))
              = snd (splitext (slash :: dir ++ comp))).
  { pose proof (splitext_snd_dir _ _ comp H1 H2 Hcomp) as E.
    rewrite <- !app_assoc in E. exact E. }
  rewrite E. cbv zeta.
  destruct (snd (splitext (slash :: dir ++ comp))) as [|c ext]; reflexivity.
Qed.

(** C6, refuted as stated: a URL without a path has an empty path portion
    and so no extension in it, yet its file gets the end of the host name;
    and a fragment after the path spoils an extension of 4 characters. *)
Lemma C6_path_portion_counterexample :
  url_path (lit "http://example.com") = []
  /\ ext_of_url_path (lit "http://example.com") = lit ".jpg"
  /\ file_ext (lit "http://example.com") = lit ".com"
  /\ url_path (lit "https://x/y/photo.png#top") = lit "/y/photo.png"
  /\ ext_of_url_path (lit "https://x/y/photo.png#top") = lit ".png"
  /\ file_ext (lit "https://x/y/photo.png#top") = lit ".jpg".
Proof. repeat split. Qed.

(** C6, as amended: the extension is the one of the text of the URL
    before its first question mark, read as a path: it is kept as found
    when it has at most 5 characters with its dot, and [.jpg] stands for a
    longer one and for a missing one.  Every URL has one of the shapes the
    statement goes through.  For a URL of the form
    [scheme://authority/path?query] this is the extension of the path
    portion. *)
Theorem C6_file_ext :
  (forall url : str, exists x, extension url x)
  /\ (forall (url : str) (x : option str),
        extension url x ->
        file_ext url
        = match x with
          | Some ext => if (List.length ext <=? 5)%nat then ext else lit ".jpg"
          | None => lit ".jpg"
          end)
  /\ file_ext (lit "https://x/y/photo.PNG?x=1") = lit ".PNG"
  /\ file_ext (lit "https://x/y/photo.jpegx") = lit ".jpg"
  /\ file_ext (lit "https://x/y/photo") = lit ".jpg"
  /\ (forall scheme authority tail query : str,
        is_scheme scheme = true ->
        lacks slash authority = true -> lacks qmark authority = true ->
        lacks hash authority = true ->
        lacks qmark tail = true -> lacks hash tail = true ->
        is_query query -> lacks hash query = true ->
        file_ext ((scheme ++ lit "://" ++ authority ++ slash :: tail) ++ query)
        = ext_of_url_path
            ((scheme ++ lit "://" ++ authority ++ slash :: tail) ++ query)).
Proof.
  split; [exact extension_total|].
  split; [|repeat split; exact file_ext_of_url_path].
  intros url x [dir name e query Hdir Hq Hslash Hdot Hname Hquery
               |dir name query Hdir Hq Hslash Hdot Hquery
               |dir dots e query Hdir Hq Hdots Hslash Hdot Hquery];
    rewrite file_ext_of_base by assumption.
  - rewrite splitext_ext by assumption.
    cbn [snd or_value truthy truthy_str truthy_list]. cbv zeta.
    destruct (Nat.leb_spec (List.length (dot :: e)) 5) as [H | H].
    + replace (5 <? List.length (dot :: e))%nat with false
        by (symmetry; apply Nat.ltb_ge; exact H).
      reflexivity.
    + replace (5 <? List.length (dot :: e))%nat with true
        by (symmetry; apply Nat.ltb_lt; exact H).
      reflexivity.
  - rewrite splitext_no_ext by assumption. reflexivity.
  - rewrite splitext_dots by assumption. reflexivity.
Qed.

Lemma C6_file_ext_witness :
  file_ext ((lit "https://x/y/" ++ lit "photo" ++ dot :: lit "PNG") ++ lit "?x=1")
  = lit ".PNG"
  /\ file_ext ((lit "https://x/y/" ++ lit "photo" ++ dot :: lit "jpegx") ++ [])
     = lit ".jpg"
  /\ file_ext ((lit "https://x/y/" ++ lit "photo") ++ []) = lit ".jpg"
  /\ file_ext ((lit "https://x/y/" ++ lit "." ++ dot :: lit "png") ++ [])
     = lit ".jpg"
  /\ file_ext ((lit "https" ++ lit "://" ++ lit "x" ++ slash :: lit "y/photo.PNG")
               ++ lit "?x=1")
     = ext_of_url_path
         ((lit "https" ++ lit "://" ++ lit "x" ++ slash :: lit "y/photo.PNG")
          ++ lit "?x=1").
Proof.
  assert (Hdir : is_dir (lit "https://x/y/"))
    by (right; exists (lit "https://x/y"); reflexivity).
  repeat apply conj.
  - apply (proj1 (proj2 C6_file_ext) _ (Some (dot :: lit "PNG"))).
    apply extension_found; try reflexivity; [exact Hdir|].
    right. exists (lit "x=1"). reflexivity.
  - apply (proj1 (proj2 C6_file_ext) _ (Some (dot :: lit "jpegx"))).
    apply extension_found; try reflexivity; [exact Hdir | left; reflexivity].
  - apply (proj1 (proj2 C6_file_ext) _ None).
    apply extension_none; try reflexivity; [exact Hdir | left; reflexivity].
  - apply (proj1 (proj2 C6_file_ext) _ None).
    apply extension_dots; try reflexivity; [exact Hdir | left; reflexivity].
  - apply (proj2 (proj2 (proj2 (proj2 (proj2 C6_file_ext))))); try reflexivity.
    right. exists (lit "x=1"). reflexivity.
Defined.

(** The text before the query string is read as a path: the host counts
    as a component when nothing follows it. *)
Example file_ext_host : file_ext (lit "http://example.com") = lit ".com".
Proof. reflexivity. Qed.

(** Whatever the URL, the extension has at most 5 characters. *)
Lemma file_ext_length (url : str) : (List.length (file_ext url) <= 5)%nat.
Proof.
  unfold file_ext.
  destruct (Nat.ltb_spec 5
              (List.length (or_value (snd (splitext (hd [] (split_on 63%N url))))
                                     (lit ".jpg")))) as [H | H].
  - simpl. lia.
  - exact H.
Qed.

(** ** Directories *)

Lemma path_eqb_eq (p q : path) : path_eqb p q = true <-> p = q.
Proof.
  unfold path_eqb. destruct (list_eq_dec (list_eq_dec N.eq_dec) p q);
    split; congruence.
Qed.

Lemma existsb_path_eqb (q : path) (l : list path) :
  existsb (path_eqb q) l = true <-> In q l.
Proof.
  rewrite existsb_exists. split.
  - intros [x [Hx E]]. apply path_eqb_eq in E. subst. exact Hx.
  - intros H. exists q. split; [exact H | apply path_eqb_eq; reflexivity].
Qed.

Lemma grown_refl (st : State) : grown st st.
Proof. unfold grown. auto. Qed.

Lemma grown_trans (st1 st2 st3 : State) :
  grown st1 st2 -> grown st2 st3 -> grown st1 st3.
Proof.
  intros [Hd [Hf [Ho [Hr Hm]]]] [Hd' [Hf' [Ho' [Hr' Hm']]]].
  unfold grown. repeat split; try congruence. auto.
Qed.

Lemma with_dir_grown (st : State) (q : path) : grown st (with_dir st q).
Proof.
  unfold grown, with_dir. cbn. repeat split.
  intros x Hx. apply in_or_app. left. exact Hx.
Qed.

(** Whatever becomes of it, [mkdir] touches neither the files nor the
    console, and removes no directory. *)
Lemma mkdir_step_grown (p q : path) (st : State) (r : result unit)
      (st' : State) :
  mkdir_step p q st = (r, st') -> grown st st'.
Proof.
  unfold mkdir_step.
  destruct (existsb (path_eqb q) (dirs st));
    [intros [= _ <-]; apply grown_refl|].
  destruct (is_file st q); [intros [= _ <-]; apply grown_refl|].
  destruct (always_there q); [intros [= _ <-]; apply with_dir_grown|].
  destruct (os_mkdir st q); intros [= _ <-];
    [apply with_dir_grown | apply grown_refl].
Qed.

Lemma mkdir_step_made (p q : path) (st : State) (u : unit) (st' : State) :
  mkdir_step p q st = (Ok u, st') -> In q (dirs st').
Proof.
  unfold mkdir_step.
  destruct (existsb (path_eqb q) (dirs st)) eqn:E.
  - intros [= _ <-]. apply existsb_path_eqb, E.
  - assert (H : In q (dirs (with_dir st q)))
      by (cbn; apply in_or_app; right; left; reflexivity).
    destruct (is_file st q); [discriminate|].
    destruct (always_there q); [intros [= _ <-]; exact H|].
    destruct (os_mkdir st q); [intros [= _ <-]; exact H | discriminate].
Qed.

Lemma mkdir_step_present (p q : path) (st : State) :
  In q (dirs st) -> mkdir_step p q st = (Ok tt, st).
Proof.
  intros H. unfold mkdir_step.
  rewrite (proj2 (existsb_path_eqb q (dirs st)) H). reflexivity.
Qed.

Lemma mkdir_step_ok (p q : path) (st : State) :
  can_make st q -> exists st', mkdir_step p q st = (Ok tt, st').
Proof.
  intros [H | [Hf [Ha | Hm]]].
  - exists st. apply mkdir_step_present, H.
  - unfold mkdir_step. rewrite Hf, Ha.
    destruct (existsb (path_eqb q) (dirs st)); eexists; reflexivity.
  - unfold mkdir_step. rewrite Hf, Hm.
    destruct (existsb (path_eqb q) (dirs st)); [eexists; reflexivity|].
    destruct (always_there q); eexists; reflexivity.
Qed.

Lemma mkdir_step_raises (p q : path) (st : State) (e : exn) (st' : State) :
  mkdir_step p q st = (Raise e, st') -> is_OSError e = true.
Proof.
  unfold mkdir_step.
  destruct (existsb (path_eqb q) (dirs st)); [discriminate|].
  destruct (is_file st q).
  - intros [= <- _]. destruct (path_eqb q p); reflexivity.
  - destruct (always_there q); [discriminate|].
    destruct (os_mkdir st q); [discriminate|].
    intros [= <- _]. reflexivity.
Qed.

Lemma can_make_grown (st st' : State) (q : path) :
  grown st st' -> can_make st q -> can_make st' q.
Proof.
  intros [Hd [Hf [_ [_ Hm]]]] [H | [Hq H]].
  - left. apply Hd, H.
  - right. unfold is_file in *. rewrite Hf, Hm. auto.
Qed.

Lemma makeable_grown (st st' : State) (p : path) :
  grown st st' -> makeable st p -> makeable st' p.
Proof. intros Hg H q Hq. apply (can_make_grown st st' q Hg), H, Hq. Qed.

Lemma mkdir_each_grown (p : path) (qs : list path) :
  forall (st : State) (r : result unit) (st' : State),
    mkdir_each p qs st = (r, st') -> grown st st'.
Proof.
  induction qs as [|q qs IH]; intros st r st' H.
  - injection H as _ <-. apply grown_refl.
  - cbn [mkdir_each] in H. unfold bind in H.
    destruct (mkdir_step p q st) as [[u|e] st1] eqn:E.
    + apply (grown_trans st st1 st');
        [apply (mkdir_step_grown _ _ _ _ _ E) | apply (IH _ _ _ H)].
    + injection H as _ <-. apply (mkdir_step_grown _ _ _ _ _ E).
Qed.

Lemma mkdir_each_made (p : path) (qs : list path) :
  forall (st : State) (u : unit) (st' : State),
    mkdir_each p qs st = (Ok u, st') -> forall q, In q qs -> In q (dirs st').
Proof.
  induction qs as [|x qs IH]; intros st u st' H q Hq; [destruct Hq|].
  cbn [mkdir_each] in H. unfold bind in H.
  destruct (mkdir_step p x st) as [[v|e] st1] eqn:E; [|discriminate].
  destruct Hq as [<- | Hq].
  - apply (proj1 (mkdir_each_grown _ _ _ _ _ H)).
    apply (mkdir_step_made _ _ _ _ _ E).
  - apply (IH _ _ _ H q Hq).
Qed.

Lemma mkdir_each_ok (p : path) (qs : list path) :
  forall st : State,
    (forall q, In q qs -> can_make st q) ->
    exists st', mkdir_each p qs st = (Ok tt, st').
Proof.
  induction qs as [|x qs IH]; intros st H.
  - exists st. reflexivity.
  - destruct (mkdir_step_ok p x st (H x (or_introl eq_refl))) as [st1 E].
    cbn [mkdir_each]. rewrite (bind_ok _ _ _ _ _ E).
    apply IH. intros q Hq.
    apply (can_make_grown st st1 q (mkdir_step_grown _ _ _ _ _ E)).
    apply H. right. exact Hq.
Qed.

Lemma mkdir_each_present (p : path) (qs : list path) (st : State) :
  (forall q, In q qs -> In q (dirs st)) -> mkdir_each p qs st = (Ok tt, st).
Proof.
  induction qs as [|x qs IH]; intros H; [reflexivity|].
  cbn [mkdir_each].
  rewrite (bind_ok _ _ _ _ _ (mkdir_step_present p x st (H x (or_introl eq_refl)))).
  apply IH. intros q Hq. apply H. right. exact Hq.
Qed.

Lemma mkdir_each_raises (p : path) (qs : list path) :
  forall (st : State) (e : exn) (st' : State),
    mkdir_each p qs st = (Raise e, st') -> is_OSError e = true.
Proof.
  induction qs as [|x qs IH]; intros st e st' H; [discriminate|].
  cbn [mkdir_each] in H. unfold bind in H.
  destruct (mkdir_step p x st) as [[v|e1] st1] eqn:E.
  - apply (IH _ _ _ H).
  - injection H as <- _. apply (mkdir_step_raises _ _ _ _ _ E).
Qed.

Lemma ensure_dir_grown (p : path) (st : State) (r : result unit)
      (st' : State) :
  ensure_dir p st = (r, st') -> grown st st'.
Proof. apply mkdir_each_grown. Qed.

Lemma ensure_dir_made (p : path) (st : State) (u : unit) (st' : State) :
  ensure_dir p st = (Ok u, st') ->
  forall q, In q (prefixes [] p) -> In q (dirs st').
Proof. apply mkdir_each_made. Qed.

Lemma ensure_dir_ok (p : path) (st : State) :
  makeable st p ->
  exists st', ensure_dir p st = (Ok tt, st') /\ grown st st'.
Proof.
  intros H. destruct (mkdir_each_ok p (prefixes [] p) st H) as [st' E].
  exists st'. split; [exact E | apply (mkdir_each_grown _ _ _ _ _ E)].
Qed.

Lemma ensure_dir_present (p : path) (st : State) :
  (forall q, In q (prefixes [] p) -> In q (dirs st)) ->
  ensure_dir p st = (Ok tt, st).
Proof. apply mkdir_each_present. Qed.

Lemma ensure_dir_raises (p : path) (st : State) (e : exn) (st' : State) :
  ensure_dir p st = (Raise e, st') -> is_OSError e = true.
Proof. apply mkdir_each_raises. Qed.

(** On a disk without files where nothing is refused, every directory can
    be made. *)
Lemma typing_makeable (lines : list (result str)) (p : path) :
  makeable (typing lines) p.
Proof. intros q _. right. split; [reflexivity | right; reflexivity]. Qed.

(** ** Task builder *)

Lemma photo_url_cases (p : Photo.t) :
  match photo_url p with
  | Some (c :: u) => usable_url p = Some (c :: u)
  | _ => usable_url p = None
  end.
Proof.
  unfold photo_url, usable_url, or_else.
  destruct p as [[[|a pp]|] [[|b su]|] [[|c u]|] n]; reflexivity.
Qed.

Lemma photo_loop_step (e : Env) (student_folder : path) (p : Photo.t)
      (photos : list Photo.t) (tasks : list task) :
  photo_loop e student_folder (p :: photos) tasks
  = photo_loop e student_folder photos
               (tasks ++ if eligible p then [task_of e student_folder p] else []).
Proof.
  pose proof (photo_url_cases p) as H.
  unfold eligible, task_of, url_of. cbn [photo_loop].
  destruct (photo_url p) as [[|c u]|]; rewrite H.
  - cbn. rewrite app_nil_r. reflexivity.
  - cbn [truthy truthy_str truthy_list negb orb].
    destruct (startswith (lit "http") (c :: u)); cbn [negb];
      [reflexivity | rewrite app_nil_r; reflexivity].
  - rewrite app_nil_r. reflexivity.
Qed.

Lemma photo_loop_spec (e : Env) (student_folder : path)
      (photos : list Photo.t) (tasks : list task) :
  photo_loop e student_folder photos tasks
  = tasks ++ map (task_of e student_folder) (filter eligible photos).
Proof.
  revert tasks. induction photos as [|p photos IH]; intros tasks.
  - simpl. rewrite app_nil_r. reflexivity.
  - rewrite photo_loop_step, IH. cbn [filter].
    destruct (eligible p); cbn [map]; rewrite <- app_assoc; reflexivity.
Qed.

Lemma split_from_pending (tok s : str) : tok <> [] -> split_from tok s <> [].
Proof.
  revert tok. induction s as [|c s IH]; intros tok H; simpl.
  - destruct tok; [congruence | discriminate].
  - destruct (isspace c).
    + destruct tok; [congruence | discriminate].
    + apply IH. discriminate.
Qed.

Lemma split_has_token (s : str) :
  existsb (fun c => negb (isspace c)) s = true -> split s <> [].
Proof.
  unfold split. generalize (@nil char) as tok.
  induction s as [|c s IH]; intros tok H; simpl in *; [discriminate|].
  destruct (isspace c); simpl in H.
  - specialize (IH [] H). destruct tok; simpl; [exact IH | discriminate].
  - apply split_from_pending. discriminate.
Qed.

Lemma nameable_folder (fromisoformat : str -> option date) (e : Env)
      (s : Student.t) :
  nameable s = true ->
  exists folder_name, student_folder_of fromisoformat e s = Ok folder_name.
Proof.
  intros H. unfold nameable in H.
  unfold student_folder_of, student_folder_name.
  remember (or_default (Student.firstName s) (lit "unknown")) as first eqn:E.
  clear E.
  assert (Hf : or_default (Some first) (lit "unknown") = first).
  { destruct first; [discriminate | reflexivity]. }
  rewrite Hf. pose proof (split_has_token first H) as Hs.
  destruct (split first); [congruence|]. eexists. reflexivity.
Qed.

Section Builder.

Variable fromisoformat : str -> option date.

(** However the loop over the students ends, it has made directories and
    touched nothing else. *)
Lemma student_loop_grown (e : Env) (base : path) (students : list Student.t) :
  forall (tasks : list task) (st : State) (r : result (list task))
         (st' : State),
    student_loop fromisoformat e base students tasks st = (r, st') ->
    grown st st'.
Proof.
  induction students as [|s students IH]; intros tasks st r st' H.
  - injection H as _ <-. apply grown_refl.
  - cbn [student_loop] in H. unfold bind at 1, lift in H.
    destruct (student_folder_of fromisoformat e s) as [name|err].
    + unfold bind at 1 in H.
      destruct (ensure_dir (path_join base name) st) as [[u|err] st1] eqn:E.
      * apply (grown_trans st st1 st');
          [apply (ensure_dir_grown _ _ _ _ E) | apply (IH _ _ _ _ H)].
      * injection H as _ <-. apply (ensure_dir_grown _ _ _ _ E).
    + injection H as _ <-. apply grown_refl.
Qed.

Lemma build_tasks_grown (e : Env) (out_root : path) (school_name : str)
      (students : list Student.t) (st : State) (r : result (list task))
      (st' : State) :
  build_tasks fromisoformat e out_root school_name students st = (r, st') ->
  grown st st'.
Proof.
  unfold build_tasks. cbv zeta. unfold bind at 1. intros H.
  destruct (ensure_dir (path_join (path_join out_root school_name)
                                  (lit "Students")) st)
    as [[u|err] st1] eqn:E.
  - apply (grown_trans st st1 st');
      [apply (ensure_dir_grown _ _ _ _ E)
      | apply (student_loop_grown _ _ _ _ _ _ _ H)].
  - injection H as _ <-. apply (ensure_dir_grown _ _ _ _ E).
Qed.

(** When the loop returns, it returns the tasks of the eligible photos. *)
Lemma student_loop_result (e : Env) (base : path) (students : list Student.t) :
  forall (tasks : list task) (st : State) (tasks' : list task) (st' : State),
    student_loop fromisoformat e base students tasks st = (Ok tasks', st') ->
    tasks' = tasks ++ flat_map (student_tasks fromisoformat e base) students.
Proof.
  induction students as [|s students IH]; intros tasks st tasks' st' H.
  - injection H as <- _. simpl. rewrite app_nil_r. reflexivity.
  - cbn [student_loop flat_map] in *. unfold bind at 1, lift in H.
    unfold student_tasks at 1.
    destruct (student_folder_of fromisoformat e s) as [name|err];
      [|discriminate].
    unfold bind at 1 in H.
    destruct (ensure_dir (path_join base name) st) as [[u|err] st1];
      [|discriminate].
    rewrite (IH _ _ _ _ H), photo_loop_spec, <- app_assoc. reflexivity.
Qed.

(** The loop returns when every student has a first name to take a token
    from and every student's folder can be made. *)
Lemma student_loop_spec (e : Env) (base : path) (students : list Student.t) :
  forallb nameable students = true ->
  forall (tasks : list task) (st : State),
    (forall s f, In s students ->
                 student_folder_of fromisoformat e s = Ok f ->
                 makeable st (path_join base f)) ->
    exists st',
      student_loop fromisoformat e base students tasks st
      = (Ok (tasks ++ flat_map (student_tasks fromisoformat e base) students),
         st').
Proof.
  induction students as [|s students IH]; intros Hn tasks st Hm.
  - exists st. simpl. rewrite app_nil_r. reflexivity.
  - simpl in Hn. apply andb_prop in Hn. destruct Hn as [Hs Hn].
    destruct (nameable_folder fromisoformat e s Hs) as [name Hname].
    destruct (ensure_dir_ok (path_join base name) st
                            (Hm s name (or_introl eq_refl) Hname))
      as [st1 [E Hg]].
    destruct (IH Hn (photo_loop e (path_join base name)
                                (or_default (Student.photos s) []) tasks) st1)
      as [st' H].
    { intros s' f Hs' Hf. apply (makeable_grown st st1 _ Hg).
      apply (Hm s' f); [right; exact Hs' | exact Hf]. }
    exists st'. cbn [student_loop flat_map]. unfold bind at 1, lift.
    unfold student_tasks at 1. rewrite Hname.
    rewrite (bind_ok _ _ _ _ _ E), H, photo_loop_spec, <- app_assoc.
    reflexivity.
Qed.

Lemma unnameable_folder (e : Env) (s : Student.t) :
  nameable s = false ->
  student_folder_of fromisoformat e s
  = Raise (Raised IndexError (lit "list index out of range")).
Proof.
  intros H. unfold nameable in H.
  unfold student_folder_of, student_folder_name.
  remember (or_default (Student.firstName s) (lit "unknown")) as first eqn:E.
  assert (Hne : first <> []).
  { subst first. destruct (Student.firstName s) as [[|c f]|]; discriminate. }
  clear E. rewrite or_default_nonempty by exact Hne.
  rewrite split_spaces_only; [reflexivity|].
  clear Hne. induction first as [|c first IH]; [reflexivity|].
  simpl in *. apply orb_false_iff in H. destruct H as [Hc H].
  apply negb_false_iff in Hc. rewrite Hc. auto.
Qed.

(** The builder stops with [IndexError] at the first student whose first
    name is a non-empty string of whitespace, when the folders up to there
    can be made; no task list is built. *)
Lemma build_tasks_unnameable (e : Env) (out_root : path) (school_name : str)
      (before : list Student.t) (s : Student.t) (after : list Student.t)
      (st : State) :
  forallb nameable before = true -> nameable s = false ->
  makeable st (students_root out_root school_name) ->
  (forall s' f, In s' before ->
                student_folder_of fromisoformat e s' = Ok f ->
                makeable st (path_join (students_root out_root school_name) f)) ->
  exists st',
    build_tasks fromisoformat e out_root school_name (before ++ s :: after) st
    = (Raise (Raised IndexError (lit "list index out of range")), st').
Proof.
  intros Hb Hs Hroot Hm. unfold build_tasks. cbv zeta.
  fold (students_root out_root school_name).
  destruct (ensure_dir_ok _ st Hroot) as [st1 [E Hg]].
  rewrite (bind_ok _ _ _ _ _ E).
  assert (Hm1 : forall s' f, In s' before ->
            student_folder_of fromisoformat e s' = Ok f ->
            makeable st1 (path_join (students_root out_root school_name) f)).
  { intros s' f Hs' Hf. apply (makeable_grown st st1 _ Hg), (Hm s' f Hs' Hf). }
  clear E Hg Hm Hroot. revert Hm1.
  generalize (@nil task) as tasks. generalize st1 as st0.
  induction before as [|b before IH]; intros st0 tasks Hm.
  - cbn [app student_loop]. unfold bind, lift.
    rewrite (unnameable_folder e s Hs). eexists. reflexivity.
  - simpl in Hb. apply andb_prop in Hb. destruct Hb as [Hn Hb].
    destruct (nameable_folder fromisoformat e b Hn) as [name Hname].
    cbn [app student_loop]. unfold bind at 1, lift. rewrite Hname.
    destruct (ensure_dir_ok _ st0 (Hm b name (or_introl eq_refl) Hname))
      as [st2 [Hd Hg]].
    rewrite (bind_ok _ _ _ _ _ Hd). apply (IH Hb).
    intros s' f Hs' Hf. apply (makeable_grown st0 st2 _ Hg).
    apply (Hm s' f); [right; exact Hs' | exact Hf].
Qed.

(** C5, as amended: a photo gets a download task exactly when the first of
    its fields photoPath, secure_url and url that is present and not empty
    starts with [http]; the tasks are one per such photo, in order.  However
    the builder ends it has printed nothing and written no file, and the
    tasks it returns are those of the eligible photos of every student; it
    does return when every student has a first name to take a token from
    and the folders can be made. *)
Theorem C5_tasks_of_eligible_photos :
  (forall (e : Env) (student_folder : path) (photos : list Photo.t),
      photo_loop e student_folder photos []
      = map (task_of e student_folder) (filter eligible photos))
  /\ (forall (e : Env) (out_root : path) (school_name : str)
             (students : list Student.t) (st : State)
             (r : result (list task)) (st' : State),
        build_tasks fromisoformat e out_root school_name students st = (r, st') ->
        files st' = files st /\ stdout st' = stdout st
        /\ forall tasks,
             r = Ok tasks ->
             tasks = flat_map
                       (student_tasks fromisoformat e
                          (students_root out_root school_name))
                       students)
  /\ (forall (e : Env) (out_root : path) (school_name : str)
             (students : list Student.t) (st : State),
        forallb nameable students = true ->
        makeable st (students_root out_root school_name) ->
        (forall s f, In s students ->
                     student_folder_of fromisoformat e s = Ok f ->
                     makeable st (path_join (students_root out_root school_name)
                                            f)) ->
        exists st',
          build_tasks fromisoformat e out_root school_name students st
          = (Ok (flat_map
                   (student_tasks fromisoformat e
                      (students_root out_root school_name))
                   students), st')).
Proof.
  split; [|split].
  - intros. apply photo_loop_spec.
  - intros e out_root school_name students st r st' H.
    destruct (build_tasks_grown _ _ _ _ _ _ _ H) as [_ [Hf [Ho _]]].
    split; [exact Hf|]. split; [exact Ho|]. intros tasks ->.
    unfold build_tasks in H. cbv zeta in H. unfold bind at 1 in H.
    fold (students_root out_root school_name) in H.
    destruct (ensure_dir (students_root out_root school_name) st)
      as [[u|err] st1]; [|discriminate].
    apply (student_loop_result _ _ _ _ _ _ _ H).
  - intros e out_root school_name students st Hn Hroot Hm.
    unfold build_tasks. cbv zeta. fold (students_root out_root school_name).
    destruct (ensure_dir_ok _ st Hroot) as [st1 [E Hg]].
    rewrite (bind_ok _ _ _ _ _ E).
    destruct (student_loop_spec e (students_root out_root school_name)
                students Hn [] st1) as [st' H].
    { intros s f Hs Hf. apply (makeable_grown st st1 _ Hg), (Hm s f Hs Hf). }
    exists st'. exact H.
Qed.

End Builder.

(** When a photo carries its URL in one field only, as the payload's
    contract has it, being eligible is having a field that starts with
    [http]. *)
Lemma eligible_single_field (p : Photo.t) :
  (url_fields p <= 1)%nat -> eligible p = http_field p.
Proof.
  unfold url_fields, eligible, usable_url, http_field.
  destruct p as [[[|a pp]|] [[|b su]|] [[|c u]|] n]; cbn; intros H;
    try reflexivity; try lia;
    rewrite ?orb_false_r; reflexivity.
Qed.

Lemma eligible_http_field (p : Photo.t) :
  eligible p = true -> http_field p = true.
Proof.
  unfold eligible, usable_url, http_field.
  destruct p as [[[|a pp]|] [[|b su]|] [[|c u]|] n]; cbn; intros H;
    try discriminate; rewrite H, ?orb_true_r; reflexivity.
Qed.

(** C5, refuted as stated: a photo whose photoPath is a local path and
    whose secure_url starts with [http] has a URL field that starts with
    [http], and the builder makes no task for it. *)
Lemma C5_hidden_field_counterexample :
  http_field local_first = true
  /\ Photo.secure_url local_first = Some (lit "https://cdn/a.jpg")
  /\ photo_loop in_2024 [lit "d"] [local_first] [] = []
  /\ eligible local_first = false.
Proof. repeat split. Qed.

(** ** Determinism of the names *)

Section Names.

Variable fromisoformat : str -> option date.

Lemma student_folder_of_year (e1 e2 : Env) (s : Student.t) :
  now_year e1 = now_year e2 \/ Student.dob s = None ->
  student_folder_of fromisoformat e1 s = student_folder_of fromisoformat e2 s.
Proof.
  intros [H | H]; unfold student_folder_of, student_age.
  - rewrite H. reflexivity.
  - rewrite H. reflexivity.
Qed.

Lemma photo_filename_thread (e1 e2 : Env) (p : Photo.t) (url : str) :
  Photo.photoNumber p <> None \/ thread_ident e1 = thread_ident e2 ->
  photo_filename e1 p url = photo_filename e2 p url.
Proof.
  intros [H | H]; unfold photo_filename.
  - destruct (Photo.photoNumber p); [reflexivity | congruence].
  - rewrite H. reflexivity.
Qed.

Lemma photo_loop_thread (e1 e2 : Env) (student_folder : path)
      (photos : list Photo.t) (tasks : list task) :
  forallb has_number photos = true
  \/ thread_ident e1 = thread_ident e2 ->
  photo_loop e1 student_folder photos tasks
  = photo_loop e2 student_folder photos tasks.
Proof.
  intros H. revert tasks. induction photos as [|p photos IH]; intros tasks;
    [reflexivity|].
  assert (Hp : forall u, photo_filename e1 p u = photo_filename e2 p u).
  { intros u. apply photo_filename_thread.
    destruct H as [H | H]; [left|right; exact H].
    simpl in H. unfold has_number in H.
    destruct (Photo.photoNumber p); [discriminate | discriminate H]. }
  assert (Hrest : forallb has_number photos = true
                  \/ thread_ident e1 = thread_ident e2).
  { destruct H as [H | H]; [left|right; exact H].
    simpl in H. apply andb_prop in H. tauto. }
  cbn [photo_loop]. destruct (photo_url p) as [u|]; [|apply IH, Hrest].
  rewrite Hp. destruct (negb (truthy u) || negb (startswith (lit "http") u));
    apply IH, Hrest.
Qed.

Lemma student_loop_env (e1 e2 : Env) (base : path) (students : list Student.t) :
  now_year e1 = now_year e2 ->
  forallb numbered students = true \/ thread_ident e1 = thread_ident e2 ->
  forall (tasks : list task) (st : State),
    student_loop fromisoformat e1 base students tasks st
    = student_loop fromisoformat e2 base students tasks st.
Proof.
  intros Hy Ht. induction students as [|s students IH]; intros tasks st;
    [reflexivity|].
  assert (Hs : numbered s = true \/ thread_ident e1 = thread_ident e2).
  { destruct Ht as [H | H]; [left|right; exact H].
    simpl in H. apply andb_prop in H. tauto. }
  assert (Hrest : forallb numbered students = true
                  \/ thread_ident e1 = thread_ident e2).
  { destruct Ht as [H | H]; [left|right; exact H].
    simpl in H. apply andb_prop in H. tauto. }
  cbn [student_loop]. unfold bind, lift.
  rewrite (student_folder_of_year e1 e2 s (or_introl Hy)).
  destruct (student_folder_of fromisoformat e2 s) as [name|err]; [|reflexivity].
  destruct (ensure_dir (path_join base name) st) as [[[]|err] st1];
    [|reflexivity].
  rewrite (photo_loop_thread e1 e2 _ _ _ Hs). apply IH, Hrest.
Qed.

(** C1, as amended: the folder name depends on the run only through the
    current year, and the file name only through the thread identifier,
    and that only for a photo without a photoNumber; two runs that agree
    on these build the same tasks. *)
Theorem C1_names_deterministic :
  (forall (e1 e2 : Env) (s : Student.t),
      now_year e1 = now_year e2 \/ Student.dob s = None ->
      student_folder_of fromisoformat e1 s = student_folder_of fromisoformat e2 s)
  /\ (forall (e1 e2 : Env) (p : Photo.t) (url : str),
        Photo.photoNumber p <> None \/ thread_ident e1 = thread_ident e2 ->
        photo_filename e1 p url = photo_filename e2 p url)
  /\ (forall (e1 e2 : Env) (out_root : path) (school_name : str)
             (students : list Student.t) (st : State),
        now_year e1 = now_year e2 ->
        forallb numbered students = true \/ thread_ident e1 = thread_ident e2 ->
        build_tasks fromisoformat e1 out_root school_name students st
        = build_tasks fromisoformat e2 out_root school_name students st).
Proof.
  split; [|split].
  - apply student_folder_of_year.
  - apply photo_filename_thread.
  - intros e1 e2 out_root school_name students st Hy Ht.
    unfold build_tasks, bind.
    destruct (ensure_dir _ st) as [[[]|err] st1]; [|reflexivity].
    apply student_loop_env; assumption.
Qed.

End Names.

(** C1, refuted as stated: with the same photo record, two runs whose
    building threads differ give two file names; with the same student
    record, two runs in different years give two folder names. *)
Lemma C1_names_counterexample :
  photo_filename in_2024 unnumbered_photo (url_of unnumbered_photo)
  <> photo_filename other_thread unnumbered_photo (url_of unnumbered_photo)
  /\ photo_loop in_2024 [lit "d"] [unnumbered_photo] []
     <> photo_loop other_thread [lit "d"] [unnumbered_photo] []
  /\ student_folder_of fromisoformat_ymd in_2024 born_2015
     <> student_folder_of fromisoformat_ymd in_2025 born_2015.
Proof. repeat split; vm_compute; discriminate. Qed.

Lemma C1_names_deterministic_witness :
  student_folder_of fromisoformat_ymd in_2024 born_2015
  = student_folder_of fromisoformat_ymd other_thread born_2015.
Proof.
  apply (proj1 (C1_names_deterministic fromisoformat_ymd)).
  left. reflexivity.
Defined.

(** ** Download pool *)

(** One download: its result is decided by the task alone, whatever the
    state it runs in; it never raises, and a failure prints its line. *)
Lemma download_url_run (w : World) (url : str) (target : path) (st : State) :
  exists st',
    download_url w url target st = (Ok (succeeds w (url, target)), st')
    /\ reads st' = reads st
    /\ stdout st'
       = stdout st ++ (if succeeds w (url, target) then []
                       else [failure_line w (url, target)]).
Proof.
  unfold download_url, succeeds, failure_line, cause, try_except, bind,
    of_reply, ret, raise, print, emit, write_file. simpl fst. simpl snd.
  destruct (session_get w url) as [content|msg];
    [destruct (open_wb w target) as [[]|msg]|];
    eexists; (split; [reflexivity|]); cbn; auto using app_nil_r.
Qed.

Lemma collect_run (w : World) (done : list task) :
  forall (success_count : Z) (st : State),
  exists st',
    collect w done success_count st
    = (Ok (success_count + successes w done)%Z, st')
    /\ reads st' = reads st
    /\ stdout st' = stdout st ++ map (report w) done.
Proof.
  induction done as [|[url target] done IH]; intros n st.
  - exists st. unfold successes. simpl. rewrite Z.add_0_r, app_nil_r. auto.
  - destruct (download_url_run w url target st) as [st1 [Hd [Hr Ho]]].
    cbn [collect]. rewrite (bind_ok _ _ _ _ _ Hd).
    unfold successes, report. cbn [filter map].
    destruct (succeeds w (url, target)) eqn:E.
    + unfold bind at 1. unfold print, emit. cbn.
      match goal with
      | |- context [collect w done ?n' ?s] =>
          destruct (IH n' s) as [st' [-> [Hr' Ho']]]
      end.
      exists st'. cbn in Hr', Ho'. unfold successes. cbn [List.length].
      split; [f_equal; f_equal; lia|]. split; [congruence|].
      rewrite Ho', Ho, app_nil_r, <- app_assoc. reflexivity.
    + destruct (IH n st1) as [st' [-> [Hr' Ho']]].
      exists st'. split; [reflexivity|]. split; [congruence|].
      rewrite Ho', Ho, <- app_assoc. reflexivity.
Qed.

Lemma remove_nth_perm {A} (k : nat) (l : list A) (d : A) :
  (k < List.length l)%nat -> Permutation (nth k l d :: remove_nth k l) l.
Proof.
  revert k. induction l as [|x l IH]; intros k H; simpl in H; [lia|].
  destruct k as [|k]; simpl; [reflexivity|].
  rewrite perm_swap. constructor. apply IH. lia.
Qed.

Lemma remove_nth_length {A} (k : nat) (l : list A) :
  (k < List.length l)%nat -> S (List.length (remove_nth k l)) = List.length l.
Proof.
  revert k. induction l as [|x l IH]; intros k H; simpl in H; [lia|].
  destruct k as [|k]; simpl; [reflexivity|]. rewrite IH; lia.
Qed.

(** Whatever the order of completion, every future is handled once. *)
Lemma as_completed_perm {A} (order : list nat) (pending : list A) :
  Permutation (as_completed (List.length pending) order pending) pending.
Proof.
  remember (List.length pending) as n eqn:Hn.
  revert order pending Hn. induction n as [|n IH]; intros order pending Hn.
  - destruct pending; [constructor | discriminate].
  - destruct pending as [|x pending]; [discriminate|].
    cbn [as_completed].
    set (k := (hd 0%nat order mod List.length (x :: pending))%nat).
    assert (Hk : (k < List.length (x :: pending))%nat).
    { apply Nat.mod_upper_bound. discriminate. }
    apply Permutation_trans
      with (nth k (x :: pending) x :: remove_nth k (x :: pending));
      [|apply remove_nth_perm, Hk].
    constructor. apply IH.
    pose proof (remove_nth_length k (x :: pending) Hk). simpl in *. lia.
Qed.

Lemma filter_perm {A} (f : A -> bool) (l l' : list A) :
  Permutation l l' -> Permutation (filter f l) (filter f l').
Proof.
  induction 1 as [|x l l' _ IH|x y l|l l' l'' _ IH1 _ IH2]; simpl.
  - constructor.
  - destruct (f x); [constructor|]; exact IH.
  - destruct (f x), (f y); try reflexivity. apply perm_swap.
  - etransitivity; eassumption.
Qed.

Lemma successes_perm (w : World) (l l' : list task) :
  Permutation l l' -> successes w l = successes w l'.
Proof.
  intros H. unfold successes. f_equal.
  apply Permutation_length, filter_perm, H.
Qed.

Lemma run_pool_run (w : World) (max_workers : Z) (tasks : list task)
      (st : State) :
  (0 < max_workers)%Z ->
  exists st' done,
    run_pool w max_workers tasks st = (Ok (successes w tasks), st')
    /\ Permutation done tasks
    /\ reads st' = reads st
    /\ stdout st' = stdout st ++ map (report w) done.
Proof.
  intros H. unfold run_pool.
  replace (max_workers <=? 0)%Z with false by (symmetry; apply Z.leb_gt, H).
  set (done := as_completed (List.length tasks) (completion w) tasks).
  destruct (collect_run w done 0%Z st) as [st' [Hc [Hr Ho]]].
  exists st', done. rewrite Hc.
  pose proof (as_completed_perm (completion w) tasks) as Hp. fold done in Hp.
  rewrite (successes_perm w done tasks Hp). auto.
Qed.

(** ** Command-line driver *)

Lemma next_read_pop (st : State) :
  next_read st
  = (fst (pop (reads st)),
     {| reads := snd (pop (reads st)); stdout := stdout st;
        dirs := dirs st; files := files st; os_mkdir := os_mkdir st |}).
Proof. destruct st as [[|r rs] o d f]; reflexivity. Qed.

Lemma print_schools_run (schools : list School.t) :
  forall (i : Z) (st : State),
  exists st', print_schools i schools st = (Ok tt, st')
              /\ reads st' = reads st.
Proof.
  induction schools as [|s schools IH]; intros i st.
  - exists st. auto.
  - cbn [print_schools]. unfold bind at 1. unfold print, emit.
    match goal with
    | |- context [print_schools ?j schools ?s'] =>
        destruct (IH j s') as [st' [-> Hr]]
    end.
    exists st'. auto.
Qed.

Lemma list_schools_ok (w : World) (base : str) (b : Body.t School.t)
      (st : State) :
  get_json w (base ++ lit "/api/admin/export/schools") = Got b ->
  Body.success b = Some true ->
  list_schools w base st = (Ok (or_default (Body.data b) []), st).
Proof.
  intros Hg Hs. unfold list_schools, try_except, bind, of_reply.
  rewrite Hg. cbn. rewrite Hs. reflexivity.
Qed.

Lemma list_schools_fails (w : World) (base : str) (st : State) :
  fetch_failure (get_json w (base ++ lit "/api/admin/export/schools")) ->
  exists st', list_schools w base st = (Raise (SystemExit 1), st').
Proof.
  intros H. unfold list_schools. cbv zeta.
  unfold try_except, bind, of_reply.
  remember (get_json w (base ++ lit "/api/admin/export/schools")) as r eqn:E.
  clear E. destruct H as [msg | b Hs | b Hs]; cbn; try rewrite Hs;
    eexists; reflexivity.
Qed.

Lemma export_students_fails (w : World) (base school_id u p : str)
      (st : State) :
  fetch_failure
    (post_json w (base ++ lit "/api/admin/export/schools/" ++ school_id
                  ++ lit "/students") u p) ->
  exists st', export_students w base school_id u p st
              = (Raise (SystemExit 1), st').
Proof.
  intros H. unfold export_students. cbv zeta.
  unfold try_except, bind, of_reply.
  remember (post_json w (base ++ lit "/api/admin/export/schools/" ++ school_id
                         ++ lit "/students") u p) as r eqn:E.
  clear E. destruct H as [msg | b Hs | b Hs]; cbn; try rewrite Hs;
    eexists; reflexivity.
Qed.

Lemma emit_run (o : output) (st : State) : emit o st = (Ok tt, logged st o).
Proof. reflexivity. Qed.

Lemma print_run (line : str) (st : State) :
  print line st = (Ok tt, logged st (Printed line)).
Proof. reflexivity. Qed.

Lemma input_run (prompt : str) (st : State) :
  input prompt st
  = (fst (pop (reads st)),
     {| reads := snd (pop (reads st));
        stdout := stdout st ++ [Prompted prompt];
        dirs := dirs st; files := files st; os_mkdir := os_mkdir st |}).
Proof.
  unfold input. rewrite (bind_ok _ _ _ _ _ (emit_run _ _)).
  rewrite next_read_pop. reflexivity.
Qed.

Lemma mkdir_parents_run (p : path) (st : State) :
  makeable st p ->
  exists st', mkdir_parents p st = (Ok tt, st') /\ grown st st'.
Proof. apply ensure_dir_ok. Qed.

Section Driver.

Variable fromisoformat : str -> option date.
Variable int_of_str : str -> option Z.

Lemma main_choose_raises (a : Args) (w : World) (st st' : State) (e : exn) :
  choose_school int_of_str a w st = (Raise e, st') ->
  main fromisoformat int_of_str a w st = (Raise e, st').
Proof.
  intros H. unfold main, gather_tasks. cbv zeta.
  rewrite (bind_raise _ _ _ _ _ (bind_raise _ _ _ _ _ H)). reflexivity.
Qed.

Lemma main_gather_raises (a : Args) (w : World) (st st' : State) (e : exn) :
  gather_tasks fromisoformat int_of_str a w st = (Raise e, st') ->
  main fromisoformat int_of_str a w st = (Raise e, st').
Proof. intros H. unfold main. apply bind_raise, H. Qed.

Lemma choose_school_no_schools (a : Args) (w : World) (st : State)
      (b : Body.t School.t) :
  makeable st (out a) ->
  get_json w (schools_url a) = Got b -> Body.success b = Some true ->
  or_default (Body.data b) [] = [] ->
  exists st', choose_school int_of_str a w st = (Raise (SystemExit 0), st').
Proof.
  intros Hout Hg Hs He. unfold choose_school. cbv zeta.
  destruct (mkdir_parents_run (out a) st Hout) as [st0 [Hm _]].
  rewrite (bind_ok _ _ _ _ _ Hm).
  rewrite (bind_ok _ _ _ _ _ (list_schools_ok w _ b st0 Hg Hs)).
  rewrite He. eexists. reflexivity.
Qed.

Lemma choose_school_fetch_fails (a : Args) (w : World) (st : State) :
  makeable st (out a) ->
  fetch_failure (get_json w (schools_url a)) ->
  exists st', choose_school int_of_str a w st = (Raise (SystemExit 1), st').
Proof.
  intros Hout H. unfold choose_school. cbv zeta.
  destruct (mkdir_parents_run (out a) st Hout) as [st0 [Hm _]].
  rewrite (bind_ok _ _ _ _ _ Hm).
  destruct (list_schools_fails w _ st0 H) as [st' Hl].
  rewrite (bind_raise _ _ _ _ _ Hl). eexists. reflexivity.
Qed.

Lemma check_range_invalid (k : Z) (n : nat) (st : State) :
  (k < 1 \/ Z.of_nat n < k)%Z ->
  check_range (k - 1) n st = (Raise (Raised AssertionError []), st).
Proof.
  intros H. unfold check_range.
  replace ((0 <=? k - 1)%Z && (k - 1 <? Z.of_nat n)%Z) with false;
    [reflexivity|].
  symmetry. apply andb_false_iff.
  destruct H; [left; apply Z.leb_gt | right; apply Z.ltb_ge]; lia.
Qed.

Lemma select_school_invalid (schools : list School.t) (st : State)
      (choice : str) (rest : list (result str)) :
  reads st = Ok choice :: rest ->
  invalid_choice int_of_str (strip choice) (List.length schools) ->
  exists st', select_school int_of_str schools st
              = (Raise (SystemExit 1), st').
Proof.
  intros Hr Hinv. unfold select_school.
  rewrite (bind_ok _ _ _ _ _ (print_run _ _)).
  destruct (print_schools_run schools 1 (logged st (Printed (lit "Select a school:"))))
    as [st1 [Hp Hr1]].
  rewrite (bind_ok _ _ _ _ _ Hp).
  assert (Hin : exists st2, input (lit "Enter number: ") st1 = (Ok choice, st2)).
  { rewrite input_run, Hr1. cbn [logged reads]. rewrite Hr. eexists. reflexivity. }
  destruct Hin as [st2 Hin]. rewrite (bind_ok _ _ _ _ _ Hin). cbv zeta.
  assert (Htry : exists st3,
    try_except is_Exception
      match int_of_str (strip choice) with
      | Some n => check_range (n - 1) (List.length schools)
      | None => raise (Raised ValueError (lit "invalid literal for int()"))
      end
      (fun _ : exn => print (lit "Invalid choice");; sys_exit 1) st2
    = (Raise (SystemExit 1), st3)).
  { unfold try_except. destruct Hinv as [-> | [k [-> Hk]]].
    - eexists. reflexivity.
    - rewrite (check_range_invalid _ _ _ Hk). eexists. reflexivity. }
  destruct Htry as [st3 Htry]. rewrite (bind_raise _ _ _ _ _ Htry).
  eexists. reflexivity.
Qed.

Lemma choose_school_invalid (a : Args) (w : World) (st : State)
      (b : Body.t School.t) (choice : str) (rest : list (result str)) :
  makeable st (out a) ->
  get_json w (schools_url a) = Got b -> Body.success b = Some true ->
  or_default (Body.data b) [] <> [] ->
  reads st = Ok choice :: rest ->
  invalid_choice int_of_str (strip choice)
                 (List.length (or_default (Body.data b) [])) ->
  exists st', choose_school int_of_str a w st = (Raise (SystemExit 1), st').
Proof.
  intros Hout Hg Hs Hne Hr Hinv. unfold choose_school. cbv zeta.
  destruct (mkdir_parents_run (out a) st Hout) as [st0 [Hm [_ [_ [_ [Hr0 _]]]]]].
  rewrite (bind_ok _ _ _ _ _ Hm).
  rewrite (bind_ok _ _ _ _ _ (list_schools_ok w _ b st0 Hg Hs)).
  destruct (or_default (Body.data b) []) as [|s schools] eqn:E;
    [congruence|].
  cbn [truthy truthy_list negb].
  apply (select_school_invalid (s :: schools) st0 choice rest);
    [congruence | exact Hinv].
Qed.

Lemma prompt_password_fails (w : World) (st : State) (e1 e2 : exn) :
  fst (pop (reads st)) = Raise e1 ->
  is_Exception_or_KeyboardInterrupt e1 = true ->
  fst (pop (snd (pop (reads st)))) = Raise e2 ->
  is_Exception e2 = true ->
  exists st', prompt_password w st = (Raise (SystemExit 1), st').
Proof.
  intros H1 C1 H2 C2. unfold prompt_password.
  assert (Hfirst : exists st1,
    (if negb (stdin_isatty w)
     then input (lit "Admin password (will be visible): ")
     else getpass (lit "Admin password: ")) st = (Raise e1, st1)
    /\ reads st1 = snd (pop (reads st))).
  { destruct (stdin_isatty w); cbn [negb];
      [unfold getpass; rewrite next_read_pop | rewrite input_run];
      rewrite H1; eexists; split; reflexivity. }
  destruct Hfirst as [st1 [Hf Hr1]].
  rewrite (try_except_caught _ _ _ _ _ _ Hf C1).
  assert (Hsecond : exists st2,
    input (nl ++ lit "Admin password (fallback, visible): ") st1
    = (Raise e2, st2)).
  { rewrite input_run, Hr1, H2. eexists. reflexivity. }
  destruct Hsecond as [st2 Hs].
  rewrite (try_except_caught _ _ _ _ _ _ Hs C2). eexists. reflexivity.
Qed.

Lemma read_password_fails (a : Args) (w : World) (st : State) (e1 e2 : exn) :
  truthy (password a) = false ->
  fst (pop (reads st)) = Raise e1 ->
  is_Exception_or_KeyboardInterrupt e1 = true ->
  fst (pop (snd (pop (reads st)))) = Raise e2 ->
  is_Exception e2 = true ->
  exists st', read_password w a st = (Raise (SystemExit 1), st').
Proof.
  intros Hp H1 C1 H2 C2. unfold read_password.
  destruct (password a) as [p|]; [cbn in Hp; rewrite Hp|];
    apply (prompt_password_fails w st e1 e2); assumption.
Qed.

(** Once the tasks are gathered, the pool runs them all and [main]
    returns after the summary. *)
Lemma main_downloads (a : Args) (w : World) (st : State)
      (tasks : list task) (st1 : State) :
  gather_tasks fromisoformat int_of_str a w st = (Ok tasks, st1) ->
  tasks <> [] -> (0 < workers a)%Z ->
  exists done st2,
    Permutation done tasks
    /\ main fromisoformat int_of_str a w st = (Ok tt, st2)
    /\ stdout st2
       = (stdout st1 ++ map (report w) done)
         ++ [Printed (summary (successes w tasks) (List.length tasks) (out a))].
Proof.
  intros Hg Hne Hw. unfold main. rewrite (bind_ok _ _ _ _ _ Hg).
  destruct tasks as [|t tasks]; [congruence|].
  cbn [truthy truthy_list negb].
  destruct (run_pool_run w (workers a) (t :: tasks) st1 Hw)
    as [st' [done [Hrun [Hperm [Hr Ho]]]]].
  rewrite (bind_ok _ _ _ _ _ Hrun), print_run.
  exists done. eexists. split; [exact Hperm|]. split; [reflexivity|].
  cbn [logged stdout]. rewrite Ho. reflexivity.
Qed.

(** C7: the result of a download is decided by its task alone and a
    failure prints the URL and the cause; whatever the order in which the
    tasks complete, every task is reported, the summary counts the
    successes among all tasks and [main] returns, so the exit status is 0;
    with 5 tasks of which 4 succeed the summary reads 4/5. *)
Theorem C7_download_failure_isolated :
  (forall (w : World) (url : str) (target : path) (st : State),
      exists st',
        download_url w url target st = (Ok (succeeds w (url, target)), st')
        /\ (succeeds w (url, target) = false ->
            stdout st' = stdout st ++ [failure_line w (url, target)]))
  /\ (forall (a : Args) (w : World) (st : State) (tasks : list task)
             (st1 : State),
        gather_tasks fromisoformat int_of_str a w st = (Ok tasks, st1) ->
        tasks <> [] -> (0 < workers a)%Z ->
        exists st2 log,
          main fromisoformat int_of_str a w st = (Ok tt, st2)
          /\ exit_status (fst (main fromisoformat int_of_str a w st)) = 0%Z
          /\ stdout st2
             = log ++ [Printed (summary (successes w tasks)
                                        (List.length tasks) (out a))]
          /\ (forall t, In t tasks -> In (report w t) log))
  /\ (forall (a : Args) (w : World) (st : State) (tasks : list task)
             (st1 : State),
        gather_tasks fromisoformat int_of_str a w st = (Ok tasks, st1) ->
        List.length tasks = 5%nat ->
        List.length (filter (succeeds w) tasks) = 4%nat ->
        (0 < workers a)%Z ->
        exists st2 log,
          main fromisoformat int_of_str a w st = (Ok tt, st2)
          /\ exit_status (fst (main fromisoformat int_of_str a w st)) = 0%Z
          /\ stdout st2
             = log ++ [Printed (lit "Completed. 4/5 images downloaded to "
                                ++ str_of_path (out a))]
          /\ (forall t, In t tasks -> succeeds w t = false ->
                        In (failure_line w t) log)).
Proof.
  assert (General : forall a w st tasks st1,
    gather_tasks fromisoformat int_of_str a w st = (Ok tasks, st1) ->
    tasks <> [] -> (0 < workers a)%Z ->
    exists st2 log,
      main fromisoformat int_of_str a w st = (Ok tt, st2)
      /\ exit_status (fst (main fromisoformat int_of_str a w st)) = 0%Z
      /\ stdout st2
         = log ++ [Printed (summary (successes w tasks)
                                    (List.length tasks) (out a))]
      /\ (forall t, In t tasks -> In (report w t) log)).
  { intros a w st tasks st1 Hg Hne Hw.
    destruct (main_downloads a w st tasks st1 Hg Hne Hw)
      as [done [st2 [Hperm [Hmain Hout]]]].
    exists st2, (stdout st1 ++ map (report w) done).
    rewrite Hmain. repeat split; [exact Hout|].
    intros t Ht. apply in_or_app. right. apply in_map.
    apply (Permutation_in t (Permutation_sym Hperm) Ht). }
  split; [|split; [exact General|]].
  - intros w url target st.
    destruct (download_url_run w url target st) as [st' [Hd [_ Ho]]].
    exists st'. split; [exact Hd|]. intros Hf. rewrite Ho, Hf. reflexivity.
  - intros a w st tasks st1 Hg H5 H4 Hw.
    assert (Hne : tasks <> []) by (destruct tasks; [discriminate | discriminate]).
    destruct (General a w st tasks st1 Hg Hne Hw)
      as [st2 [log [Hmain [Hexit [Hout Hrep]]]]].
    exists st2, log. repeat split; try assumption.
    + rewrite Hout. unfold successes. rewrite H4, H5. reflexivity.
    + intros t Ht Hf. specialize (Hrep t Ht). unfold report in Hrep.
      rewrite Hf in Hrep. exact Hrep.
Qed.

(** C8: the exit status is 0 when the backend lists no school, when no
    task is built and when the downloads have run; it is 1 when a
    metadata fetch fails, when the selection is not the number of a listed
    school and when the user name or the password cannot be read.  The
    backend is asked for its schools once the output root is there. *)
Theorem C8_exit_status (a : Args) (w : World) (st : State) (code : Z) :
  scenario fromisoformat int_of_str a w st code ->
  exit_status (fst (main fromisoformat int_of_str a w st)) = code.
Proof.
  intros [b Hout Hg Hs He | st1 Hg | tasks st1 Hg Hne Hw | Hout Hf
          | school st1 u p st2 Hc Hl Hf
          | b choice rest Hout Hg Hs Hne Hr Hinv
          | school st1 st2 e Hc Hu He
          | school st1 u st2 e1 e2 Hc Hu Hp H1 C1 H2 C2].
  - destruct (choose_school_no_schools a w st b Hout Hg Hs He) as [st' H].
    rewrite (main_choose_raises a w st st' _ H). reflexivity.
  - unfold main. rewrite (bind_ok _ _ _ _ _ Hg). reflexivity.
  - destruct (main_downloads a w st tasks st1 Hg Hne Hw)
      as [done [st2 [_ [Hmain _]]]].
    rewrite Hmain. reflexivity.
  - destruct (choose_school_fetch_fails a w st Hout Hf) as [st' H].
    rewrite (main_choose_raises a w st st' _ H). reflexivity.
  - destruct (export_students_fails w _ _ u p st2 Hf) as [st' He].
    rewrite (main_gather_raises a w st st' (SystemExit 1)); [reflexivity|].
    unfold gather_tasks. cbv zeta.
    rewrite (bind_ok _ _ _ _ _ Hc), (bind_ok _ _ _ _ _ Hl).
    apply bind_raise, He.
  - destruct (choose_school_invalid a w st b choice rest Hout Hg Hs Hne Hr Hinv)
      as [st' H].
    rewrite (main_choose_raises a w st st' _ H). reflexivity.
  - rewrite (main_gather_raises a w st st2 e).
    + destruct e as [[] msg|n]; try discriminate He; reflexivity.
    + unfold gather_tasks. cbv zeta. rewrite (bind_ok _ _ _ _ _ Hc).
      apply bind_raise. unfold credentials. apply bind_raise, Hu.
  - destruct (read_password_fails a w st2 e1 e2 Hp H1 C1 H2 C2) as [st' Hpw].
    rewrite (main_gather_raises a w st st' (SystemExit 1)); [reflexivity|].
    unfold gather_tasks. cbv zeta. rewrite (bind_ok _ _ _ _ _ Hc).
    apply bind_raise. unfold credentials.
    rewrite (bind_ok _ _ _ _ _ Hu). apply bind_raise, Hpw.
Qed.

End Driver.

Lemma C5_tasks_of_eligible_photos_witness :
  exists st',
    build_tasks fromisoformat_ymd in_2024 [lit "downloads"] (lit "St_Marys_School")
                [jane; omar] (typing [])
    = (Ok (flat_map
             (student_tasks fromisoformat_ymd in_2024
                (students_root [lit "downloads"] (lit "St_Marys_School")))
             [jane; omar]), st').
Proof.
  apply (proj2 (proj2 (C5_tasks_of_eligible_photos fromisoformat_ymd))).
  - reflexivity.
  - apply typing_makeable.
  - intros s f _ _. apply typing_makeable.
Defined.

Lemma C7_download_failure_isolated_witness :
  exists st2 log,
    main fromisoformat_ymd int_ascii (as_admin (Some (lit "secret")))
         (backend [jane; omar]) (typing [Ok (lit "1")]) = (Ok tt, st2)
    /\ exit_status
         (fst (main fromisoformat_ymd int_ascii (as_admin (Some (lit "secret")))
                    (backend [jane; omar]) (typing [Ok (lit "1")]))) = 0%Z
    /\ stdout st2
       = log ++ [Printed (lit "Completed. 4/5 images downloaded to downloads")]
    /\ (forall t, In t gathered_tasks ->
                  succeeds (backend [jane; omar]) t = false ->
                  In (failure_line (backend [jane; omar]) t) log).
Proof.
  apply (proj2 (proj2 (C7_download_failure_isolated fromisoformat_ymd int_ascii))
               (as_admin (Some (lit "secret"))) (backend [jane; omar])
               (typing [Ok (lit "1")]) gathered_tasks (snd gathered)).
  - vm_compute. reflexivity.
  - vm_compute. reflexivity.
  - vm_compute. reflexivity.
  - reflexivity.
Defined.

Lemma C8_exit_status_witness :
  exit_status (fst (main fromisoformat_ymd int_ascii (as_admin None)
                         empty_backend (typing []))) = 0%Z
  /\ exit_status (fst (main fromisoformat_ymd int_ascii
                            (as_admin (Some (lit "secret")))
                            (backend [omar]) (typing [Ok (lit " 1 ")]))) = 0%Z
  /\ exit_status (fst (main fromisoformat_ymd int_ascii
                            (as_admin (Some (lit "secret")))
                            (backend [jane; omar]) (typing [Ok (lit "1")]))) = 0%Z
  /\ exit_status (fst (main fromisoformat_ymd int_ascii (as_admin None)
                            unreachable (typing []))) = 1%Z
  /\ exit_status (fst (main fromisoformat_ymd int_ascii
                            (as_admin (Some (lit "wrong")))
                            (backend [jane]) (typing [Ok (lit "1")]))) = 1%Z
  /\ exit_status (fst (main fromisoformat_ymd int_ascii (as_admin None)
                            (backend [jane]) (typing [Ok (lit "two")]))) = 1%Z
  /\ exit_status (fst (main fromisoformat_ymd int_ascii (as_admin None)
                            (backend [jane]) (typing [Ok (lit "2")]))) = 1%Z
  /\ exit_status (fst (main fromisoformat_ymd int_ascii anonymous
                            (backend [jane]) (typing [Ok (lit "1")]))) = 1%Z
  /\ exit_status (fst (main fromisoformat_ymd int_ascii (as_admin None)
                            (backend [jane]) (typing [Ok (lit "1")]))) = 1%Z.
Proof.
  repeat apply conj; apply C8_exit_status.
  - eapply no_schools; try reflexivity. apply typing_makeable.
  - eapply no_tasks. vm_compute. reflexivity.
  - eapply all_downloads_run;
      [vm_compute; reflexivity | discriminate | reflexivity].
  - eapply schools_fetch_fails; [apply typing_makeable | apply transport_error].
  - eapply students_fetch_fails;
      [vm_compute; reflexivity | vm_compute; reflexivity | apply transport_error].
  - eapply invalid_selection; try reflexivity;
      [apply typing_makeable | discriminate|].
    left. reflexivity.
  - eapply invalid_selection; try reflexivity;
      [apply typing_makeable | discriminate|].
    right. exists 2%Z. split; [reflexivity | right; vm_compute; reflexivity].
  - eapply username_failure; vm_compute; reflexivity.
  - eapply password_failure; try (vm_compute; reflexivity).
Defined.

(** * Further properties of the script *)

(** ** The school folder is a safe path component *)

Lemma space_not_alnum (c : char) : isspace c = true -> is_ascii_alnum c = false.
Proof.
  intros H. apply not_true_is_false. intros H'. revert H H'.
  unfold isspace, is_ascii_alnum.
  rewrite !orb_true_iff, !andb_true_iff, !N.leb_le, !N.eqb_eq. lia.
Qed.

Lemma kept_no_space_alnum (c : char) :
  kept c = true -> isspace c = false -> is_ascii_alnum c = true.
Proof.
  unfold kept, is_ascii_alnum, is_ascii_letter, is_digit.
  intros H Hs. rewrite Hs, orb_false_r in H. exact H.
Qed.

Lemma filter_all {A} (f : A -> bool) (l : list A) : forallb f (filter f l) = true.
Proof.
  induction l as [|x l IH]; simpl; [reflexivity|].
  destruct (f x) eqn:E; simpl; [rewrite E|]; exact IH.
Qed.

Lemma re_sub_runs_safe (s : str) :
  forallb kept s = true ->
  forall in_run,
    forallb safe_char (re_sub_runs_from isspace (lit "_") in_run s) = true.
Proof.
  induction s as [|c s IH]; intros H in_run; [reflexivity|].
  simpl in H. apply andb_prop in H. destruct H as [Hc H].
  cbn [re_sub_runs_from]. destruct (isspace c) eqn:E.
  - rewrite forallb_app, (IH H). destruct in_run; reflexivity.
  - cbn [forallb]. rewrite (IH H). unfold safe_char.
    rewrite (kept_no_space_alnum c Hc E). reflexivity.
Qed.

Lemma re_sub_runs_alnum (s : str) :
  forall in_run,
    filter is_ascii_alnum (re_sub_runs_from isspace (lit "_") in_run s)
    = filter is_ascii_alnum s.
Proof.
  induction s as [|c s IH]; intros in_run; [reflexivity|].
  cbn [re_sub_runs_from]. destruct (isspace c) eqn:E.
  - rewrite filter_app, IH. cbn [filter].
    rewrite (space_not_alnum c E). destruct in_run; reflexivity.
  - cbn [filter]. rewrite IH. reflexivity.
Qed.

Lemma sanitize_result (name : str) :
  sanitize_school_name (Some name)
  = or_value (re_sub_runs isspace (lit "_") (filter kept name)) (lit "unknown").
Proof.
  rewrite sanitize_unfold.
  rewrite (sanitize_trim_is_identity name _ (re_sub_runs_collapsed _)).
  reflexivity.
Qed.

Lemma sanitize_safe (name : option str) :
  sanitize_school_name name <> []
  /\ forallb safe_char (sanitize_school_name name) = true.
Proof.
  destruct name as [name|]; [|split; [discriminate | reflexivity]].
  rewrite sanitize_result.
  pose proof (re_sub_runs_safe (filter kept name) (filter_all kept name) false)
    as Hsafe.
  fold (re_sub_runs isspace (lit "_") (filter kept name)) in Hsafe.
  destruct (re_sub_runs isspace (lit "_") (filter kept name)) as [|c r].
  - split; [discriminate | reflexivity].
  - split; [discriminate | exact Hsafe].
Qed.

(** X1: whatever the name, missing or not, the sanitized school name is
    not empty and is made of ASCII letters, digits and underscores only: it
    is one path component. *)
Theorem X1_sanitize_safe_component (name : option str) :
  sanitize_school_name name <> []
  /\ forallb safe_char (sanitize_school_name name) = true.
Proof. apply sanitize_safe. Qed.

Lemma filter_filter_alnum (s : str) :
  filter is_ascii_alnum (filter kept s) = filter is_ascii_alnum s.
Proof.
  induction s as [|c s IH]; [reflexivity|].
  cbn [filter]. destruct (kept c) eqn:K; cbn [filter]; rewrite IH.
  - reflexivity.
  - assert (H : is_ascii_alnum c = false).
    { apply not_true_is_false. intros H. revert K.
      unfold kept, is_ascii_letter, is_digit. unfold is_ascii_alnum in H.
      rewrite H. discriminate. }
    rewrite H. reflexivity.
Qed.

(** X2: when the name holds a letter, a digit or whitespace, the
    sanitized name is exactly what is kept of the name, its letters, digits
    and whitespace, with each maximal run of whitespace replaced by one
    underscore: the trim removes nothing and the fallback is not used.  So
    its letters and digits are those of the name, all of them and in their
    order, and whatever else it holds is an underscore. *)
Theorem X2_sanitize_keeps_letters_and_digits (name : str) :
  existsb kept name = true ->
  collapsed (filter kept name) (sanitize_school_name (Some name))
  /\ filter is_ascii_alnum (sanitize_school_name (Some name))
     = filter is_ascii_alnum name
  /\ forallb safe_char (sanitize_school_name (Some name)) = true.
Proof.
  intros H.
  assert (Hne : filter kept name <> []).
  { induction name as [|c name IH]; [discriminate|].
    cbn [filter]. simpl in H. destruct (kept c); [discriminate | auto]. }
  assert (E : sanitize_school_name (Some name)
              = re_sub_runs isspace (lit "_") (filter kept name)).
  { rewrite sanitize_result. unfold or_value.
    destruct (re_sub_runs isspace (lit "_") (filter kept name)) as [|c r] eqn:E;
      [|reflexivity].
    exfalso. apply Hne. unfold re_sub_runs in E.
    destruct (filter kept name) as [|x l]; [reflexivity|].
    cbn [re_sub_runs_from] in E. destruct (isspace x); discriminate. }
  split; [rewrite E; apply re_sub_runs_collapsed|].
  split; [|apply sanitize_safe].
  rewrite E. unfold re_sub_runs. rewrite re_sub_runs_alnum.
  apply filter_filter_alnum.
Qed.

Lemma X2_sanitize_keeps_letters_and_digits_witness :
  collapsed (filter kept (lit "St. Mary's  School!"))
            (sanitize_school_name (Some (lit "St. Mary's  School!")))
  /\ filter is_ascii_alnum (sanitize_school_name (Some (lit "St. Mary's  School!")))
     = filter is_ascii_alnum (lit "St. Mary's  School!")
  /\ forallb safe_char (sanitize_school_name (Some (lit "St. Mary's  School!")))
     = true.
Proof.
  apply X2_sanitize_keeps_letters_and_digits. reflexivity.
Defined.

(** ** Numbers in names *)

Lemma lit_inj (s s' : string) : lit s = lit s' -> s = s'.
Proof.
  unfold lit. intros H.
  rewrite <- (string_of_list_ascii_of_string s),
          <- (string_of_list_ascii_of_string s').
  f_equal. revert H.
  generalize (list_ascii_of_string s') as l'.
  induction (list_ascii_of_string s) as [|a l IH]; intros [|a' l'] H;
    simpl in H; try discriminate; [reflexivity|].
  injection H as Ha Hl. f_equal; [|apply IH, Hl].
  rewrite <- (ascii_N_embedding a), <- (ascii_N_embedding a'), Ha. reflexivity.
Qed.

Lemma to_int_not_nil (z : Z) :
  Z.to_int z <> Decimal.Pos Decimal.Nil /\ Z.to_int z <> Decimal.Neg Decimal.Nil.
Proof.
  destruct z as [|p|p]; simpl; split; try discriminate;
    intros [= H]; apply (DecimalPos.Unsigned.to_uint_nonnil p H).
Qed.

(** Two integers with the same decimal text are the same. *)
Lemma str_of_int_inj (z z' : Z) : str_of_int z = str_of_int z' -> z = z'.
Proof.
  unfold str_of_int. intros H. apply lit_inj in H.
  apply DecimalZ.to_int_inj.
  destruct (to_int_not_nil z) as [Hp Hn], (to_int_not_nil z') as [Hp' Hn'].
  pose proof (NilZero.isi _ Hp Hn) as E. rewrite H in E.
  rewrite (NilZero.isi _ Hp' Hn') in E. congruence.
Qed.

Lemma string_of_uint_numeric (d : Decimal.uint) :
  forallb numeric (lit (NilEmpty.string_of_uint d)) = true.
Proof. induction d; simpl; auto. Qed.

Lemma str_of_int_numeric (z : Z) : forallb numeric (str_of_int z) = true.
Proof.
  assert (nz : forall d, forallb numeric (lit (NilZero.string_of_uint d)) = true).
  { intros d. unfold NilZero.string_of_uint.
    destruct d; try reflexivity; apply string_of_uint_numeric. }
  unfold str_of_int, NilZero.string_of_int.
  destruct (Z.to_int z) as [d|d]; [apply nz|].
  change (forallb numeric (0x2D%N :: lit (NilZero.string_of_uint d)) = true).
  cbn [forallb]. rewrite nz. reflexivity.
Qed.

Lemma numeric_lacks (c : char) (s : str) :
  numeric c = false -> forallb numeric s = true -> lacks c s = true.
Proof.
  intros Hc. induction s as [|x s IH]; [reflexivity|].
  simpl. intros H. apply andb_prop in H. destruct H as [Hx H].
  rewrite (IH H), andb_true_r. apply negb_true_iff, N.eqb_neq.
  intros ->. congruence.
Qed.

Lemma split_at_unique (c : char) (a a' r r' : str) :
  lacks c a = true -> lacks c a' = true ->
  a ++ c :: r = a' ++ c :: r' -> a = a' /\ r = r'.
Proof.
  revert a'. induction a as [|x a IH]; intros [|x' a'] H H' E; simpl in *.
  - injection E as ->. auto.
  - injection E as <- _. rewrite N.eqb_refl in H'. discriminate.
  - injection E as -> _. rewrite N.eqb_refl in H. discriminate.
  - injection E as -> E. apply andb_prop in H, H'.
    destruct (IH a') as [-> ->]; tauto.
Qed.

(** X3: the folder name tells the students apart.  When the first tokens,
    the sections and the blood groups hold no [@], two calls that return
    the same folder name were given the same first token, age, grade,
    section, blood group and student identifier. *)
Theorem X3_student_folder_name_injective
        (fn1 fn2 : option str) (t1 t2 : str) (more1 more2 : list str)
        (age1 age2 grade1 grade2 : Z)
        (section1 section2 blood1 blood2 id1 id2 folder : str) :
  split (or_default fn1 (lit "unknown")) = t1 :: more1 ->
  split (or_default fn2 (lit "unknown")) = t2 :: more2 ->
  lacks at_sign t1 = true -> lacks at_sign t2 = true ->
  lacks at_sign section1 = true -> lacks at_sign section2 = true ->
  lacks at_sign blood1 = true -> lacks at_sign blood2 = true ->
  student_folder_name fn1 age1 grade1 section1 blood1 id1 = Ok folder ->
  student_folder_name fn2 age2 grade2 section2 blood2 id2 = Ok folder ->
  t1 = t2 /\ age1 = age2 /\ grade1 = grade2 /\ section1 = section2
  /\ blood1 = blood2 /\ id1 = id2.
Proof.
  intros S1 S2 Ht1 Ht2 Hs1 Hs2 Hb1 Hb2 E1 E2.
  unfold student_folder_name in E1, E2. rewrite S1 in E1. rewrite S2 in E2.
  cbn [index0] in E1, E2. injection E1 as E1. injection E2 as E2.
  rewrite <- E2 in E1. clear E2. injection E1 as E1.
  assert (Hnum : forall z, lacks at_sign (str_of_int z) = true).
  { intros z. apply numeric_lacks; [reflexivity | apply str_of_int_numeric]. }
  destruct (split_at_unique _ _ _ _ _ Ht1 Ht2 E1) as [-> E].
  destruct (split_at_unique _ _ _ _ _ (Hnum age1) (Hnum age2) E) as [Ea E'].
  destruct (split_at_unique _ _ _ _ _ (Hnum grade1) (Hnum grade2) E')
    as [Eg E''].
  destruct (split_at_unique _ _ _ _ _ Hs1 Hs2 E'') as [-> E3].
  destruct (split_at_unique _ _ _ _ _ Hb1 Hb2 E3) as [-> ->].
  apply str_of_int_inj in Ea, Eg. subst. repeat split.
Qed.

Lemma X3_student_folder_name_injective_witness :
  lit "Jane" = lit "Jane" /\ 10%Z = 10%Z /\ 5%Z = 5%Z /\ lit "B" = lit "B"
  /\ lit "O+" = lit "O+" /\ lit "S123" = lit "S123".
Proof.
  apply (X3_student_folder_name_injective
           (Some (lit "Jane Doe")) (Some (lit " Jane  Austen"))
           (lit "Jane") (lit "Jane") [lit "Doe"] [lit "Austen"]
           10 10 5 5 (lit "B") (lit "B") (lit "O+") (lit "O+")
           (lit "S123") (lit "S123") (lit "student@Jane@10@5@B@O+@S123"));
    reflexivity.
Defined.

(** ** The file of a task stays in the student's folder *)

Lemma file_ext_shape (url : str) :
  exists tail,
    file_ext url = dot :: tail /\ (List.length tail <= 4)%nat
    /\ lacks slash tail = true.
Proof.
  destruct (extension_total url)
    as [x [dir name e query Hdir Hq Hslash Hdot Hname Hquery
          |dir name query Hdir Hq Hslash Hdot Hquery
          |dir dots e query Hdir Hq Hdots Hslash Hdot Hquery]];
    rewrite file_ext_of_base by assumption.
  - rewrite splitext_ext by assumption.
    cbn [snd or_value truthy truthy_str truthy_list]. cbv zeta.
    destruct (Nat.ltb_spec 5 (List.length (dot :: e))) as [H | H].
    + exists (lit "jpg"). repeat split. simpl. lia.
    + exists e. repeat split; [simpl in H; lia|].
      apply (lacks_app_r _ _ _ Hslash).
  - rewrite splitext_no_ext by assumption.
    exists (lit "jpg"). repeat split. simpl. lia.
  - rewrite splitext_dots by assumption.
    exists (lit "jpg"). repeat split. simpl. lia.
Qed.

Lemma photo_filename_no_slash (e : Env) (p : Photo.t) (url : str) :
  lacks slash (photo_filename e p url) = true.
Proof.
  destruct (file_ext_shape url) as [tail [Hext [_ Hslash]]].
  unfold photo_filename. rewrite Hext, lacks_app. cbn [lacks forallb].
  fold (lacks slash tail). rewrite Hslash.
  rewrite numeric_lacks; [reflexivity | reflexivity | apply str_of_int_numeric].
Qed.

Lemma str_of_int_nonempty (z : Z) : str_of_int z <> [].
Proof.
  unfold str_of_int, NilZero.string_of_int, NilZero.string_of_uint.
  destruct (Z.to_int z) as [d|d]; [destruct d|]; discriminate.
Qed.

Lemma split_on_lacks (c : char) (s : str) :
  lacks c s = true -> split_on c s = [s].
Proof.
  induction s as [|x s IH]; [reflexivity|].
  simpl. intros H. apply andb_prop in H. destruct H as [Hx H].
  apply negb_true_iff in Hx. rewrite Hx, (IH H). reflexivity.
Qed.

Lemma str_eqb_neq (a b : str) : a <> b -> str_eqb a b = false.
Proof.
  intros H. unfold str_eqb. destruct (list_eq_dec N.eq_dec a b); congruence.
Qed.

(** Joining a name that is one part: not empty, not [.], without a slash. *)
Lemma path_join_name (p : path) (s : str) :
  lacks slash s = true -> s <> [] -> s <> lit "." ->
  path_join p s = p ++ [s].
Proof.
  intros Hs Hne Hdot. unfold path_join, path_root, path_names.
  assert (E : takewhile is_slash s = []).
  { destruct s as [|c s]; [reflexivity|]. simpl in Hs.
    apply andb_prop in Hs. destruct Hs as [Hc _].
    apply negb_true_iff in Hc. cbn [takewhile]. unfold is_slash.
    unfold slash in Hc. rewrite Hc. reflexivity. }
  rewrite E. cbn [List.length]. fold slash. rewrite (split_on_lacks _ _ Hs).
  cbn [filter]. rewrite (str_eqb_neq _ _ Hdot).
  destruct s; [congruence | reflexivity].
Qed.

Lemma photo_filename_one_part (e : Env) (p : Photo.t) (url : str)
      (folder : path) :
  path_join folder (photo_filename e p url)
  = folder ++ [photo_filename e p url].
Proof.
  apply path_join_name; [apply photo_filename_no_slash| |];
    unfold photo_filename;
    pose proof (str_of_int_nonempty
                  (match Photo.photoNumber p with
                   | Some n => n
                   | None => thread_ident e
                   end)) as Hn;
    destruct (file_ext_shape url) as [tail [-> _]];
    destruct (str_of_int _) as [|c [|d n]]; try congruence; discriminate.
Qed.

(** X4: the file name of a task is the decimal text of the photoNumber, or
    of the thread identifier when the photo has none, followed by an
    extension of a dot and at most 4 further characters; it holds no slash
    and joins the student's folder as one part: whatever the URL, the file
    lies directly in the student's folder. *)
Theorem X4_photo_filename_is_one_component (e : Env) (p : Photo.t) (url : str) :
  lacks slash (photo_filename e p url) = true
  /\ (forall folder : path,
        path_join folder (photo_filename e p url)
        = folder ++ [photo_filename e p url])
  /\ exists tail : str,
       photo_filename e p url
       = str_of_int (match Photo.photoNumber p with
                     | Some n => n
                     | None => thread_ident e
                     end) ++ dot :: tail
       /\ (List.length tail <= 4)%nat.
Proof.
  split; [apply photo_filename_no_slash|].
  split; [apply photo_filename_one_part|].
  destruct (file_ext_shape url) as [tail [Hext [Hlen Hslash]]].
  unfold photo_filename. rewrite Hext. exists tail. auto.
Qed.

(** ** Making directories *)

Lemma prefixes_in (p done q : path) :
  In q (prefixes done p)
  <-> exists q' r, q' <> [] /\ p = q' ++ r /\ q = done ++ q'.
Proof.
  revert done. induction p as [|c p IH]; intros done; simpl.
  - split; [tauto|]. intros [q' [r [Hne [E _]]]].
    destruct q'; [congruence | discriminate].
  - rewrite IH. split.
    + intros [<- | [q' [r [Hne [-> ->]]]]].
      * exists [c], p. repeat split. discriminate.
      * exists (c :: q'), r. rewrite <- app_assoc. repeat split. discriminate.
    + intros [[|x q'] [r [Hne [E ->]]]]; [congruence|].
      injection E as <- ->. destruct q' as [|y q'].
      * left. reflexivity.
      * right. exists (y :: q'), r. rewrite <- app_assoc.
        repeat split. discriminate.
Qed.

Lemma prefixes_app (done q r : path) :
  prefixes done (q ++ r) = prefixes done q ++ prefixes (done ++ q) r.
Proof.
  revert done. induction q as [|c q IH]; intros done; simpl.
  - rewrite app_nil_r. reflexivity.
  - rewrite IH, <- app_assoc. reflexivity.
Qed.

Lemma prefixes_self (p : path) : p <> [] -> In p (prefixes [] p).
Proof.
  intros H. apply prefixes_in. exists p, [].
  rewrite app_nil_r. auto.
Qed.

(** A regular file on the way stops [mkdir] where it stands, and nothing
    has changed. *)
Lemma mkdir_each_blocked (p : path) (before : list path) (q : path)
      (after : list path) (st : State) :
  (forall x, In x before -> In x (dirs st)) ->
  ~ In q (dirs st) -> is_file st q = true ->
  mkdir_each p (before ++ q :: after) st
  = (Raise (Raised (if path_eqb q p then FileExistsError
                    else NotADirectoryError)
                   (errno_text (if path_eqb q p then FileExistsError
                                else NotADirectoryError) p)), st).
Proof.
  intros Hb Hq Hf. induction before as [|x before IH].
  - cbn [app mkdir_each]. apply bind_raise. unfold mkdir_step.
    rewrite Hf.
    destruct (existsb (path_eqb q) (dirs st)) eqn:E; [|reflexivity].
    apply existsb_path_eqb in E. contradiction.
  - cbn [app mkdir_each].
    rewrite (bind_ok _ _ _ _ _
               (mkdir_step_present p x st (Hb x (or_introl eq_refl)))).
    apply IH. intros y Hy. apply Hb. right. exact Hy.
Qed.

Lemma ensure_dir_blocked (q0 : path) (c : str) (r : path) (st : State) :
  (forall x, In x (prefixes [] q0) -> In x (dirs st)) ->
  ~ In (q0 ++ [c]) (dirs st) -> is_file st (q0 ++ [c]) = true ->
  ensure_dir (q0 ++ c :: r) st
  = (Raise (Raised (match r with
                    | [] => FileExistsError
                    | _ :: _ => NotADirectoryError
                    end)
                   (errno_text (match r with
                                | [] => FileExistsError
                                | _ :: _ => NotADirectoryError
                                end) (q0 ++ c :: r))), st).
Proof.
  intros Hb Hq Hf. unfold ensure_dir, mkdir_parents.
  rewrite prefixes_app. cbn [prefixes app].
  rewrite (mkdir_each_blocked _ _ _ _ _ Hb Hq Hf).
  assert (E : path_eqb (q0 ++ [c]) (q0 ++ c :: r)
              = match r with [] => true | _ :: _ => false end).
  { destruct r as [|x r].
    - apply path_eqb_eq. reflexivity.
    - apply not_true_iff_false. rewrite path_eqb_eq. intros H.
      apply app_inv_head in H. discriminate. }
  rewrite E. destruct r; reflexivity.
Qed.

(** X5: when nothing stands in the way, [ensure_dir] makes the directory
    and every parent it lacks, keeps the directories that exist, leaves the
    console and the files alone, and asked again it changes nothing.  When
    a regular file lies where the directory or one of its parents should be,
    below directories that exist, it raises [FileExistsError] or
    [NotADirectoryError] and changes nothing.  However it ends, it has
    touched neither a file nor the console and removed no directory, and
    what it raises is an [OSError]. *)
Theorem X5_ensure_dir_idempotent (p : path) (st : State) :
  (makeable st p ->
   exists st',
     ensure_dir p st = (Ok tt, st')
     /\ (forall q, In q (dirs st) -> In q (dirs st'))
     /\ (forall q r, q <> [] -> p = q ++ r -> In q (dirs st'))
     /\ files st' = files st /\ stdout st' = stdout st /\ reads st' = reads st
     /\ ensure_dir p st' = (Ok tt, st'))
  /\ (forall (q0 : path) (c : str) (r : path),
        p = q0 ++ c :: r ->
        (forall x, In x (prefixes [] q0) -> In x (dirs st)) ->
        ~ In (q0 ++ [c]) (dirs st) -> is_file st (q0 ++ [c]) = true ->
        exists msg,
          ensure_dir p st
          = (Raise (Raised (match r with
                            | [] => FileExistsError
                            | _ :: _ => NotADirectoryError
                            end) msg), st))
  /\ (forall (r : result unit) (st' : State),
        ensure_dir p st = (r, st') ->
        grown st st'
        /\ match r with Ok _ => True | Raise e => is_OSError e = true end).
Proof.
  split; [|split].
  - intros Hm. destruct (ensure_dir_ok p st Hm) as [st' [E Hg]].
    pose proof Hg as [Hd [Hf [Ho [Hr _]]]].
    exists st'. split; [exact E|]. split; [exact Hd|].
    assert (Hmade : forall q, In q (prefixes [] p) -> In q (dirs st'))
      by apply (ensure_dir_made _ _ _ _ E).
    split; [|repeat split; try assumption; apply ensure_dir_present, Hmade].
    intros q r Hne ->. apply Hmade, prefixes_in. exists q, r. auto.
  - intros q0 c r -> Hb Hq Hf. eexists. apply ensure_dir_blocked; assumption.
  - intros r st' E. split; [apply (ensure_dir_grown _ _ _ _ E)|].
    destruct r as [u|e]; [exact I | apply (ensure_dir_raises _ _ _ _ E)].
Qed.

Lemma X5_ensure_dir_idempotent_witness :
  (exists st',
     ensure_dir [lit "downloads"; lit "St_Marys_School"; lit "Students"]
                (typing [])
     = (Ok tt, st')
     /\ In [lit "downloads"; lit "St_Marys_School"] (dirs st'))
  /\ exists msg,
       ensure_dir [lit "downloads"; lit "St_Marys_School"; lit "Students"]
                  downloads_is_a_file
       = (Raise (Raised NotADirectoryError msg), downloads_is_a_file).
Proof.
  split.
  - destruct (proj1 (X5_ensure_dir_idempotent
                       [lit "downloads"; lit "St_Marys_School"; lit "Students"]
                       (typing [])) (typing_makeable [] _))
      as [st' [Hrun [_ [Hparents _]]]].
    exists st'. split; [exact Hrun|].
    apply (Hparents _ [lit "Students"]); [discriminate | reflexivity].
  - apply (proj1 (proj2 (X5_ensure_dir_idempotent
                           [lit "downloads"; lit "St_Marys_School"; lit "Students"]
                           downloads_is_a_file))
                 [] (lit "downloads") [lit "St_Marys_School"; lit "Students"]).
    + reflexivity.
    + intros x [].
    + intros [].
    + reflexivity.
Defined.

(** ** Where the tasks point *)

Lemma well_placed_more (base : path) (made made' : list path) (t : task) :
  (forall q, In q made -> In q made') ->
  well_placed base made t -> well_placed base made' t.
Proof.
  intros Hsub [Hhttp [folder [file [Ht [Hs [Hs' Hin]]]]]].
  split; [exact Hhttp|]. exists folder, file. auto.
Qed.

Lemma eligible_url (p : Photo.t) :
  eligible p = true -> startswith (lit "http") (url_of p) = true.
Proof.
  unfold eligible, url_of. destruct (usable_url p); [auto | discriminate].
Qed.

(** The school's folder, under a sanitized name, lies two parts below the
    output root. *)
Lemma students_root_parts (out_root : path) (name : option str) :
  students_root out_root (sanitize_school_name name)
  = out_root ++ [sanitize_school_name name; lit "Students"].
Proof.
  destruct (sanitize_safe name) as [Hne Hsafe]. unfold students_root.
  rewrite (path_join_name out_root (sanitize_school_name name)).
  - rewrite path_join_name; [|reflexivity|discriminate|discriminate].
    rewrite <- app_assoc. reflexivity.
  - apply (forallb_lacks safe_char); [reflexivity | exact Hsafe].
  - exact Hne.
  - intros E. rewrite E in Hsafe. discriminate.
Qed.

Section Placement.

Variable fromisoformat : str -> option date.

Lemma student_folder_shape (e : Env) (s : Student.t) (f : str) :
  student_folder_of fromisoformat e s = Ok f ->
  exists rest, f = lit "student@" ++ rest.
Proof.
  unfold student_folder_of, student_folder_name.
  destruct (index0 _) as [first|err]; [|discriminate].
  intros [= <-]. eexists. reflexivity.
Qed.

Lemma student_folder_one_part (e : Env) (s : Student.t) (f : str)
      (base : path) :
  student_folder_of fromisoformat e s = Ok f -> lacks slash f = true ->
  path_join base f = base ++ [f].
Proof.
  intros Hf Hs. destruct (student_folder_shape e s f Hf) as [rest ->].
  apply path_join_name; [exact Hs | discriminate | discriminate].
Qed.

Lemma student_loop_placed (e : Env) (base : path) (students : list Student.t) :
  (forall s f, In s students ->
               student_folder_of fromisoformat e s = Ok f ->
               lacks slash f = true) ->
  forall (tasks0 : list task) (st : State) (tasks : list task) (st' : State),
    student_loop fromisoformat e base students tasks0 st = (Ok tasks, st') ->
    (forall t, In t tasks0 -> well_placed base (dirs st) t) ->
    forall t, In t tasks -> well_placed base (dirs st') t.
Proof.
  induction students as [|s students IH];
    intros Hslash tasks0 st tasks st' Hrun H0.
  - cbn in Hrun. injection Hrun as <- <-. exact H0.
  - cbn [student_loop] in Hrun. unfold bind at 1, lift in Hrun.
    destruct (student_folder_of fromisoformat e s) as [name|err] eqn:Hname;
      [|discriminate].
    unfold bind at 1 in Hrun.
    destruct (ensure_dir (path_join base name) st) as [[u|err] st1] eqn:Hens;
      [|discriminate].
    pose proof (Hslash s name (or_introl eq_refl) Hname) as Hs.
    pose proof (student_folder_one_part e s name base Hname Hs) as Hjoin.
    rewrite Hjoin in *.
    apply (IH (fun s' f H => Hslash s' f (or_intror H)) _ _ _ _ Hrun).
    intros t Ht. rewrite photo_loop_spec in Ht.
    apply in_app_or in Ht. destruct Ht as [Ht | Ht].
    + apply (well_placed_more base (dirs st)); [|auto].
      apply (ensure_dir_grown _ _ _ _ Hens).
    + apply in_map_iff in Ht. destruct Ht as [p [<- Hp]].
      apply filter_In in Hp. destruct Hp as [_ Hp].
      split; [apply eligible_url, Hp|].
      exists name, (photo_filename e p (url_of p)).
      split; [|split; [exact Hs|split; [apply photo_filename_no_slash|]]].
      * unfold task_of. cbn [snd]. rewrite photo_filename_one_part.
        rewrite <- app_assoc. reflexivity.
      * apply (ensure_dir_made _ _ _ _ Hens). apply prefixes_self.
        destruct base; discriminate.
Qed.

(** X6: when the task builder returns and no student's folder name holds a
    slash, every task fetches a URL that starts with [http] into
    [<out>/<school>/Students/<folder>/<file>], where folder and file are one
    part each and the folder has been made; the builder has printed nothing,
    read nothing, written no file and removed no directory. *)
Theorem X6_tasks_well_placed (e : Env) (out_root : path) (name : option str)
        (students : list Student.t) (st : State) (tasks : list task)
        (st' : State) :
  build_tasks fromisoformat e out_root (sanitize_school_name name) students st
  = (Ok tasks, st') ->
  (forall s f, In s students ->
               student_folder_of fromisoformat e s = Ok f ->
               lacks slash f = true) ->
  (forall t, In t tasks ->
             well_placed (out_root ++ [sanitize_school_name name; lit "Students"])
                         (dirs st') t)
  /\ (forall q, In q (dirs st) -> In q (dirs st'))
  /\ files st' = files st /\ stdout st' = stdout st /\ reads st' = reads st.
Proof.
  intros Hrun Hslash.
  destruct (build_tasks_grown _ _ _ _ _ _ _ _ Hrun) as [Hd [Hf [Ho [Hr _]]]].
  split; [|auto].
  unfold build_tasks in Hrun. cbv zeta in Hrun. unfold bind at 1 in Hrun.
  fold (students_root out_root (sanitize_school_name name)) in Hrun.
  rewrite students_root_parts in Hrun.
  destruct (ensure_dir _ st) as [[u|err] st1]; [|discriminate].
  apply (student_loop_placed e _ students Hslash [] st1 tasks st' Hrun).
  intros t [].
Qed.

Lemma student_loop_again (e : Env) (base : path) (students : list Student.t) :
  forall (tasks0 : list task) (st : State) (tasks : list task) (st1 : State),
    student_loop fromisoformat e base students tasks0 st = (Ok tasks, st1) ->
    forall st2,
      (forall q, In q (dirs st1) -> In q (dirs st2)) ->
      student_loop fromisoformat e base students tasks0 st2 = (Ok tasks, st2).
Proof.
  induction students as [|s students IH]; intros tasks0 st tasks st1 Hrun st2 H.
  - cbn in Hrun. injection Hrun as <- _. reflexivity.
  - cbn [student_loop] in *. unfold bind at 1, lift in Hrun.
    unfold bind at 1, lift.
    destruct (student_folder_of fromisoformat e s) as [name|err];
      [|discriminate].
    unfold bind at 1 in Hrun.
    destruct (ensure_dir (path_join base name) st) as [[u|err] st'] eqn:Hens;
      [|discriminate].
    assert (Hpresent : ensure_dir (path_join base name) st2 = (Ok tt, st2)).
    { apply ensure_dir_present. intros q Hq. apply H.
      apply (proj1 (student_loop_grown _ _ _ _ _ _ _ _ Hrun)).
      apply (ensure_dir_made _ _ _ _ Hens q Hq). }
    rewrite (bind_ok _ _ _ _ _ Hpresent).
    apply (IH _ _ _ _ Hrun _ H).
Qed.

(** X7: building the tasks a second time, over the directories the first
    run has left (and any more), gives the same tasks and changes nothing:
    the directories that exist are no error. *)
Theorem X7_build_tasks_again (e : Env) (out_root : path) (school_name : str)
        (students : list Student.t) (st : State) (tasks : list task)
        (st1 st2 : State) :
  build_tasks fromisoformat e out_root school_name students st = (Ok tasks, st1) ->
  (forall q, In q (dirs st1) -> In q (dirs st2)) ->
  build_tasks fromisoformat e out_root school_name students st2 = (Ok tasks, st2).
Proof.
  intros Hrun H. unfold build_tasks in *. cbv zeta in *.
  unfold bind at 1 in Hrun.
  destruct (ensure_dir (path_join (path_join out_root school_name)
                                  (lit "Students")) st)
    as [[u|err] st'] eqn:Hens; [|discriminate].
  assert (Hpresent :
    ensure_dir (path_join (path_join out_root school_name) (lit "Students"))
               st2 = (Ok tt, st2)).
  { apply ensure_dir_present. intros q Hq. apply H.
    apply (proj1 (student_loop_grown _ _ _ _ _ _ _ _ Hrun)).
    apply (ensure_dir_made _ _ _ _ Hens q Hq). }
  rewrite (bind_ok _ _ _ _ _ Hpresent).
  apply (student_loop_again e _ students _ _ _ _ Hrun _ H).
Qed.

End Placement.

Lemma X6_tasks_well_placed_witness :
  Forall (well_placed [lit "downloads"; lit "St_Marys_School"; lit "Students"]
                      (dirs (snd built)))
         built_tasks.
Proof.
  apply Forall_forall.
  apply (X6_tasks_well_placed fromisoformat_ymd in_2024 [lit "downloads"]
           (Some (lit "St. Mary's School!")) [jane; omar] (typing [])).
  - vm_compute. reflexivity.
  - intros s f [<- | [<- | []]] [= <-]; reflexivity.
Defined.

Lemma X7_build_tasks_again_witness :
  build_tasks fromisoformat_ymd in_2024 [lit "downloads"]
              (lit "St_Marys_School") [jane; omar] (snd built)
  = (Ok built_tasks, snd built).
Proof.
  apply (X7_build_tasks_again fromisoformat_ymd in_2024 [lit "downloads"]
           (lit "St_Marys_School") [jane; omar] (typing [])
           built_tasks (snd built) (snd built)).
  - vm_compute. reflexivity.
  - auto.
Defined.

(** ** The files on disk *)










(** ** The driver's steps *)

Lemma rstrip_slash_one (s : str) : rstrip_slash (s ++ [slash]) = rstrip_slash s.
Proof.
  unfold rstrip_slash. rewrite rev_app_distr. reflexivity.
Qed.

Lemma rstrip_slash_trailing (s : str) (n : nat) :
  rstrip_slash (s ++ repeat slash n) = rstrip_slash s.
Proof.
  revert s. induction n as [|n IH]; intros s; simpl.
  - rewrite app_nil_r. reflexivity.
  - change (s ++ slash :: repeat slash n) with (s ++ [slash] ++ repeat slash n).
    rewrite app_assoc, IH. apply rstrip_slash_one.
Qed.

Lemma export_students_ok (w : World) (base school_id u p : str)
      (b : Body.t Student.t) (st : State) :
  post_json w (base ++ lit "/api/admin/export/schools/" ++ school_id
               ++ lit "/students") u p = Got b ->
  Body.success b = Some true ->
  export_students w base school_id u p st
  = (Ok (or_default (Body.data b) []), st).
Proof.
  intros Hg Hs. unfold export_students. cbv zeta.
  unfold try_except, bind, of_reply. rewrite Hg. cbn. rewrite Hs. reflexivity.
Qed.

Section Steps.

Variable fromisoformat : str -> option date.
Variable int_of_str : str -> option Z.

(** X10: once the output root is there, a choice that reads as a number
    from 1 to the number of schools selects the school at that position of
    the backend's list, counted from 1, and uses up one line of input. *)
Theorem X10_choose_school_valid (a : Args) (w : World) (st : State)
        (b : Body.t School.t) (choice : str) (rest : list (result str))
        (k : Z) :
  makeable st (out a) ->
  get_json w (schools_url a) = Got b -> Body.success b = Some true ->
  reads st = Ok choice :: rest ->
  int_of_str (strip choice) = Some k ->
  (1 <= k <= Z.of_nat (List.length (or_default (Body.data b) [])))%Z ->
  exists school st',
    choose_school int_of_str a w st = (Ok school, st')
    /\ nth_error (or_default (Body.data b) []) (Z.to_nat (k - 1)) = Some school
    /\ reads st' = rest /\ files st' = files st.
Proof.
  intros Hout Hg Hs Hr Hk Hrange. unfold choose_school. cbv zeta.
  destruct (mkdir_parents_run (out a) st Hout)
    as [st0 [Hm [_ [Hf0 [_ [Hr0 _]]]]]].
  rewrite (bind_ok _ _ _ _ _ Hm).
  rewrite (bind_ok _ _ _ _ _ (list_schools_ok w _ b st0 Hg Hs)).
  remember (or_default (Body.data b) []) as schools eqn:E. clear E.
  destruct schools as [|s0 schools']; [simpl in Hrange; lia|].
  cbn [truthy truthy_list negb]. set (schools := s0 :: schools') in *.
  unfold select_school.
  rewrite (bind_ok _ _ _ _ _ (print_run _ _)).
  assert (Hps : forall l i s, exists s',
             print_schools i l s = (Ok tt, s')
             /\ reads s' = reads s /\ files s' = files s).
  { clear. induction l as [|x l IH]; intros i s.
    - exists s. auto.
    - cbn [print_schools]. rewrite (bind_ok _ _ _ _ _ (print_run _ _)).
      destruct (IH (i + 1)%Z (logged s (Printed
        (str_of_int i ++ lit ") " ++ str_of_opt (School.name x) ++ lit " ("
         ++ str_of_opt (or_else (School.schoolId x) (School._id x))
         ++ lit ")")))) as [s' [-> [Hr Hf]]].
      exists s'. auto. }
  destruct (Hps schools 1%Z (logged st0 (Printed (lit "Select a school:"))))
    as [st1 [Hp [Hr1 Hf1]]].
  rewrite (bind_ok _ _ _ _ _ Hp).
  assert (Hin : exists st2,
    input (lit "Enter number: ") st1 = (Ok choice, st2)
    /\ reads st2 = rest /\ files st2 = files st1).
  { rewrite input_run, Hr1. cbn [logged reads]. rewrite Hr0, Hr.
    eexists. split; [reflexivity|]. auto. }
  destruct Hin as [st2 [Hin [Hr2 Hf2]]].
  rewrite (bind_ok _ _ _ _ _ Hin).
  cbv zeta. rewrite Hk.
  assert (Hcheck : forall s, check_range (k - 1) (List.length schools) s
                             = (Ok (k - 1)%Z, s)).
  { intros s. unfold check_range.
    replace ((0 <=? k - 1)%Z && (k - 1 <? Z.of_nat (List.length schools))%Z)
      with true; [reflexivity|].
    symmetry. apply andb_true_iff. split; [apply Z.leb_le | apply Z.ltb_lt]; lia. }
  match goal with
  | |- context [bind (try_except ?c ?m ?h) ?cont ?s] =>
      assert (Htry : try_except c m h s = (Ok (k - 1)%Z, s))
        by (unfold try_except; rewrite Hcheck; reflexivity);
      rewrite (bind_ok _ _ _ _ _ Htry)
  end.
  unfold lift, getitem.
  destruct (nth_error schools (Z.to_nat (k - 1))) as [school|] eqn:En.
  - exists school, st2. split; [reflexivity|]. split; [reflexivity|].
    split; [exact Hr2|]. rewrite Hf2, Hf1. cbn [logged files]. exact Hf0.
  - apply nth_error_None in En. lia.
Qed.

(** X11: with a user name and a password on the command line, both not
    empty, the credentials are taken from there: nothing is prompted, no
    line of input is used, the user name is trimmed and the password is
    passed on as it is. *)
Theorem X11_credentials_from_arguments (a : Args) (w : World) (st : State)
        (u p : str) :
  username a = Some u -> u <> [] -> password a = Some p -> p <> [] ->
  credentials a w st = (Ok (strip u, p), st).
Proof.
  intros Hu Hune Hp Hpne. unfold credentials, read_username, read_password.
  rewrite Hu, Hp. destruct u as [|c u]; [congruence|].
  destruct p as [|d p]; [congruence|]. reflexivity.
Qed.

(** X12: without a password on the command line, the password is the
    line the first prompt delivers, untrimmed; when that prompt raises,
    [KeyboardInterrupt] included, it is the line the fallback prompt
    delivers. *)
Theorem X12_read_password_prompts (a : Args) (w : World) (st : State) :
  truthy (password a) = false ->
  (forall line,
      fst (pop (reads st)) = Ok line ->
      exists st', read_password w a st = (Ok line, st')
                  /\ reads st' = snd (pop (reads st)))
  /\ (forall k msg line,
        fst (pop (reads st)) = Raise (Raised k msg) ->
        fst (pop (snd (pop (reads st)))) = Ok line ->
        exists st', read_password w a st = (Ok line, st')
                    /\ reads st' = snd (pop (snd (pop (reads st))))).
Proof.
  intros Hp.
  assert (Hrp : read_password w a st = prompt_password w st).
  { unfold read_password. destruct (password a) as [p|]; [|reflexivity].
    cbn in Hp. rewrite Hp. reflexivity. }
  rewrite Hrp. unfold prompt_password. split.
  - intros line H. unfold try_except.
    destruct (stdin_isatty w); cbn [negb];
      [unfold getpass; rewrite next_read_pop | rewrite input_run];
      rewrite H; eexists; split; reflexivity.
  - intros k msg line H1 H2.
    assert (Hfirst : exists st1,
      (if negb (stdin_isatty w)
       then input (lit "Admin password (will be visible): ")
       else getpass (lit "Admin password: ")) st = (Raise (Raised k msg), st1)
      /\ reads st1 = snd (pop (reads st))).
    { destruct (stdin_isatty w); cbn [negb];
        [unfold getpass; rewrite next_read_pop | rewrite input_run];
        rewrite H1; eexists; split; reflexivity. }
    destruct Hfirst as [st1 [Hf Hr1]].
    rewrite (try_except_caught _ _ _ _ _ _ Hf eq_refl).
    unfold try_except. rewrite input_run, Hr1, H2.
    eexists. split; reflexivity.
Qed.

(** X13: a worker count of zero or less stops the run once the tasks are
    built: [ThreadPoolExecutor] raises [ValueError], no download is tried,
    no summary is printed and the exit status is 1. *)
Theorem X13_no_workers (a : Args) (w : World) (st : State)
        (tasks : list task) (st1 : State) :
  gather_tasks fromisoformat int_of_str a w st = (Ok tasks, st1) ->
  tasks <> [] -> (workers a <= 0)%Z ->
  main fromisoformat int_of_str a w st
  = (Raise (Raised ValueError (lit "max_workers must be greater than 0")), st1)
  /\ exit_status (fst (main fromisoformat int_of_str a w st)) = 1%Z.
Proof.
  intros Hg Hne Hw.
  assert (Hmain : main fromisoformat int_of_str a w st
    = (Raise (Raised ValueError (lit "max_workers must be greater than 0")), st1)).
  { unfold main. rewrite (bind_ok _ _ _ _ _ Hg).
    destruct tasks as [|t tasks]; [congruence|].
    cbn [truthy truthy_list negb]. apply bind_raise. unfold run_pool.
    replace (workers a <=? 0)%Z with true by (symmetry; apply Z.leb_le, Hw).
    reflexivity. }
  rewrite Hmain. split; reflexivity.
Qed.

Lemma student_folder_raises (e : Env) (s : Student.t) (err : exn) :
  student_folder_of fromisoformat e s = Raise err ->
  err = Raised IndexError (lit "list index out of range").
Proof.
  unfold student_folder_of, student_folder_name.
  destruct (split _) as [|first more]; cbn [index0]; [|discriminate].
  intros [= <-]. reflexivity.
Qed.

(** With a first name of whitespace among the students, the loop does not
    return: it raises, the [IndexError] of the folder name or the [OSError]
    of a folder that cannot be made. *)
Lemma student_loop_stops (e : Env) (base : path) (s : Student.t)
      (students : list Student.t) :
  In s students -> nameable s = false ->
  forall (tasks : list task) (st : State) (r : result (list task))
         (st' : State),
    student_loop fromisoformat e base students tasks st = (r, st') ->
    exists err,
      r = Raise err
      /\ (err = Raised IndexError (lit "list index out of range")
          \/ is_OSError err = true).
Proof.
  intros Hin Hs. induction students as [|s0 students IH]; [destruct Hin|].
  intros tasks st r st' H.
  cbn [student_loop] in H. unfold bind at 1, lift in H.
  destruct (student_folder_of fromisoformat e s0) as [name|err] eqn:Hname.
  - unfold bind at 1 in H.
    destruct (ensure_dir (path_join base name) st) as [[u|err] st1] eqn:E.
    + destruct Hin as [-> | Hin].
      * rewrite (unnameable_folder fromisoformat e s Hs) in Hname.
        discriminate.
      * apply (IH Hin _ _ _ _ H).
    + injection H as <- _. exists err. split; [reflexivity|]. right.
      apply (ensure_dir_raises _ _ _ _ E).
  - injection H as <- _. exists err. split; [reflexivity|]. left.
    apply (student_folder_raises e s0 err Hname).
Qed.

(** X14: one student whose first name is a non-empty string of whitespace
    stops the whole run: no task is built for any student, no file is
    written and the exit status is 1, for the run ends with an exception
    that is not caught, the [IndexError] of the folder name or the [OSError]
    of a folder that cannot be made.  It is the [IndexError] when the
    students before have a first name to take a token from and the folders
    up to there can be made. *)
Theorem X14_whitespace_first_name_stops_run
        (a : Args) (w : World) (st : State) (school : School.t)
        (st1 : State) (u p : str) (st2 : State) (b : Body.t Student.t)
        (before : list Student.t) (s : Student.t) (after : list Student.t) :
  choose_school int_of_str a w st = (Ok school, st1) ->
  credentials a w st1 = (Ok (u, p), st2) ->
  post_json w (export_url a school) u p = Got b ->
  Body.success b = Some true ->
  or_default (Body.data b) [] = before ++ s :: after ->
  nameable s = false ->
  (exists err st',
      main fromisoformat int_of_str a w st = (Raise err, st')
      /\ (err = Raised IndexError (lit "list index out of range")
          \/ is_OSError err = true)
      /\ exit_status (fst (main fromisoformat int_of_str a w st)) = 1%Z
      /\ files st' = files st2)
  /\ (forallb nameable before = true ->
      makeable st2 (students_root (out a)
                                  (sanitize_school_name (School.name school))) ->
      (forall s' f,
          In s' before ->
          student_folder_of fromisoformat (env w) s' = Ok f ->
          makeable st2
            (path_join (students_root (out a)
                          (sanitize_school_name (School.name school))) f)) ->
      exists st',
        main fromisoformat int_of_str a w st
        = (Raise (Raised IndexError (lit "list index out of range")), st')).
Proof.
  intros Hc Hl Hg Hs Hd Hn.
  assert (Hstep : exists o,
    gather_tasks fromisoformat int_of_str a w st
    = build_tasks fromisoformat (env w) (out a)
        (sanitize_school_name (School.name school)) (before ++ s :: after)
        (logged st2 o)).
  { unfold gather_tasks. cbv zeta.
    rewrite (bind_ok _ _ _ _ _ Hc), (bind_ok _ _ _ _ _ Hl).
    rewrite (bind_ok _ _ _ _ _ (export_students_ok w _ _ u p b st2 Hg Hs)).
    rewrite (bind_ok _ _ _ _ _ (print_run _ _)). rewrite Hd.
    eexists. reflexivity. }
  destruct Hstep as [o Hstep]. split.
  - destruct (build_tasks fromisoformat (env w) (out a)
                (sanitize_school_name (School.name school))
                (before ++ s :: after) (logged st2 o)) as [r st'] eqn:Hb.
    destruct (build_tasks_grown _ _ _ _ _ _ _ _ Hb) as [_ [Hf _]].
    assert (Herr : exists err,
      r = Raise err
      /\ (err = Raised IndexError (lit "list index out of range")
          \/ is_OSError err = true)).
    { unfold build_tasks in Hb. cbv zeta in Hb. unfold bind at 1 in Hb.
      destruct (ensure_dir _ (logged st2 o)) as [[v|err] st3] eqn:E.
      - apply (student_loop_stops (env w) _ s (before ++ s :: after)
                 (in_elt s before after) Hn _ _ _ _ Hb).
      - injection Hb as <- _. exists err. split; [reflexivity|]. right.
        apply (ensure_dir_raises _ _ _ _ E). }
    destruct Herr as [err [-> Herr]]. exists err, st'.
    rewrite (main_gather_raises _ _ a w st st' err Hstep).
    split; [reflexivity|]. split; [exact Herr|]. split; [|exact Hf].
    destruct Herr as [-> | Herr]; [reflexivity|].
    destruct err as [[] msg|n]; try discriminate Herr; reflexivity.
  - intros Hb Hroot Hm.
    destruct (build_tasks_unnameable fromisoformat (env w) (out a)
                (sanitize_school_name (School.name school)) before s after
                (logged st2 o) Hb Hn Hroot Hm) as [st' Hbuild].
    exists st'. apply main_gather_raises. rewrite Hstep. exact Hbuild.
Qed.

(** X15: slashes at the end of the base URL do not count: the run is the
    same with any number of them. *)
Theorem X15_trailing_slashes_ignored (a : Args) (w : World) (base : str)
        (n : nat) :
  main fromisoformat int_of_str (with_base_url a (base ++ repeat slash n)) w
  = main fromisoformat int_of_str (with_base_url a base) w.
Proof.
  unfold main, gather_tasks, choose_school, credentials, read_username,
    read_password.
  cbn [with_base_url base_url out workers username password].
  rewrite rstrip_slash_trailing. reflexivity.
Qed.

Lemma choose_school_listing (a : Args) (w : World) (st st0 : State) :
  mkdir_parents (out a) st = (Ok tt, st0) ->
  choose_school int_of_str a w st
  = bind (list_schools w (rstrip_slash (base_url a)))
         (fun schools =>
            if negb (truthy schools) then
              print (lit "No active schools available") ;; sys_exit 0
            else select_school int_of_str schools) st0.
Proof.
  intros H. unfold choose_school. cbv zeta.
  rewrite (bind_ok _ _ _ _ _ H). reflexivity.
Qed.

(** X16: once the output root is there, the listing of the schools ends
    the run in three ways, each with one line of output, no prompt and no
    line of input used: status 0 and the notice when the backend has no
    school; status 1 and the cause when the request raises; status 1 and
    the body when its success flag is not true.  The [sys.exit] inside the
    [try] is not caught again.  And the run does not get to the listing
    when a regular file lies where the output root or one of its parents
    should be: it ends with the exception of [mkdir], nothing printed, and
    status 1. *)
Theorem X16_listing_outcomes (a : Args) (w : World) (st : State) :
  (makeable st (out a) ->
   (forall b,
       get_json w (schools_url a) = Got b -> Body.success b = Some true ->
       or_default (Body.data b) [] = [] ->
       exists st',
         main fromisoformat int_of_str a w st = (Raise (SystemExit 0), st')
         /\ stdout st' = stdout st ++ [Printed (lit "No active schools available")]
         /\ reads st' = reads st /\ files st' = files st)
   /\ (forall msg,
         get_json w (schools_url a) = Failed msg ->
         exists st',
           main fromisoformat int_of_str a w st = (Raise (SystemExit 1), st')
           /\ stdout st'
              = stdout st ++ [Printed (lit "Error fetching schools: " ++ msg)]
           /\ reads st' = reads st /\ files st' = files st)
   /\ (forall b,
         get_json w (schools_url a) = Got b ->
         truthy (Body.success b) = false ->
         exists st',
           main fromisoformat int_of_str a w st = (Raise (SystemExit 1), st')
           /\ stdout st'
              = stdout st
                ++ [Printed (lit "Failed to list schools: " ++ Body.shown b)]
           /\ reads st' = reads st /\ files st' = files st))
  /\ (forall (q0 : path) (c : str) (r : path),
        out a = q0 ++ c :: r ->
        (forall x, In x (prefixes [] q0) -> In x (dirs st)) ->
        ~ In (q0 ++ [c]) (dirs st) -> is_file st (q0 ++ [c]) = true ->
        exists msg,
          main fromisoformat int_of_str a w st
          = (Raise (Raised (match r with
                            | [] => FileExistsError
                            | _ :: _ => NotADirectoryError
                            end) msg), st)
          /\ exit_status (fst (main fromisoformat int_of_str a w st)) = 1%Z).
Proof.
  split.
  - intros Hout.
    destruct (mkdir_parents_run (out a) st Hout)
      as [st0 [Hm [_ [Hf0 [Ho0 [Hr0 _]]]]]].
    pose proof (choose_school_listing a w st st0 Hm) as Hchoose.
    rewrite <- Hf0, <- Ho0, <- Hr0.
    unfold schools_url. split; [|split].
    + intros b Hg Hs He.
      assert (H : exists st',
        choose_school int_of_str a w st = (Raise (SystemExit 0), st')
        /\ stdout st'
           = stdout st0 ++ [Printed (lit "No active schools available")]
        /\ reads st' = reads st0 /\ files st' = files st0).
      { rewrite Hchoose. unfold list_schools. cbv zeta.
        unfold bind, try_except, of_reply. rewrite Hg.
        cbn [ret]. rewrite Hs. cbn [truthy truthy_option truthy_bool negb ret].
        rewrite He. eexists. split; [reflexivity|]. repeat split. }
      destruct H as [st' [H Hrest]]. exists st'.
      rewrite (main_choose_raises _ _ a w st st' _ H). auto.
    + intros msg Hg.
      assert (H : exists st',
        choose_school int_of_str a w st = (Raise (SystemExit 1), st')
        /\ stdout st'
           = stdout st0 ++ [Printed (lit "Error fetching schools: " ++ msg)]
        /\ reads st' = reads st0 /\ files st' = files st0).
      { rewrite Hchoose. unfold list_schools. cbv zeta.
        unfold bind, try_except, of_reply. rewrite Hg.
        eexists. split; [reflexivity|]. repeat split. }
      destruct H as [st' [H Hrest]]. exists st'.
      rewrite (main_choose_raises _ _ a w st st' _ H). auto.
    + intros b Hg Hs.
      assert (H : exists st',
        choose_school int_of_str a w st = (Raise (SystemExit 1), st')
        /\ stdout st'
           = stdout st0
             ++ [Printed (lit "Failed to list schools: " ++ Body.shown b)]
        /\ reads st' = reads st0 /\ files st' = files st0).
      { rewrite Hchoose. unfold list_schools. cbv zeta.
        unfold bind, try_except, of_reply. rewrite Hg.
        cbn [ret]. rewrite Hs. eexists. split; [reflexivity|]. repeat split. }
      destruct H as [st' [H Hrest]]. exists st'.
      rewrite (main_choose_raises _ _ a w st st' _ H). auto.
  - intros q0 c r Ha Hb Hq Hf. eexists.
    assert (H : choose_school int_of_str a w st
                = (Raise (Raised (match r with
                                  | [] => FileExistsError
                                  | _ :: _ => NotADirectoryError
                                  end)
                                 (errno_text (match r with
                                              | [] => FileExistsError
                                              | _ :: _ => NotADirectoryError
                                              end) (q0 ++ c :: r))), st)).
    { unfold choose_school. cbv zeta. apply bind_raise. rewrite Ha.
      apply (ensure_dir_blocked q0 c r st Hb Hq Hf). }
    rewrite (main_choose_raises _ _ a w st st _ H).
    split; [reflexivity|]. destruct r; reflexivity.
Qed.

End Steps.

Lemma filter_length_all {A} (f : A -> bool) (l : list A) :
  (List.length (filter f l) <= List.length l)%nat
  /\ (List.length (filter f l) = List.length l
      <-> forall x, In x l -> f x = true).
Proof.
  induction l as [|x l [IHle IHall]]; simpl.
  - split; [lia|]. split; [intros _ y [] | reflexivity].
  - destruct (f x) eqn:E; simpl.
    + split; [lia|]. rewrite Nat.succ_inj_wd, IHall. split.
      * intros H y [<- | Hy]; auto.
      * intros H y Hy. apply H. auto.
    + split; [lia|]. split; [lia|].
      intros H. rewrite (H x) in E by auto. discriminate.
Qed.

(** X17: whatever the order in which the downloads complete, the pool
    prints one line for each task, a line of success or a line of failure,
    and changes nothing else on the console; the count it returns is the
    number of tasks that succeeded, never more than the number of tasks,
    and it is equal to it exactly when every download succeeded. *)
Theorem X17_pool_report (w : World) (max_workers : Z) (tasks : list task)
        (st : State) :
  (0 < max_workers)%Z ->
  exists st' done,
    run_pool w max_workers tasks st = (Ok (successes w tasks), st')
    /\ Permutation done tasks
    /\ stdout st' = stdout st ++ map (report w) done
    /\ reads st' = reads st
    /\ (0 <= successes w tasks <= Z.of_nat (List.length tasks))%Z
    /\ (successes w tasks = Z.of_nat (List.length tasks)
        <-> forall t, In t tasks -> succeeds w t = true).
Proof.
  intros Hw.
  destruct (run_pool_run w max_workers tasks st Hw)
    as [st' [done [Hrun [Hperm [Hr Ho]]]]].
  exists st', done. destruct (filter_length_all (succeeds w) tasks) as [Hle Hall].
  unfold successes. repeat split; try assumption; try lia.
  - intros H. apply Hall. lia.
  - intros H. f_equal. apply Hall, H.
Qed.

(** ** Nothing is written before the pool *)

Lemma quiet_ret {A} (a : A) : writes_no_file (ret a).
Proof. intros st r st' [= _ <-]. reflexivity. Qed.

Lemma quiet_raise {A} (e : exn) : writes_no_file (@raise A e).
Proof. intros st r st' [= _ <-]. reflexivity. Qed.

Lemma quiet_lift {A} (x : result A) : writes_no_file (lift x).
Proof. intros st r st' [= _ <-]. reflexivity. Qed.

Lemma quiet_bind {A B} (m : M A) (k : A -> M B) :
  writes_no_file m -> (forall a, writes_no_file (k a)) ->
  writes_no_file (bind m k).
Proof.
  intros Hm Hk st r st' H. unfold bind in H.
  destruct (m st) as [[a|e] s1] eqn:E.
  - rewrite (Hk a _ _ _ H). apply (Hm _ _ _ E).
  - injection H as _ <-. apply (Hm _ _ _ E).
Qed.

Lemma quiet_try_except {A} (catches : exn -> bool) (m : M A) (h : exn -> M A) :
  writes_no_file m -> (forall e, writes_no_file (h e)) ->
  writes_no_file (try_except catches m h).
Proof.
  intros Hm Hh st r st' H. unfold try_except in H.
  destruct (m st) as [[a|e] s1] eqn:E.
  - injection H as _ <-. apply (Hm _ _ _ E).
  - destruct (catches e).
    + rewrite (Hh e _ _ _ H). apply (Hm _ _ _ E).
    + injection H as _ <-. apply (Hm _ _ _ E).
Qed.

Lemma quiet_emit (o : output) : writes_no_file (emit o).
Proof. intros st r st' [= _ <-]. reflexivity. Qed.

Lemma quiet_next_read : writes_no_file next_read.
Proof.
  intros st r st' H. rewrite next_read_pop in H. injection H as _ <-.
  reflexivity.
Qed.

Lemma quiet_input (prompt : str) : writes_no_file (input prompt).
Proof.
  apply quiet_bind; [apply quiet_emit | intros; apply quiet_next_read].
Qed.

Lemma quiet_mkdir (p : path) : writes_no_file (mkdir_parents p).
Proof.
  intros st r st' H. apply (ensure_dir_grown p st r st') in H.
  destruct H as [_ [Hf _]]. exact Hf.
Qed.

Lemma quiet_of_reply {A} (k : exn_class) (x : reply A) :
  writes_no_file (of_reply k x).
Proof. destruct x; [apply quiet_ret | apply quiet_raise]. Qed.

Lemma quiet_print_schools (schools : list School.t) (i : Z) :
  writes_no_file (print_schools i schools).
Proof.
  revert i. induction schools as [|s schools IH]; intros i.
  - apply quiet_ret.
  - cbn [print_schools]. apply quiet_bind; [apply quiet_emit | intros; apply IH].
Qed.

Lemma quiet_student_loop (fromisoformat : str -> option date) (e : Env)
      (base : path) (students : list Student.t) (tasks : list task) :
  writes_no_file (student_loop fromisoformat e base students tasks).
Proof.
  revert tasks. induction students as [|s students IH]; intros tasks.
  - apply quiet_ret.
  - cbn [student_loop]. apply quiet_bind; [apply quiet_lift | intros name].
    apply quiet_bind; [apply quiet_mkdir | intros; apply IH].
Qed.

Create HintDb quiet.

#[local] Hint Resolve quiet_ret quiet_raise quiet_lift quiet_emit
  quiet_next_read quiet_input quiet_mkdir quiet_of_reply
  quiet_print_schools quiet_student_loop : quiet.

Ltac quiet :=
  repeat first
    [ apply quiet_bind; [|intros]
    | apply quiet_try_except; [|intros]
    | match goal with
      | |- writes_no_file (if ?c then _ else _) => destruct c
      | |- writes_no_file (match ?x with _ => _ end) => destruct x
      | |- writes_no_file (let (_, _) := ?x in _) => destruct x
      end
    | solve [unfold print, sys_exit, getpass, ensure_dir; auto with quiet] ].

Section Quiet.

Variable fromisoformat : str -> option date.
Variable int_of_str : str -> option Z.

(** X18: up to the pool the run writes no file, however it goes on and
    however it ends: listing, selection, prompts, export and task building
    only print, read and make directories.  The credentials are not put on
    disk. *)
Theorem X18_no_file_before_the_pool (a : Args) (w : World) :
  writes_no_file (gather_tasks fromisoformat int_of_str a w).
Proof.
  unfold gather_tasks, choose_school, credentials, list_schools,
    select_school, read_username, read_password, prompt_password,
    export_students, check_range.
  cbv zeta. quiet.
Qed.

End Quiet.

(** ** The further properties on the concrete backend *)

Lemma X10_choose_school_valid_witness :
  exists school st',
    choose_school int_ascii (as_admin None) (backend [jane])
                  (typing [Ok (lit " 1 "); Ok (lit "secret")])
    = (Ok school, st')
    /\ nth_error [st_marys] 0 = Some school
    /\ reads st' = [Ok (lit "secret")]
    /\ files st' = [].
Proof.
  apply (X10_choose_school_valid int_ascii (as_admin None) (backend [jane])
           (typing [Ok (lit " 1 "); Ok (lit "secret")]) (body_of [st_marys])
           (lit " 1 ") [Ok (lit "secret")] 1);
    try reflexivity.
  - apply typing_makeable.
  - cbn. lia.
Defined.

Lemma X11_credentials_from_arguments_witness :
  credentials (as_admin (Some (lit " s3cret "))) (backend [jane]) (typing [])
  = (Ok (strip (lit "admin"), lit " s3cret "), typing []).
Proof.
  apply X11_credentials_from_arguments; try reflexivity; discriminate.
Defined.

Lemma X12_read_password_prompts_witness :
  exists st',
    read_password (backend [jane]) (as_admin None)
                  (typing [Raise (Raised KeyboardInterrupt []);
                           Ok (lit " s3cret ")])
    = (Ok (lit " s3cret "), st')
    /\ reads st' = [].
Proof.
  apply (proj2 (X12_read_password_prompts (as_admin None) (backend [jane])
                  (typing [Raise (Raised KeyboardInterrupt []);
                           Ok (lit " s3cret ")]) eq_refl)
               KeyboardInterrupt [] (lit " s3cret "));
    reflexivity.
Defined.

Lemma X13_no_workers_witness :
  exit_status (fst (main fromisoformat_ymd int_ascii without_workers
                         (backend [jane]) (typing [Ok (lit "1")]))) = 1%Z.
Proof.
  apply (X13_no_workers fromisoformat_ymd int_ascii without_workers
           (backend [jane]) (typing [Ok (lit "1")])
           (match fst (gather_tasks fromisoformat_ymd int_ascii without_workers
                                    (backend [jane]) (typing [Ok (lit "1")]))
            with Ok tasks => tasks | Raise _ => [] end)
           (snd (gather_tasks fromisoformat_ymd int_ascii without_workers
                              (backend [jane]) (typing [Ok (lit "1")])))).
  - vm_compute. reflexivity.
  - vm_compute. discriminate.
  - vm_compute. discriminate.
Defined.

Lemma X14_whitespace_first_name_stops_run_witness :
  exists st',
    main fromisoformat_ymd int_ascii (as_admin (Some (lit "secret")))
         (backend [jane; blank]) (typing [Ok (lit "1")])
    = (Raise (Raised IndexError (lit "list index out of range")), st').
Proof.
  apply (proj2 (X14_whitespace_first_name_stops_run
                  fromisoformat_ymd int_ascii
                  (as_admin (Some (lit "secret"))) (backend [jane; blank])
                  (typing [Ok (lit "1")]) st_marys (snd chosen)
                  (lit "admin") (lit "secret") (snd chosen)
                  (body_of [jane; blank]) [jane] blank []
                  eq_refl eq_refl eq_refl eq_refl eq_refl eq_refl)).
  - reflexivity.
  - intros q _. right. split; [reflexivity | right; reflexivity].
  - intros s f _ _ q _. right. split; [reflexivity | right; reflexivity].
Defined.

Lemma X16_listing_outcomes_witness :
  (exists st',
     main fromisoformat_ymd int_ascii anonymous empty_backend (typing [])
     = (Raise (SystemExit 0), st')
     /\ stdout st' = [Printed (lit "No active schools available")]
     /\ reads st' = [] /\ files st' = [])
  /\ exists msg,
       main fromisoformat_ymd int_ascii anonymous empty_backend
            downloads_is_a_file
       = (Raise (Raised FileExistsError msg), downloads_is_a_file)
       /\ exit_status (fst (main fromisoformat_ymd int_ascii anonymous
                                 empty_backend downloads_is_a_file)) = 1%Z.
Proof.
  split.
  - apply (proj1 (proj1 (X16_listing_outcomes fromisoformat_ymd int_ascii
                           anonymous empty_backend (typing []))
                        (typing_makeable [] _))
                 (body_of [])); reflexivity.
  - apply (proj2 (X16_listing_outcomes fromisoformat_ymd int_ascii
                    anonymous empty_backend downloads_is_a_file)
                 [] (lit "downloads") []).
    + reflexivity.
    + intros x [].
    + intros [].
    + reflexivity.
Defined.

Lemma X17_pool_report_witness :
  exists st' done,
    run_pool (backend [jane]) 8 two_tasks (typing [])
    = (Ok (successes (backend [jane]) two_tasks), st')
    /\ Permutation done two_tasks
    /\ stdout st' = map (report (backend [jane])) done.
Proof.
  destruct (X17_pool_report (backend [jane]) 8 two_tasks (typing []) eq_refl)
    as [st' [done [Hrun [Hperm [Hout _]]]]].
  exists st', done. auto.
Defined.

Lemma X18_no_file_before_the_pool_witness : files (snd gathered) = [].
Proof.
  apply (X18_no_file_before_the_pool fromisoformat_ymd int_ascii
           (as_admin (Some (lit "secret"))) (backend [jane; omar])
           (typing [Ok (lit "1")]) (fst gathered) (snd gathered)).
  unfold gathered. destruct (gather_tasks _ _ _ _ _). reflexivity.
Defined.
